(** * Retail analytics engine: normaliser and aggregation functions

    A shallow embedding of [src/utils/dataProcessor.ts] (and of the
    deduplicating normaliser of [src/unnamed/part_002]) together with the
    properties the specification states about them, and of the code around
    it: the sampling of [generateDecisionMatrix], the filtered view and the
    CSV export of the dashboard (in its two versions), and the pivot of the
    trend chart.

    Conventions of the embedding.
    - A JavaScript [number] that is known to be finite is a rational ([Q]),
      the value of the double.  Sums, differences and products of the
      amounts, quantities and timestamps of the records are computed
      exactly, as the doubles compute them on whole numbers below [2^53];
      so is a quotient that the program rounds to a whole number or
      compares with a constant at once.  Every other quotient, and every
      operation on a number derived from one (a share, a running sum of
      shares, a daily average, a margin, a growth rate), is rounded to the
      nearest double by [fl]: 53 significant bits, ties to even.  The
      exponent range is not bounded, so a result never overflows to an
      infinity.  Where the program can meet [NaN] (coercions, date parsing,
      square roots) the type [number] keeps it.
    - A JavaScript string is a [string]; non-ASCII text is held as its UTF-8
      bytes, so [includes] and the lexicographic order agree with the
      source on well-formed text.
    - A [Map] keeps insertion order and is an association list.
    - What the host runtime decides (Unicode case mapping, numeric literal
      syntax, number printing, date parsing, collation, square roots and
      powers) is a field of the class [Host]; the theorems hold for every
      host. *)

From Stdlib Require Import List String Ascii Bool ZArith QArith Qround Qabs Qpower.
From Stdlib Require Import Lia Lqa Permutation Sorted Morphisms.
From Stdlib Require OrderedTypeEx.
Import ListNotations.

Local Open Scope string_scope.
Local Open Scope Q_scope.

(** ** Numbers *)

Inductive number : Type :=
| NaN
| Fin (q : Q).

Definition Math_round (q : Q) : Q := inject_Z (Qfloor (q + (1 # 2))).
Definition Math_ceil (q : Q) : Q := inject_Z (Qceiling q).
Definition Math_min (a b : Q) : Q := if Qle_bool a b then a else b.

(** [a > b] and [a >= b] on finite numbers, as booleans. *)
Definition Qgt_bool (a b : Q) : bool := negb (Qle_bool a b).
Definition Qge_bool (a b : Q) : bool := Qle_bool b a.
Definition Qlt_bool (a b : Q) : bool := negb (Qle_bool b a).

(** *** Doubles *)

(** The nearest integer, a tie going to the even one. *)
Definition nearest_even (x : Q) : Z :=
  let f := Qfloor x in
  match Qcompare (x - inject_Z f) (1 # 2) with
  | Lt => f
  | Gt => (f + 1)%Z
  | Eq => if Z.even f then f else (f + 1)%Z
  end.

(** The exponent of the power of two at or below a non-zero [x]:
    [2 ^ binade x <= |x| < 2 ^ (binade x + 1)]. *)
Definition binade (x : Q) : Z :=
  let k := (Z.log2 (Z.abs (Qnum x)) - Z.log2 (Zpos (Qden x)))%Z in
  if Qle_bool (2 ^ k) (Qabs x) then k else (k - 1)%Z.

(** The double nearest to a real number: the number is scaled to a
    mantissa of 53 bits, the mantissa rounded to the nearest integer (ties
    to even), and scaled back. *)
Definition fl (x : Q) : Q :=
  if Qeq_bool x 0 then 0
  else let e := (binade x - 52)%Z in
       inject_Z (nearest_even (x / 2 ^ e)) * 2 ^ e.

Arguments fl : simpl never.

(** [a + b], [a - b], [a * b] and [a / b] on doubles. *)
Definition fadd (a b : Q) : Q := fl (a + b).
Definition fsub (a b : Q) : Q := fl (a - b).
Definition fmul (a b : Q) : Q := fl (a * b).
Definition fdiv (a b : Q) : Q := fl (a / b).

(** The unit roundoff [2^-53]: the largest relative error of one
    rounding. *)
Definition roundoff : Q := 1 # 9007199254740992.

Definition number_sub (a b : number) : number :=
  match a, b with
  | Fin x, Fin y => Fin (x - y)
  | _, _ => NaN
  end.

Definition number_add (a b : number) : number :=
  match a, b with
  | Fin x, Fin y => Fin (x + y)
  | _, _ => NaN
  end.

Definition number_mul (a b : number) : number :=
  match a, b with
  | Fin x, Fin y => Fin (x * y)
  | _, _ => NaN
  end.

(** Division by a finite, non-zero constant. *)
Definition number_divc (a : number) (c : Q) : number :=
  match a with
  | Fin x => Fin (x / c)
  | NaN => NaN
  end.

(** The same operations with the result rounded to a double. *)
Definition number_fadd (a b : number) : number :=
  match a, b with
  | Fin x, Fin y => Fin (fadd x y)
  | _, _ => NaN
  end.

Definition number_fmul (a b : number) : number :=
  match a, b with
  | Fin x, Fin y => Fin (fmul x y)
  | _, _ => NaN
  end.

Definition number_fdivc (a : number) (c : Q) : number :=
  match a with
  | Fin x => Fin (fdiv x c)
  | NaN => NaN
  end.

Definition number_ceil (a : number) : number :=
  match a with
  | Fin x => Fin (Math_ceil x)
  | NaN => NaN
  end.

Definition number_round (a : number) : number :=
  match a with
  | Fin x => Fin (Math_round x)
  | NaN => NaN
  end.

(** Every comparison with [NaN] is false. *)
Definition number_geb (a b : number) : bool :=
  match a, b with
  | Fin x, Fin y => Qge_bool x y
  | _, _ => false
  end.

Definition number_gtb (a b : number) : bool :=
  match a, b with
  | Fin x, Fin y => Qgt_bool x y
  | _, _ => false
  end.

Definition isNaN (a : number) : bool :=
  match a with NaN => true | Fin _ => false end.

(** ** Strings *)

(** [s.includes(p)] *)
Fixpoint includes (s p : string) : bool :=
  if prefix p s then true
  else match s with
       | EmptyString => false
       | String _ s' => includes s' p
       end.

(** [s.slice(0, n)] and [s.substring(0, n)] for [0 <= n]. *)
Definition slice0 (n : nat) (s : string) : string := substring 0 n s.

(** [a > b] on strings: code-unit lexicographic order. *)
Definition string_gtb (a b : string) : bool := String.ltb b a.

Fixpoint digits_of_pos (fuel : nat) (n : Z) (acc : string) : string :=
  match fuel with
  | O => acc
  | S fuel' =>
      let acc' := String (ascii_of_nat (48 + Z.to_nat (n mod 10))) acc in
      if (n / 10 =? 0)%Z then acc' else digits_of_pos fuel' (n / 10)%Z acc'
  end.

(** Decimal digits of a non-negative integer. *)
Definition decimal (n : Z) : string :=
  digits_of_pos (S (Z.to_nat (Z.log2 n))) n "".

Fixpoint zeros (n : nat) : string :=
  match n with O => "" | S n' => String "0" (zeros n') end.

(** Decimal digits of [n], left-padded with zeros to [w] characters. *)
Definition pad (w : nat) (n : Z) : string :=
  let d := decimal n in zeros (w - String.length d) ++ d.

(** ** The host runtime *)

Class Host : Type := {
  (** [String.prototype.toLowerCase] *)
  toLowerCase : string -> string;
  (** [Number(s)] on a string *)
  StringToNumber : string -> number;
  (** [String(n)] on a finite number *)
  NumberToString : Q -> string;
  (** [new Date(s).getTime()] on a string: milliseconds, or [NaN] *)
  Date_parse : string -> number;
  (** [a.localeCompare(b)] *)
  localeCompare : string -> string -> Z;
  (** [Math.sqrt] *)
  Math_sqrt : Q -> number;
  (** [Math.pow] on finite numbers *)
  Math_pow : Q -> Q -> Q
}.

(** ** JavaScript values of a raw row *)

Inductive value : Type :=
| VUndefined
| VNull
| VBool (b : bool)
| VNumber (n : number)
| VString (s : string).

Definition truthy (v : value) : bool :=
  match v with
  | VUndefined | VNull => false
  | VBool b => b
  | VNumber NaN => false
  | VNumber (Fin q) => negb (Qeq_bool q 0)
  | VString s => negb (s =? "")%string
  end.

(** A raw row: its own enumerable properties, in [Object.keys] order. *)
Definition Row : Type := list (string * value).

Definition Object_keys (row : Row) : list string := map fst row.

(** [row[key]] *)
Fixpoint Object_get (row : Row) (key : string) : value :=
  match row with
  | [] => VUndefined
  | (k, v) :: rest => if (k =? key)%string then v else Object_get rest key
  end.

(** [s.length] and [s.substring(0, n)] count UTF-16 code units.  On the
    UTF-8 bytes of the model a code point costs one unit (two when it
    takes four bytes) and its continuation bytes cost none. *)
Definition unit_cost (c : ascii) : nat :=
  let b := nat_of_ascii c in
  if (b <? 128)%nat then 1%nat
  else if (b <? 192)%nat then 0%nat
  else if (b <? 240)%nat then 1%nat
  else 2%nat.

Fixpoint js_length (s : string) : nat :=
  match s with
  | EmptyString => 0%nat
  | String c s' => (unit_cost c + js_length s')%nat
  end.

(** Bytes of [s] up to the first code point that no longer fits in [n]
    code units ([started] tells whether a code point is being copied). *)
Fixpoint js_take (n : nat) (started : bool) (s : string) : string :=
  match s with
  | EmptyString => EmptyString
  | String c s' =>
      match unit_cost c with
      | O => if started then String c (js_take n true s') else js_take n false s'
      | k => if (k <=? n)%nat then String c (js_take (n - k) true s')
             else EmptyString
      end
  end.

Definition js_substring0 (n : nat) (s : string) : string := js_take n true s.

(** ** Dates *)

Local Open Scope Z_scope.

Definition msPerDay : Z := 86400000.

(** Proleptic Gregorian date of a day number counted from 1970-01-01. *)
Definition civil_from_days (days : Z) : Z * Z * Z :=
  let z := days + 719468 in
  let era := z / 146097 in
  let doe := z - era * 146097 in
  let yoe := (doe - doe / 1460 + doe / 36524 - doe / 146096) / 365 in
  let y := yoe + era * 400 in
  let doy := doe - (365 * yoe + yoe / 4 - yoe / 100) in
  let mp := (5 * doy + 2) / 153 in
  let d := doy - (153 * mp + 2) / 5 + 1 in
  let m := if mp <? 10 then mp + 3 else mp - 9 in
  (if m <=? 2 then y + 1 else y, m, d).

Definition days_from_civil (y m d : Z) : Z :=
  let y' := if m <=? 2 then y - 1 else y in
  let era := y' / 400 in
  let yoe := y' - era * 400 in
  let doy := (153 * (if 2 <? m then m - 3 else m + 9) + 2) / 5 + d - 1 in
  let doe := yoe * 365 + yoe / 4 - yoe / 100 + doy in
  era * 146097 + doe - 719468.

(** The year of an ISO timestamp: four digits, or a sign and six digits
    outside 0..9999. *)
Definition iso_year (y : Z) : string :=
  if ((0 <=? y) && (y <=? 9999))%Z then pad 4 y
  else ((if (y <? 0)%Z then "-" else "+") ++ pad 6 (Z.abs y))%string.

(** [Date.prototype.toISOString] of a valid time value (milliseconds). *)
Definition iso_string (t : Z) : string :=
  let '(y, m, d) := civil_from_days (t / msPerDay) in
  let r := t mod msPerDay in
  (iso_year y ++ "-" ++ pad 2 m ++ "-" ++ pad 2 d ++ "T"
   ++ pad 2 (r / 3600000) ++ ":" ++ pad 2 (r / 60000 mod 60) ++ ":"
   ++ pad 2 (r / 1000 mod 60) ++ "." ++ pad 3 (r mod 1000) ++ "Z")%string.

Local Close Scope Z_scope.

(** Truncation towards zero. *)
Definition Qtrunc (q : Q) : Z :=
  if Qle_bool 0 q then Qfloor q else Qceiling q.

(** [TimeClip]: a time value further than 8.64e15 ms from the epoch is
    invalid. *)
Definition TimeClip (n : number) : number :=
  match n with
  | NaN => NaN
  | Fin q =>
      let t := Qtrunc q in
      if (Z.abs t <=? 8640000000000000)%Z then Fin (inject_Z t) else NaN
  end.

(** Outcome of a computation that may throw. *)
Inductive result (A : Type) : Type :=
| Ok (a : A)
| Throw (e : string).
Arguments Ok {A} a.
Arguments Throw {A} e.

Definition bind {A B : Type} (r : result A) (k : A -> result B) : result B :=
  match r with
  | Ok a => k a
  | Throw e => Throw e
  end.

Notation "x <- r ;; k" := (bind r (fun x => k))
  (at level 61, r at next level, right associativity).

(** [Array.prototype.map] with a callback that may throw: the first
    exception ends the call. *)
Fixpoint mapM {A B : Type} (f : A -> result B) (l : list A) : result (list B) :=
  match l with
  | [] => Ok []
  | x :: xs => y <- f x ;; ys <- mapM f xs ;; Ok (y :: ys)
  end.

(** [d.toISOString()]: a [RangeError] on an invalid date. *)
Definition toISOString (tv : number) : result string :=
  match tv with
  | NaN => Throw "RangeError: Invalid time value"
  | Fin t => Ok (iso_string (Qfloor t))
  end.

(** ** Sales records *)

Record SalesRecord : Type := {
  Date : string;
  Category : string;
  Product : string;
  Quantity : Q;
  Amount : Q;
  Cost : option number;
  Brand : string;
  isGift : option bool
}.

Section Normalizer.
Context {host : Host}.

Definition String_of_value (v : value) : string :=
  match v with
  | VUndefined => "undefined"
  | VNull => "null"
  | VBool true => "true"
  | VBool false => "false"
  | VNumber NaN => "NaN"
  | VNumber (Fin q) => NumberToString q
  | VString s => s
  end.

Definition Number_of_value (v : value) : number :=
  match v with
  | VUndefined => NaN
  | VNull => Fin 0
  | VBool true => Fin 1
  | VBool false => Fin 0
  | VNumber n => n
  | VString s => StringToNumber s
  end.

(** [new Date(v).getTime()] *)
Definition Date_of_value (v : value) : number :=
  match v with
  | VUndefined => NaN
  | VNull => Fin 0
  | VBool true => Fin 1
  | VBool false => Fin 0
  | VNumber n => TimeClip n
  | VString s => Date_parse s
  end.

(** [v || d] *)
Definition value_or (v d : value) : value := if truthy v then v else d.

(** [n || 0] *)
Definition number_or_zero (n : number) : Q :=
  match n with
  | NaN => 0
  | Fin q => q
  end.

Definition detectBrand (productName : string) : string :=
  let normalized := toLowerCase productName in
  if includes normalized "panasonic" || includes normalized "國際" then "Panasonic 國際"
  else if includes normalized "lg" then "LG 樂金"
  else if includes normalized "samsung" || includes normalized "三星" then "Samsung 三星"
  else if includes normalized "sony" || includes normalized "索尼" then "Sony"
  else if includes normalized "hitachi" || includes normalized "日立" then "Hitachi 日立"
  else if includes normalized "toshiba" || includes normalized "東芝" then "Toshiba 東芝"
  else if includes normalized "sharp" || includes normalized "夏普" then "Sharp 夏普"
  else if includes normalized "teco" || includes normalized "東元" then "TECO 東元"
  else if includes normalized "sampo" || includes normalized "聲寶" then "SAMPO 聲寶"
  else if includes normalized "heran" || includes normalized "禾聯" then "HERAN 禾聯"
  else if includes normalized "sanlux" || includes normalized "三洋" then "Sanlux 三洋"
  else if includes normalized "sakura" || includes normalized "櫻花" then "Sakura 櫻花"
  else if includes normalized "dyson" then "Dyson"
  else if includes normalized "philips" || includes normalized "飛利浦" then "Philips"
  else if includes normalized "tatung" || includes normalized "大同" then "Tatung 大同"
  else if includes normalized "whirlpool" || includes normalized "惠而浦" then "Whirlpool"
  else if includes normalized "daikin" || includes normalized "大金" then "Daikin 大金"
  else "Other 其他".

Definition giftKeywords : list string :=
  ["贈"; "贈品"; "禮"; "附贈"; "加贈"; "送"; "免費"].

Definition detectGift (productName : string) (amount : Q) : bool :=
  if Qeq_bool amount 0 then true
  else
    let normalized := toLowerCase productName in
    existsb (fun keyword => includes normalized keyword) giftKeywords.

(** The inner helper [getVal] of [normalizeData]. *)
Definition getVal (row : Row) (patterns : list string) : value :=
  let keys := Object_keys row in
  match find (fun k => existsb (fun p => includes (toLowerCase k) (toLowerCase p)) patterns) keys with
  | Some key => if (key =? "")%string then VNull else Object_get row key
  | None => VNull
  end.

Definition datePatterns : list string := ["date"; "日期"; "時間"; "month"; "day"].
Definition catPatterns : list string := ["category"; "cat"; "類別"; "品類"; "部門"; "類型"].
Definition prodPatterns : list string := ["product"; "name"; "model"; "商品"; "型號"; "名稱"; "品名"].
Definition qtyPatterns : list string := ["qty"; "quantity"; "count"; "數量"; "銷量"; "sales_qty"].
Definition amtPatterns : list string :=
  ["amount"; "price"; "revenue"; "金額"; "售價"; "總價"; "sales_amt"; "營業額"].
Definition costPatterns : list string := ["cost"; "成本"; "進價"].

(** The date normalisation of [normalizeData] (the same text in both
    variants). *)
Definition normalizeDate (dateVal : value) : result string :=
  if truthy dateVal then
    match dateVal with
    | VNumber n =>
        (* Excel serial date *)
        let date := TimeClip (number_mul (number_sub n (Fin (25567 + 2))) (Fin (86400 * 1000))) in
        s <- toISOString date ;; Ok (slice0 10 s)
    | _ =>
        let d := Date_of_value dateVal in
        if negb (isNaN d) then s <- toISOString d ;; Ok (slice0 10 s)
        else Ok (String_of_value dateVal)
    end
  else Ok "Unknown".

Definition normalizeCost (costVal : value) : option number :=
  if truthy costVal then Some (Number_of_value costVal) else None.

(** The callback of [rawData.map] in [src/utils/dataProcessor.ts]. *)
Definition normalizeRow (row : Row) : result SalesRecord :=
  let dateVal := getVal row datePatterns in
  let catVal := getVal row catPatterns in
  let prodVal := getVal row prodPatterns in
  let qtyVal := getVal row qtyPatterns in
  let amtVal := getVal row amtPatterns in
  let costVal := getVal row costPatterns in
  let qty := number_or_zero (Number_of_value qtyVal) in
  let amount := number_or_zero (Number_of_value amtVal) in
  let productName := String_of_value (value_or prodVal (VString "未知商品")) in
  dateStr <- normalizeDate dateVal ;;
  Ok {| Date := dateStr;
        Category := String_of_value (value_or catVal (VString "未分類"));
        Product := productName;
        Quantity := qty;
        Amount := amount;
        Cost := normalizeCost costVal;
        Brand := detectBrand productName;
        isGift := Some (detectGift productName amount) |}.

(** The output filter: [r.Quantity > 0 || r.Amount > 0]. *)
Definition positiveSale (r : SalesRecord) : bool :=
  Qgt_bool (Quantity r) 0 || Qgt_bool (Amount r) 0.

Definition normalizeData (rawData : list Row) : result (list SalesRecord) :=
  rows <- mapM normalizeRow rawData ;;
  Ok (filter positiveSale rows).

End Normalizer.

(** ** The deduplicating normaliser of [src/unnamed/part_002] *)

Module Part002.
Section Normalizer.
Context {host : Host}.

(** The template literal [`${dateStr}|${productName}|${qty}|${amount}`]. *)
Definition rowKey (dateStr productName : string) (qty amount : Q) : string :=
  dateStr ++ "|" ++ productName ++ "|" ++ NumberToString qty ++ "|" ++ NumberToString amount.

(** The callback of [rawData.map]: the state is the closed-over
    [seenRows]; [None] is the [null] returned for a duplicate. *)
Definition normalizeRow (seenRows : list string) (row : Row)
  : result (list string * option SalesRecord) :=
  let dateVal := getVal row datePatterns in
  let catVal := getVal row catPatterns in
  let prodVal := getVal row prodPatterns in
  let qtyVal := getVal row qtyPatterns in
  let amtVal := getVal row amtPatterns in
  let costVal := getVal row costPatterns in
  let qty := number_or_zero (Number_of_value qtyVal) in
  let amount := number_or_zero (Number_of_value amtVal) in
  let productName := String_of_value (value_or prodVal (VString "未知商品")) in
  dateStr <- normalizeDate dateVal ;;
  let key := rowKey dateStr productName qty amount in
  if existsb (String.eqb key) seenRows then Ok (seenRows, None)
  else
    Ok (key :: seenRows,
        Some {| Date := dateStr;
                Category := String_of_value (value_or catVal (VString "未分類"));
                Product := productName;
                Quantity := qty;
                Amount := amount;
                Cost := normalizeCost costVal;
                Brand := detectBrand productName;
                isGift := None |}).

Fixpoint mapRows (seenRows : list string) (rawData : list Row)
  : result (list (option SalesRecord)) :=
  match rawData with
  | [] => Ok []
  | row :: rest =>
      r <- normalizeRow seenRows row ;;
      rs <- mapRows (fst r) rest ;;
      Ok (snd r :: rs)
  end.

(** [r !== null && (r.Quantity > 0 || r.Amount > 0)] *)
Definition keep (r : option SalesRecord) : bool :=
  match r with
  | Some r => positiveSale r
  | None => false
  end.

Fixpoint somes {A : Type} (l : list (option A)) : list A :=
  match l with
  | [] => []
  | Some a :: l' => a :: somes l'
  | None :: l' => somes l'
  end.

Definition normalizeData (rawData : list Row) : result (list SalesRecord) :=
  rows <- mapRows [] rawData ;;
  Ok (somes (filter keep rows)).

End Normalizer.
End Part002.

(** ** Maps and arrays *)

Section JsMap.
Context {V : Type}.

Fixpoint Map_get (m : list (string * V)) (k : string) : option V :=
  match m with
  | [] => None
  | (k', v) :: rest => if (k' =? k)%string then Some v else Map_get rest k
  end.

Definition Map_has (m : list (string * V)) (k : string) : bool :=
  match Map_get m k with Some _ => true | None => false end.

(** [m.set(k, v)]: an existing key keeps its place, a new one goes last. *)
Fixpoint Map_set (m : list (string * V)) (k : string) (v : V) : list (string * V) :=
  match m with
  | [] => [(k, v)]
  | (k', v') :: rest =>
      if (k' =? k)%string then (k, v) :: rest else (k', v') :: Map_set rest k v
  end.

Definition Map_values (m : list (string * V)) : list V := map snd m.

(** [if (!m.has(k)) m.set(k, init); const e = m.get(k)!; <update e>]:
    the entry object is shared with the map, so updating it updates the
    map in place. *)
Definition Map_upsert (m : list (string * V)) (k : string) (init : V) (upd : V -> V)
  : list (string * V) :=
  let m := if Map_has m k then m else Map_set m k init in
  match Map_get m k with
  | Some e => Map_set m k (upd e)
  | None => m
  end.

End JsMap.

Section JsArray.
Context {A : Type}.

(** The comparator's verdict "a does not come after b"; a [NaN] result
    counts as 0. *)
Definition sortsBefore (cmp : A -> A -> number) (a b : A) : bool :=
  match cmp a b with
  | NaN => true
  | Fin v => Qle_bool v 0
  end.

Fixpoint sort_insert (cmp : A -> A -> number) (x : A) (l : list A) : list A :=
  match l with
  | [] => [x]
  | y :: ys => if sortsBefore cmp x y then x :: y :: ys else y :: sort_insert cmp x ys
  end.

(** [Array.prototype.sort(cmp)]: the stable sort (insertion from the
    right keeps equal elements in their original order). *)
Fixpoint Array_sort (cmp : A -> A -> number) (l : list A) : list A :=
  match l with
  | [] => []
  | x :: xs => sort_insert cmp x (Array_sort cmp xs)
  end.

(** [a.slice(-n)] *)
Definition slice_last (n : nat) (l : list A) : list A := skipn (List.length l - n) l.

End JsArray.

(** The comparator of [sort()] without argument, on strings. *)
Definition defaultCompare (a b : string) : number :=
  match String.compare a b with
  | Lt => Fin (-1)
  | Eq => Fin 0
  | Gt => Fin 1
  end.

(** [[...new Set(l)]]: first occurrences, in order. *)
Fixpoint Set_of (seen : list string) (l : list string) : list string :=
  match l with
  | [] => []
  | x :: xs => if existsb (String.eqb x) seen then Set_of seen xs
               else x :: Set_of (x :: seen) xs
  end.

Definition sumQ (l : list Q) : Q := fold_left Qplus l 0.
Arguments sumQ : simpl never.

(** ** 1. Sales contribution (ABC analysis) *)

Module Performance.

Inductive ABCClass : Type := ClassA | ClassB | ClassC.

Record ProductPerformance : Type := {
  productName : string;
  category : string;
  totalQty : Q;
  totalAmount : Q;
  averagePrice : Q;
  qtyShare : Q;
  amountShare : Q;
  cumulativeShare : Q;
  abcClass : ABCClass;
  salesFrequency : Q;
  velocityScore : Q
}.

Definition newItem (row : SalesRecord) : ProductPerformance :=
  {| productName := Product row; category := Category row;
     totalQty := 0; totalAmount := 0; averagePrice := 0;
     qtyShare := 0; amountShare := 0; cumulativeShare := 0;
     abcClass := ClassC; salesFrequency := 0; velocityScore := 0 |}.

Definition addRow (row : SalesRecord) (item : ProductPerformance) : ProductPerformance :=
  {| productName := productName item; category := category item;
     totalQty := totalQty item + Quantity row;
     totalAmount := totalAmount item + Amount row;
     averagePrice := averagePrice item;
     qtyShare := qtyShare item; amountShare := amountShare item;
     cumulativeShare := cumulativeShare item;
     abcClass := abcClass item;
     salesFrequency := salesFrequency item + 1;
     velocityScore := velocityScore item |}.

(** 1. Aggregation: the body of [data.forEach]. *)
Definition aggregate (st : Q * list (string * ProductPerformance)) (row : SalesRecord)
  : Q * list (string * ProductPerformance) :=
  let '(totalSystemAmount, grouped) := st in
  (totalSystemAmount + Amount row,
   Map_upsert grouped (Product row) (newItem row) (addRow row)).

(** 2. Metrics calculation. *)
Definition metrics (totalSystemAmount : Q) (item : ProductPerformance) : ProductPerformance :=
  {| productName := productName item; category := category item;
     totalQty := totalQty item;
     totalAmount := totalAmount item;
     averagePrice :=
       if Qgt_bool (totalQty item) 0 then Math_round (totalAmount item / totalQty item) else 0;
     qtyShare := qtyShare item;
     amountShare :=
       if Qgt_bool totalSystemAmount 0
       then fmul (fdiv (totalAmount item) totalSystemAmount) 100 else 0;
     cumulativeShare := cumulativeShare item;
     abcClass := abcClass item;
     salesFrequency := salesFrequency item;
     velocityScore := Math_min 100 (totalQty item * (15 # 10) + salesFrequency item * (5 # 10)) |}.

Definition classOf (currentCumulative : Q) : ABCClass :=
  if Qle_bool currentCumulative 80 then ClassA
  else if Qle_bool currentCumulative 95 then ClassB
  else ClassC.

Definition setClass (currentCumulative : Q) (item : ProductPerformance) : ProductPerformance :=
  {| productName := productName item; category := category item;
     totalQty := totalQty item; totalAmount := totalAmount item;
     averagePrice := averagePrice item;
     qtyShare := qtyShare item; amountShare := amountShare item;
     cumulativeShare := currentCumulative;
     abcClass := classOf currentCumulative;
     salesFrequency := salesFrequency item;
     velocityScore := velocityScore item |}.

(** 4. Assign ABC class: [result.forEach] with the running
    [currentCumulative]. *)
Fixpoint assignABC (currentCumulative : Q) (result : list ProductPerformance)
  : list ProductPerformance :=
  match result with
  | [] => []
  | item :: rest =>
      let currentCumulative := fadd currentCumulative (amountShare item) in
      setClass currentCumulative item :: assignABC currentCumulative rest
  end.

Definition analyzePerformance (data : list SalesRecord) : list ProductPerformance :=
  let '(totalSystemAmount, grouped) := fold_left aggregate data (0, []) in
  let result := map (metrics totalSystemAmount) (Map_values grouped) in
  let result := Array_sort (fun a b => Fin (totalAmount b - totalAmount a)) result in
  assignABC 0 result.

End Performance.

(** ** Plain objects used as dictionaries

    [Object.entries] lists the keys that are array indices first, in
    ascending numeric order, then the other keys in insertion order.
    (Names that [Object.prototype] defines, such as [constructor], are
    not modelled as inherited.) *)

Definition is_digit (c : ascii) : bool :=
  let n := nat_of_ascii c in ((48 <=? n) && (n <=? 57))%nat.

Fixpoint all_digits (s : string) : bool :=
  match s with
  | EmptyString => true
  | String c s' => is_digit c && all_digits s'
  end.

Fixpoint digits_value (acc : Z) (s : string) : Z :=
  match s with
  | EmptyString => acc
  | String c s' => digits_value (10 * acc + Z.of_nat (nat_of_ascii c - 48))%Z s'
  end.

(** The array index a key denotes, if it is the canonical spelling of an
    integer below 2^32 - 1. *)
Definition array_index (s : string) : option Z :=
  match s with
  | EmptyString => None
  | String c s' =>
      if all_digits s && (negb (Ascii.eqb c "0") || (s' =? "")%string) then
        let v := digits_value 0 s in
        if (v <? 4294967295)%Z then Some v else None
      else None
  end.

Definition is_index {V : Type} (e : string * V) : bool :=
  match array_index (fst e) with Some _ => true | None => false end.

Definition index_order {V : Type} (a b : string * V) : number :=
  match array_index (fst a), array_index (fst b) with
  | Some i, Some j => Fin (inject_Z (i - j))
  | _, _ => Fin 0
  end.

Definition Object_entries {V : Type} (o : list (string * V)) : list (string * V) :=
  Array_sort index_order (filter is_index o) ++ filter (fun e => negb (is_index e)) o.

(** ** 2. Seasonality *)

Module Seasonality.

Record MonthEntry : Type := {
  totalQty : Q;
  totalRev : Q;
  categories : list (string * Q)
}.

Record SeasonalityData : Type := {
  month : string;
  sales : Q;
  revenue : Q;
  topCategory : string
}.

(** [row.Date.length >= 7 ? row.Date.substring(0, 7) : row.Date] *)
Definition monthOf (row : SalesRecord) : string :=
  if (7 <=? js_length (Date row))%nat then js_substring0 7 (Date row) else Date row.

(** [(o[k] || 0)] *)
Definition lookup_or_zero (o : list (string * Q)) (k : string) : Q :=
  match Map_get o k with
  | Some v => v
  | None => 0
  end.

Definition addRow (row : SalesRecord) (entry : MonthEntry) : MonthEntry :=
  {| totalQty := totalQty entry + Quantity row;
     totalRev := totalRev entry + Amount row;
     categories :=
       Map_set (categories entry) (Category row)
               (lookup_or_zero (categories entry) (Category row) + Quantity row) |}.

Definition aggregate (grouped : list (string * MonthEntry)) (row : SalesRecord)
  : list (string * MonthEntry) :=
  Map_upsert grouped (monthOf row)
             {| totalQty := 0; totalRev := 0; categories := [] |} (addRow row).

Definition summarize (e : string * MonthEntry) : SeasonalityData :=
  let '(month, data) := e in
  let topCat :=
    hd_error (Array_sort (fun a b : string * Q => Fin (snd b - snd a))
                         (Object_entries (categories data))) in
  {| month := month;
     sales := totalQty data;
     revenue := totalRev data;
     topCategory := match topCat with Some c => fst c | None => "None" end |}.

Section WithHost.
Context {host : Host}.

Definition analyzeSeasonality (data : list SalesRecord) : list SeasonalityData :=
  let grouped := fold_left aggregate data [] in
  Array_sort (fun a b => Fin (inject_Z (localeCompare (month a) (month b))))
             (map summarize grouped).

End WithHost.
End Seasonality.

(** ** 3. Price bands *)

Module PriceBands.

Record Band : Type := { count : Q; revenue_acc : Q }.

Record PriceBandMetric : Type := {
  range : string;
  salesCount : Q;
  revenue : Q;
  percent : Q
}.

Definition rangeOf (row : SalesRecord) : string :=
  let price := if Qgt_bool (Quantity row) 0 then Amount row / Quantity row else 0 in
  if Qlt_bool price 3000 then "平價 (<3k)"
  else if Qlt_bool price 10000 then "入門 (3k-10k)"
  else if Qlt_bool price 25000 then "中階 (10k-25k)"
  else if Qlt_bool price 40000 then "高階 (25k-40k)"
  else "旗艦 (>40k)".

Definition addRow (row : SalesRecord) (b : Band) : Band :=
  {| count := count b + Quantity row; revenue_acc := revenue_acc b + Amount row |}.

Definition aggregate (st : Q * list (string * Band)) (row : SalesRecord)
  : Q * list (string * Band) :=
  let '(totalRev, bands) := st in
  (totalRev + Amount row,
   Map_upsert bands (rangeOf row) {| count := 0; revenue_acc := 0 |} (addRow row)).

Definition order : list string :=
  ["平價 (<3k)"; "入門 (3k-10k)"; "中階 (10k-25k)"; "高階 (25k-40k)"; "旗艦 (>40k)"].

(** [l.indexOf(x)] *)
Fixpoint indexOf (l : list string) (x : string) (i : Z) : Z :=
  match l with
  | [] => (-1)%Z
  | y :: ys => if (y =? x)%string then i else indexOf ys x (i + 1)%Z
  end.

Definition summarize (totalRev : Q) (e : string * Band) : PriceBandMetric :=
  let '(range, val) := e in
  {| range := range;
     salesCount := count val;
     revenue := revenue_acc val;
     percent :=
       if Qgt_bool totalRev 0 then fmul (fdiv (revenue_acc val) totalRev) 100 else 0 |}.

Definition analyzePriceBands (data : list SalesRecord) : list PriceBandMetric :=
  let '(totalRev, bands) := fold_left aggregate data (0, []) in
  Array_sort (fun a b => Fin (inject_Z (indexOf order (range a) 0 - indexOf order (range b) 0)))
             (map (summarize totalRev) bands).

End PriceBands.

(** ** 4. Brands *)

Module Brands.

Record BrandEntry : Type := { revenue_acc : Q; count : Q }.

Record BrandMetric : Type := {
  brand : string;
  revenue : Q;
  salesCount : Q;
  percentage : Q
}.

Definition addRow (row : SalesRecord) (b : BrandEntry) : BrandEntry :=
  {| revenue_acc := revenue_acc b + Amount row; count := count b + Quantity row |}.

Definition aggregate (st : Q * list (string * BrandEntry)) (row : SalesRecord)
  : Q * list (string * BrandEntry) :=
  let '(totalRev, brandMap) := st in
  (totalRev + Amount row,
   Map_upsert brandMap (Brand row) {| revenue_acc := 0; count := 0 |} (addRow row)).

Definition summarize (totalRev : Q) (e : string * BrandEntry) : BrandMetric :=
  let '(brand, data) := e in
  {| brand := brand;
     revenue := revenue_acc data;
     salesCount := count data;
     percentage :=
       if Qgt_bool totalRev 0 then fmul (fdiv (revenue_acc data) totalRev) 100 else 0 |}.

Definition analyzeBrands (data : list SalesRecord) : list BrandMetric :=
  let '(totalRev, brandMap) := fold_left aggregate data (0, []) in
  Array_sort (fun a b => Fin (revenue b - revenue a)) (map (summarize totalRev) brandMap).

End Brands.

(** ** 6. Inventory metrics *)

Module Inventory.

Record ProductInfo : Type := { qty : list Q; category_of : string }.

Record InventoryMetrics : Type := {
  productName : string;
  category : string;
  avgDailySales : Q;
  salesVariance : number;
  safetyStock : number;
  reorderPoint : number;
  suggestedOrderQty : Q
}.

(** [l.length] as a number *)
Definition len {A : Type} (l : list A) : Q := inject_Z (Z.of_nat (List.length l)).

Definition pushQty (row : SalesRecord) (info : ProductInfo) : ProductInfo :=
  {| qty := qty info ++ [Quantity row]; category_of := category_of info |}.

Definition aggregate (productMap : list (string * ProductInfo)) (row : SalesRecord)
  : list (string * ProductInfo) :=
  Map_upsert productMap (Product row)
             {| qty := []; category_of := Category row |} (pushQty row).

(** The z-score of a 95% service level (the constant [Z] of the source):
    the double written [1.65]. *)
Definition Zscore : Q := fl (165 # 100).

Section WithHost.
Context {host : Host}.

Definition summarize (totalDays leadTimeDays : Q) (e : string * ProductInfo)
  : InventoryMetrics :=
  let '(productName, info) := e in
  let totalQty := fold_left Qplus (qty info) 0 in
  let avgDailySales := fdiv totalQty totalDays in
  let mean := fdiv (fold_left Qplus (qty info) 0) (len (qty info)) in
  let variance :=
    fdiv (fold_left (fun a b => fadd a (Math_pow (fsub b mean) 2)) (qty info) 0)
         (len (qty info)) in
  let stdDev := Math_sqrt variance in
  let safetyStock :=
    number_ceil (number_fmul (number_fmul (Fin Zscore) stdDev) (Math_sqrt leadTimeDays)) in
  let reorderPoint :=
    number_ceil (number_fadd safetyStock (Fin (fmul avgDailySales leadTimeDays))) in
  let suggestedOrderQty := Math_ceil (fmul avgDailySales 30) in
  {| productName := productName;
     category := category_of info;
     avgDailySales := fdiv (Math_round (fmul avgDailySales 100)) 100;
     salesVariance := number_fdivc (number_round (number_fmul stdDev (Fin 100))) 100;
     safetyStock := safetyStock;
     reorderPoint := reorderPoint;
     suggestedOrderQty := suggestedOrderQty |}.

(** [dates.length || 1] over the distinct date strings of the data. *)
Definition totalDaysOf (data : list SalesRecord) : Q :=
  let dates := Array_sort defaultCompare (Set_of [] (map Date data)) in
  if Qeq_bool (len dates) 0 then 1 else len dates.

Definition calculateInventoryMetrics (data : list SalesRecord) (leadTimeDays : Q)
  : list InventoryMetrics :=
  let totalDays := totalDaysOf data in
  let productMap := fold_left aggregate data [] in
  Array_sort (fun a b => Fin (avgDailySales b - avgDailySales a))
             (map (summarize totalDays leadTimeDays) productMap).

End WithHost.
End Inventory.

(** ** 7. Forecast (three-month moving average) *)

Module Forecast.
Import Seasonality.

Inductive Trend : Type := UP | DOWN | STABLE.
Inductive Confidence : Type := HIGH | MEDIUM | LOW.

Record ForecastResult : Type := {
  nextMonthRevenue : Q;
  nextMonthQty : Q;
  trend : Trend;
  trendPercent : Q;
  confidence : Confidence;
  method : string
}.

Definition forecastNextMonth (seasonality : list SeasonalityData) : ForecastResult :=
  if (List.length seasonality =? 0)%nat then
    {| nextMonthRevenue := 0; nextMonthQty := 0; trend := STABLE;
       trendPercent := 0; confidence := LOW; method := "無歷史數據" |}
  else
    let recent := slice_last 3 seasonality in
    let revenues := map revenue recent in
    let quantities := map sales recent in
    let avgRevenue := fold_left Qplus revenues 0 / Inventory.len revenues in
    let avgQty := fold_left Qplus quantities 0 / Inventory.len quantities in
    let '(trend, trendPercent) :=
      if (2 <=? List.length revenues)%nat then
        let lastMonth := nth (List.length revenues - 1) revenues 0 in
        let prevMonth := nth (List.length revenues - 2) revenues 0 in
        let trendPercent :=
          if Qgt_bool prevMonth 0
          then fmul (fdiv (lastMonth - prevMonth) prevMonth) 100 else 0 in
        (if Qgt_bool trendPercent 5 then UP
         else if Qlt_bool trendPercent (-5) then DOWN
         else STABLE,
         trendPercent)
      else (STABLE, 0) in
    let confidence :=
      if (6 <=? List.length seasonality)%nat then HIGH
      else if (List.length seasonality <? 3)%nat then LOW
      else MEDIUM in
    {| nextMonthRevenue := Math_round avgRevenue;
       nextMonthQty := Math_round avgQty;
       trend := trend;
       trendPercent := fdiv (Math_round (fmul trendPercent 10)) 10;
       confidence := confidence;
       method := "3個月移動平均" |}.

End Forecast.

(** ** 9. Profit margin *)

Module Profit.

Record ProductInfo : Type := { revenue_acc : Q; cost_acc : Q; category_of : string }.

Record ProfitAnalysis : Type := {
  productName : string;
  category : string;
  totalRevenue : Q;
  totalCost : Q;
  grossProfit : Q;
  marginPercent : Q
}.

(** [r.Cost !== undefined && r.Cost > 0] *)
Definition hasPositiveCost (r : SalesRecord) : bool :=
  match Cost r with
  | Some c => number_gtb c (Fin 0)
  | None => false
  end.

(** [(row.Cost || 0)] *)
Definition cost_or_zero (r : SalesRecord) : Q :=
  match Cost r with
  | Some (Fin c) => c
  | _ => 0
  end.

Definition addRow (row : SalesRecord) (p : ProductInfo) : ProductInfo :=
  {| revenue_acc := revenue_acc p + Amount row;
     cost_acc := cost_acc p + cost_or_zero row * Quantity row;
     category_of := category_of p |}.

Definition aggregate (productMap : list (string * ProductInfo)) (row : SalesRecord)
  : list (string * ProductInfo) :=
  Map_upsert productMap (Product row)
             {| revenue_acc := 0; cost_acc := 0; category_of := Category row |} (addRow row).

Definition summarize (e : string * ProductInfo) : ProfitAnalysis :=
  let '(productName, info) := e in
  {| productName := productName;
     category := category_of info;
     totalRevenue := revenue_acc info;
     totalCost := cost_acc info;
     grossProfit := revenue_acc info - cost_acc info;
     marginPercent :=
       if Qgt_bool (revenue_acc info) 0
       then fdiv (Math_round
                    (fmul (fdiv (revenue_acc info - cost_acc info) (revenue_acc info)) 1000))
                 10
       else 0 |}.

Definition analyzeProfitMargin (data : list SalesRecord) : list ProfitAnalysis :=
  let hasCoat := existsb hasPositiveCost data in
  if negb hasCoat then []
  else
    let productMap := fold_left aggregate data [] in
    Array_sort (fun a b => Fin (marginPercent b - marginPercent a))
               (filter (fun p => Qgt_bool (totalRevenue p) 0) (map summarize productMap)).

End Profit.

(** ** 10. Slow-moving alerts *)

Module SlowMoving.

Inductive RiskLevel : Type := HIGH | MEDIUM | LOW.

Record ProductInfo : Type := { lastSale : string; totalQty : Q; category_of : string }.

Record SlowMovingAlert : Type := {
  productName : string;
  category : string;
  lastSaleDate : string;
  daysSinceLastSale : number;
  totalQtyInPeriod : Q;
  riskLevel : RiskLevel;
  recommendation : string
}.

Definition addRow (row : SalesRecord) (p : ProductInfo) : ProductInfo :=
  {| lastSale := if string_gtb (Date row) (lastSale p) then Date row else lastSale p;
     totalQty := totalQty p + Quantity row;
     category_of := category_of p |}.

Definition aggregate (productMap : list (string * ProductInfo)) (row : SalesRecord)
  : list (string * ProductInfo) :=
  Map_upsert productMap (Product row)
             {| lastSale := Date row; totalQty := 0; category_of := Category row |}
             (addRow row).

(** Milliseconds in a day: [1000 * 60 * 60 * 24]. *)
Definition dayMs : Q := 1000 * 60 * 60 * 24.

Section WithHost.
Context {host : Host}.

(** [Math.ceil((lastRecordDate.getTime() - lastSaleDate.getTime()) / dayMs)] *)
Definition daysBetween (lastRecordDate : number) (lastSale : string) : number :=
  let lastSaleDate := Date_parse lastSale in
  number_ceil (number_divc (number_sub lastRecordDate lastSaleDate) dayMs).

(** The body of [productMap.forEach]. *)
Definition check (lastRecordDate thresholdDays : number)
           (alerts : list SlowMovingAlert) (e : string * ProductInfo)
  : list SlowMovingAlert :=
  let '(productName, info) := e in
  let daysSinceLastSale := daysBetween lastRecordDate (lastSale info) in
  if number_geb daysSinceLastSale thresholdDays then
    let '(riskLevel, recommendation) :=
      if number_geb daysSinceLastSale (Fin 60) then (HIGH, "建議立即清倉或停止進貨")
      else if number_geb daysSinceLastSale (Fin 30) then (MEDIUM, "建議促銷活動或降價處理")
      else (LOW, "持續觀察銷售狀況") in
    alerts ++ [ {| productName := productName;
                   category := category_of info;
                   lastSaleDate := lastSale info;
                   daysSinceLastSale := daysSinceLastSale;
                   totalQtyInPeriod := totalQty info;
                   riskLevel := riskLevel;
                   recommendation := recommendation |} ]
  else alerts.

Definition detectSlowMoving (data : list SalesRecord) (thresholdDays : number)
  : list SlowMovingAlert :=
  let dates :=
    Array_sort defaultCompare
               (filter (fun d => negb (d =? "Unknown")%string) (map Date data)) in
  if (List.length dates =? 0)%nat then []
  else
    let lastRecordDate := Date_parse (last dates "") in
    let firstRecordDate := Date_parse (hd "" dates) in
    let dataCoverageDays :=
      number_add (number_ceil (number_divc (number_sub lastRecordDate firstRecordDate) dayMs))
                 (Fin 1) in
    let productMap := fold_left aggregate data [] in
    let alerts := fold_left (check lastRecordDate thresholdDays) productMap [] in
    Array_sort (fun a b => number_sub (daysSinceLastSale b) (daysSinceLastSale a)) alerts.

End WithHost.
End SlowMoving.

(** ** A reference host

    A small concrete runtime on which the model can be run: ASCII case
    mapping, decimal numeric literals, two date formats (the ISO calendar
    date [YYYY-MM-DD] and the [toUTCString] format
    [Www, DD Mon YYYY HH:MM:SS GMT]), code-unit collation, and square
    roots and whole powers rounded to a double. *)

Module Ref.

Definition lower_ascii (c : ascii) : ascii :=
  let n := nat_of_ascii c in
  if ((65 <=? n) && (n <=? 90))%nat then ascii_of_nat (n + 32) else c.

Fixpoint lower (s : string) : string :=
  match s with
  | EmptyString => EmptyString
  | String c s' => String (lower_ascii c) (lower s')
  end.

(** Position of the first ["."], if any. *)
Fixpoint split_dot (s : string) : string * option string :=
  match s with
  | EmptyString => (EmptyString, None)
  | String c s' =>
      if Ascii.eqb c "." then (EmptyString, Some s')
      else let '(a, b) := split_dot s' in (String c a, b)
  end.

Definition unsigned_literal (s : string) : number :=
  match split_dot s with
  | (i, None) =>
      if all_digits i && negb (i =? "")%string then Fin (inject_Z (digits_value 0 i)) else NaN
  | (i, Some f) =>
      if all_digits i && all_digits f && negb ((i ++ f) =? "")%string
      then Fin (inject_Z (digits_value 0 (i ++ f)) / inject_Z (10 ^ Z.of_nat (String.length f)))
      else NaN
  end.

(** Decimal literals with an optional sign; the empty string is 0. *)
Definition parse_number (s : string) : number :=
  match s with
  | EmptyString => Fin 0
  | String "-" s' => number_sub (Fin 0) (unsigned_literal s')
  | String "+" s' => unsigned_literal s'
  | _ => unsigned_literal s
  end.

(** Integers print in decimal, other rationals as a reduced fraction. *)
Definition print_number (q : Q) : string :=
  let r := Qred q in
  let n := Qnum r in
  let sign := if (n <? 0)%Z then "-" else "" in
  if (Z.pos (Qden r) =? 1)%Z then sign ++ decimal (Z.abs n)
  else sign ++ decimal (Z.abs n) ++ "/" ++ decimal (Z.pos (Qden r)).

Definition field (from n : nat) (s : string) : option Z :=
  let f := substring from n s in
  if all_digits f && (String.length f =? n)%nat then Some (digits_value 0 f) else None.

Definition days_in_month (y m : Z) : Z :=
  (if m =? 2 then
     if ((y mod 4 =? 0) && negb (y mod 100 =? 0)) || (y mod 400 =? 0) then 29 else 28
   else if (m =? 4) || (m =? 6) || (m =? 9) || (m =? 11) then 30 else 31)%Z.

Definition valid_civil (y m d : Z) : bool :=
  ((1 <=? m) && (m <=? 12) && (1 <=? d) && (d <=? days_in_month y m))%Z.

(** [YYYY-MM-DD], read as midnight UTC. *)
Definition parse_iso_date (s : string) : number :=
  match field 0 4 s, field 5 2 s, field 8 2 s with
  | Some y, Some m, Some d =>
      if (String.length s =? 10)%nat && (substring 4 1 s =? "-")%string
         && (substring 7 1 s =? "-")%string && valid_civil y m d
      then Fin (inject_Z (days_from_civil y m d * msPerDay))
      else NaN
  | _, _, _ => NaN
  end.

Definition monthNames : list string :=
  ["Jan"; "Feb"; "Mar"; "Apr"; "May"; "Jun"; "Jul"; "Aug"; "Sep"; "Oct"; "Nov"; "Dec"].

Definition dayNames : list string := ["Sun"; "Mon"; "Tue"; "Wed"; "Thu"; "Fri"; "Sat"].

(** [Www, DD Mon YYYY HH:MM:SS GMT], with the weekday of that date. *)
Definition parse_utc_string (s : string) : number :=
  match field 5 2 s, field 12 4 s, field 17 2 s, field 20 2 s, field 23 2 s with
  | Some d, Some y, Some hh, Some mi, Some ss =>
      let m := (PriceBands.indexOf monthNames (substring 8 3 s) 0 + 1)%Z in
      let days := days_from_civil y m d in
      if (String.length s =? 29)%nat
         && (substring 3 2 s =? ", ")%string && (substring 7 1 s =? " ")%string
         && (substring 11 1 s =? " ")%string && (substring 16 1 s =? " ")%string
         && (substring 19 1 s =? ":")%string && (substring 22 1 s =? ":")%string
         && (substring 25 4 s =? " GMT")%string
         && valid_civil y m d
         && (PriceBands.indexOf dayNames (substring 0 3 s) 0 =? (days + 4) mod 7)%Z
         && (hh <? 24)%Z && (mi <? 60)%Z && (ss <? 60)%Z
      then Fin (inject_Z (days * msPerDay + hh * 3600000 + mi * 60000 + ss * 1000))
      else NaN
  | _, _, _, _, _ => NaN
  end.

Definition parse_date (s : string) : number :=
  match parse_iso_date s with
  | Fin t => Fin t
  | NaN => parse_utc_string s
  end.

Definition compare_strings (a b : string) : Z :=
  match String.compare a b with
  | Lt => (-1)%Z
  | Eq => 0%Z
  | Gt => 1%Z
  end.

(** The square root to 200 binary places, rounded to a double. *)
Definition sqrt64 (q : Q) : number :=
  if Qle_bool 0 q
  then Fin (fl (inject_Z (Z.sqrt (Qfloor (q * inject_Z (2 ^ 400)))) / inject_Z (2 ^ 200)))
  else NaN.

(** Whole powers, rounded to a double. *)
Definition pow64 (x y : Q) : Q := fl (x ^ Qfloor y).

Definition host : Host :=
  {| toLowerCase := lower;
     StringToNumber := parse_number;
     NumberToString := print_number;
     Date_parse := parse_date;
     localeCompare := compare_strings;
     Math_sqrt := sqrt64;
     Math_pow := pow64 |}.

End Ref.

(** ** 5. Daily trend *)

Module DailyTrend.

Record DayEntry : Type := { revenue_acc : Q; orders_acc : Q }.

Record DailyTrendMetric : Type := {
  date : string;
  revenue : Q;
  orders : Q
}.

Definition addRow (row : SalesRecord) (d : DayEntry) : DayEntry :=
  {| revenue_acc := revenue_acc d + Amount row; orders_acc := orders_acc d + 1 |}.

Definition aggregate (dayMap : list (string * DayEntry)) (row : SalesRecord)
  : list (string * DayEntry) :=
  Map_upsert dayMap (Date row) {| revenue_acc := 0; orders_acc := 0 |} (addRow row).

Definition summarize (e : string * DayEntry) : DailyTrendMetric :=
  let '(date, val) := e in
  {| date := date; revenue := revenue_acc val; orders := orders_acc val |}.

Section WithHost.
Context {host : Host}.

Definition analyzeDailyTrend (data : list SalesRecord) : list DailyTrendMetric :=
  let dayMap := fold_left aggregate data [] in
  Array_sort (fun a b => Fin (inject_Z (localeCompare (date a) (date b))))
             (map summarize dayMap).

End WithHost.
End DailyTrend.

(** ** 8. Month-over-month and year-over-year comparison *)

(** [s.split(sep)] for a separator of one character. *)
Fixpoint split_on (sep : ascii) (s : string) : list string :=
  match s with
  | EmptyString => [EmptyString]
  | String c s' =>
      if Ascii.eqb c sep then EmptyString :: split_on sep s'
      else match split_on sep s' with
           | piece :: pieces => String c piece :: pieces
           | [] => [String c EmptyString]
           end
  end.

(** [l.map((x, index) => f(index, x))], the indices counted from [index]. *)
Fixpoint mapi_from {A B : Type} (f : nat -> A -> B) (index : nat) (l : list A) : list B :=
  match l with
  | [] => []
  | x :: xs => f index x :: mapi_from f (S index) xs
  end.

Module YoY.

Record YoYComparison : Type := {
  month : string;
  currentRevenue : Q;
  previousRevenue : option Q;
  yoyGrowth : option Q;
  momGrowth : option Q
}.

(** [base > 0 ? Math.round(((current - base) / base) * 1000) / 10 : undefined] *)
Definition growth (current base : Q) : option Q :=
  if Qgt_bool base 0
  then Some (fdiv (Math_round (fmul (fdiv (current - base) base) 1000)) 10)
  else None.

Section WithHost.
Context {host : Host}.

(** The global function [parseInt], a parameter like the built-ins of
    [Host]. *)
Variable parseInt : string -> number.

(** A number in a template literal. *)
Definition String_of_number (n : number) : string :=
  match n with
  | NaN => "NaN"
  | Fin q => NumberToString q
  end.

(** [`${parseInt(currentYM[0]) - 1}-${currentYM[1]}`] *)
Definition lastYearMonth (currentYM : list string) : string :=
  String_of_number (number_sub (parseInt (nth 0 currentYM "")) (Fin 1))
  ++ "-" ++ nth 1 currentYM "".

(** The callback of [seasonality.map]. *)
Definition compare (seasonality : list Seasonality.SeasonalityData)
           (monthMap : list (string * Q)) (index : nat)
           (current : Seasonality.SeasonalityData) : YoYComparison :=
  let prev := if (0 <? index)%nat then nth_error seasonality (index - 1) else None in
  let currentYM := split_on "-" (Seasonality.month current) in
  {| month := Seasonality.month current;
     currentRevenue := Seasonality.revenue current;
     previousRevenue :=
       match prev with
       | Some prevMonth => Some (Seasonality.revenue prevMonth)
       | None => None
       end;
     yoyGrowth :=
       if (List.length currentYM =? 2)%nat then
         match Map_get monthMap (lastYearMonth currentYM) with
         | Some lastYearRevenue => growth (Seasonality.revenue current) lastYearRevenue
         | None => None
         end
       else None;
     momGrowth :=
       match prev with
       | Some prevMonth =>
           growth (Seasonality.revenue current) (Seasonality.revenue prevMonth)
       | None => None
       end |}.

Definition monthMapOf (seasonality : list Seasonality.SeasonalityData) : list (string * Q) :=
  fold_left (fun m s => Map_set m (Seasonality.month s) (Seasonality.revenue s))
            seasonality [].

Definition calculateYoYComparison (seasonality : list Seasonality.SeasonalityData)
  : list YoYComparison :=
  let monthMap := monthMapOf seasonality in
  mapi_from (compare seasonality monthMap) 0 seasonality.

End WithHost.
End YoY.

(** ** Sampling for the decision prompt ([src/unnamed/part_000]) *)

Module Sampling.
Import Performance.

(** The sample of [generateDecisionMatrix]: the first 30 products of the
    class-A range, the first 5 of the class-B range, the last 5 of the
    class-C range. *)
Definition sampleData (performanceData : list ProductPerformance) : list ProductPerformance :=
  let aClass :=
    firstn 30 (filter (fun p => Qle_bool (cumulativeShare p) 80) performanceData) in
  let bClass :=
    firstn 5 (filter (fun p => Qgt_bool (cumulativeShare p) 80
                               && Qle_bool (cumulativeShare p) 95) performanceData) in
  let cClass :=
    slice_last 5 (filter (fun p => Qgt_bool (cumulativeShare p) 95) performanceData) in
  aClass ++ bClass ++ cClass.

End Sampling.

(** ** The filtered view of the dashboard
    ([src/AI STUDIO V2/components/AnalysisDashboard.tsx]) *)

Module Dashboard.

(** The string values of the enum [ABCClass]. *)
Definition ABCClass_value (c : Performance.ABCClass) : string :=
  match c with
  | Performance.ClassA => "A (核心)"
  | Performance.ClassB => "B (常規)"
  | Performance.ClassC => "C (長尾)"
  end.

Record ProductDecision : Type := {
  productName : string;
  category : string;
  tag : string;
  lifecycle : string;
  reason : string;
  action : string
}.

Record FilteredData : Type := {
  performanceMetrics : list Performance.ProductPerformance;
  seasonality : list Seasonality.SeasonalityData;
  priceBands : list PriceBands.PriceBandMetric;
  brandDistribution : list Brands.BrandMetric;
  dailyTrend : list DailyTrend.DailyTrendMetric;
  decisions : list ProductDecision
}.

(** Steps 1 and 2 of [filteredData]: the records the filters keep. *)
Definition filterRecords (globalMetrics : list Performance.ProductPerformance)
           (rawRecords : list SalesRecord) (filterCategory filterBrand filterABC : string)
  : list SalesRecord :=
  let filteredRecords := rawRecords in
  let filteredRecords :=
    if negb (filterCategory =? "All")%string
    then filter (fun r => (Category r =? filterCategory)%string) filteredRecords
    else filteredRecords in
  let filteredRecords :=
    if negb (filterBrand =? "All")%string
    then filter (fun r => (Brand r =? filterBrand)%string) filteredRecords
    else filteredRecords in
  if negb (filterABC =? "All")%string then
    let targetProducts :=
      map Performance.productName
          (filter (fun p => (ABCClass_value (Performance.abcClass p) =? filterABC)%string)
                  globalMetrics) in
    filter (fun r => existsb (String.eqb (Product r)) targetProducts) filteredRecords
  else filteredRecords.

(** [{...local, abcClass: globalMetric?.abcClass || local.abcClass}]: the
    values of the enum are non-empty strings, so a metric that is found
    always gives the class. *)
Definition withGlobalClass (globalMetrics : list Performance.ProductPerformance)
           (local : Performance.ProductPerformance) : Performance.ProductPerformance :=
  let globalMetric :=
    find (fun g => (Performance.productName g =? Performance.productName local)%string)
         globalMetrics in
  {| Performance.productName := Performance.productName local;
     Performance.category := Performance.category local;
     Performance.totalQty := Performance.totalQty local;
     Performance.totalAmount := Performance.totalAmount local;
     Performance.averagePrice := Performance.averagePrice local;
     Performance.qtyShare := Performance.qtyShare local;
     Performance.amountShare := Performance.amountShare local;
     Performance.cumulativeShare := Performance.cumulativeShare local;
     Performance.abcClass :=
       match globalMetric with
       | Some g => Performance.abcClass g
       | None => Performance.abcClass local
       end;
     Performance.salesFrequency := Performance.salesFrequency local;
     Performance.velocityScore := Performance.velocityScore local |}.

Section WithHost.
Context {host : Host}.

Definition filteredData (globalMetrics : list Performance.ProductPerformance)
           (globalDecisions : list ProductDecision) (rawRecords : list SalesRecord)
           (filterCategory filterBrand filterABC : string) : FilteredData :=
  let filteredRecords :=
    filterRecords globalMetrics rawRecords filterCategory filterBrand filterABC in
  let localMetrics := Performance.analyzePerformance filteredRecords in
  let performanceMetrics := map (withGlobalClass globalMetrics) localMetrics in
  let visibleProducts := map Performance.productName performanceMetrics in
  {| performanceMetrics := performanceMetrics;
     seasonality := Seasonality.analyzeSeasonality filteredRecords;
     priceBands := PriceBands.analyzePriceBands filteredRecords;
     brandDistribution := Brands.analyzeBrands filteredRecords;
     dailyTrend := DailyTrend.analyzeDailyTrend filteredRecords;
     decisions :=
       filter (fun d => existsb (String.eqb (productName d)) visibleProducts)
              globalDecisions |}.

(** *** CSV export *)

(** The double-quote character. *)
Definition dquote : ascii := ascii_of_nat 34.

(** The global [replace] of the cell: every double quote is doubled. *)
Fixpoint doubleQuotes (s : string) : string :=
  match s with
  | EmptyString => EmptyString
  | String c s' =>
      if Ascii.eqb c dquote then String dquote (String dquote (doubleQuotes s'))
      else String c (doubleQuotes s')
  end.

(** The template literal that wraps an escaped cell in quotes. *)
Definition csvCell (cell : string) : string :=
  String dquote (doubleQuotes cell ++ String dquote EmptyString).

(** The cells of a decision, each already converted by [String(cell)]. *)
Definition exportRow (view : FilteredData) (d : ProductDecision) : list string :=
  let metric :=
    find (fun m => (Performance.productName m =? productName d)%string)
         (performanceMetrics view) in
  [ tag d;
    productName d;
    category d;
    match metric with Some m => ABCClass_value (Performance.abcClass m) | None => "-" end;
    lifecycle d;
    reason d;
    action d;
    NumberToString (match metric with Some m => Performance.totalQty m | None => 0 end);
    NumberToString (match metric with Some m => Performance.averagePrice m | None => 0 end) ].

Definition csvLine (row : list string) : string := String.concat "," (map csvCell row).

Definition newline : string := String (ascii_of_nat 10) EmptyString.

Definition csvContent (headers : list string) (rows : list (list string)) : string :=
  String.concat newline (String.concat "," headers :: map csvLine rows).

Definition exportContent (view : FilteredData) : string :=
  csvContent
    ["決策標籤"; "商品名稱"; "類別"; "ABC分級"; "生命週期"; "分析理由"; "行動建議"; "總銷量"; "平均單價"]
    (map (exportRow view) (decisions view)).

End WithHost.
End Dashboard.

(** ** The pivot of the trend chart
    ([src/AI STUDIO V2/components/TrendChart.tsx]) *)

Module TrendChart.

Record ChartDataPoint : Type := {
  month : string;
  category : string;
  sales : Q
}.

(** The callback of [months.map]: the object [{ month }] with one property
    per category, the sales of the first point of that month and category,
    or 0.  (A category named [__proto__] is not modelled.) *)
Definition entryOf (data : list ChartDataPoint) (categories : list string)
           (month_ : string) : Row :=
  fold_left
    (fun entry cat =>
       let point :=
         find (fun d => (month d =? month_)%string && (category d =? cat)%string) data in
       Map_set entry cat
               (VNumber (Fin (match point with Some p => sales p | None => 0 end))))
    categories [("month", VString month_)].

Definition chartData (data : list ChartDataPoint) : list Row :=
  let categories := Set_of [] (map category data) in
  let months := Array_sort defaultCompare (Set_of [] (map month data)) in
  map (entryOf data categories) months.

End TrendChart.

(** ** The earlier dashboard
    ([src/components/AIChatPanel.tsx], second document)

    The same filters; the table of the view is recomputed from the records
    kept, the classes included. *)

Module LegacyDashboard.
Section WithHost.
Context {host : Host}.

Definition filteredData (globalMetrics : list Performance.ProductPerformance)
           (globalDecisions : list Dashboard.ProductDecision)
           (rawRecords : list SalesRecord)
           (filterCategory filterBrand filterABC : string) : Dashboard.FilteredData :=
  let filteredRecords :=
    Dashboard.filterRecords globalMetrics rawRecords filterCategory filterBrand filterABC in
  let performanceMetrics := Performance.analyzePerformance filteredRecords in
  let productNames := map Performance.productName performanceMetrics in
  {| Dashboard.performanceMetrics := performanceMetrics;
     Dashboard.seasonality := Seasonality.analyzeSeasonality filteredRecords;
     Dashboard.priceBands := PriceBands.analyzePriceBands filteredRecords;
     Dashboard.brandDistribution := Brands.analyzeBrands filteredRecords;
     Dashboard.dailyTrend := DailyTrend.analyzeDailyTrend filteredRecords;
     Dashboard.decisions :=
       filter (fun d => existsb (String.eqb (Dashboard.productName d)) productNames)
              globalDecisions |}.

End WithHost.
End LegacyDashboard.

(** * Vocabulary of the specification

    Definitions that only the statements use: the grouping the analysers
    compute, the samples and sums the specification speaks of, and the
    shapes of dates and keys. *)

Local Open Scope list_scope.

Section Grouping.
Context {R V : Type} (key : R -> string) (init : R -> V) (upd : R -> V -> V).

(** The map obtained by folding [Map_upsert] over the records. *)
Definition group (m : list (string * V)) (data : list R) : list (string * V) :=
  fold_left (fun m r => Map_upsert m (key r) (init r) (upd r)) data m.

Definition hasKey (k : string) (r : R) : bool := (key r =? k)%string.

End Grouping.

(** The sum of a numeric field over the values of a map. *)
Definition sumValues {V : Type} (f : V -> Q) (m : list (string * V)) : Q :=
  sumQ (map f (Map_values m)).




(** The double that a decimal literal denotes, in lowest terms. *)
Definition literal (q : Q) : Q := Qred (fl q).

(** The records of a product. *)
Definition recordsOf (product : string) (data : list SalesRecord) : list SalesRecord :=
  filter (fun r => (Product r =? product)%string) data.

(** The per-record quantities of a product, in input order. *)
Definition sampleOf (product : string) (data : list SalesRecord) : list Q :=
  map Quantity (recordsOf product data).

(** The number of distinct date strings of the data, at least 1. *)
Definition distinctDays (data : list SalesRecord) : Q :=
  inject_Z (Z.of_nat (Nat.max 1 (List.length (nodup string_dec (map Date data))))).

Definition mean (sample : list Q) : Q := fdiv (sumQ sample) (Inventory.len sample).






(** What [check] guarantees of every alert it emits. *)
Definition gated (thresholdDays : number) (a : SlowMoving.SlowMovingAlert) : Prop :=
  number_geb (SlowMoving.daysSinceLastSale a) thresholdDays = true /\
  (SlowMoving.riskLevel a, SlowMoving.recommendation a) =
    (if number_geb (SlowMoving.daysSinceLastSale a) (Fin 60)
     then (SlowMoving.HIGH, "建議立即清倉或停止進貨")
     else if number_geb (SlowMoving.daysSinceLastSale a) (Fin 30)
          then (SlowMoving.MEDIUM, "建議促銷活動或降價處理")
          else (SlowMoving.LOW, "持續觀察銷售狀況")).

(** The deduplication key of a record. *)
Definition keyOf {host : Host} (r : SalesRecord) : string :=
  Part002.rowKey (Date r) (Product r) (Quantity r) (Amount r).

(** [row] taken alone normalises to the record [r]. *)
Definition yields {host : Host} (row : Row) (r : SalesRecord) : Prop :=
  exists s, Part002.normalizeRow [] row = Ok (s, Some r).

(** The set [seenRows] after the rows of [raw]. *)
Definition seenAfter {host : Host} (seen : list string) (raw : list Row) : list string :=
  fold_left (fun s row => match Part002.normalizeRow s row with
                          | Ok (s', _) => s'
                          | Throw _ => s
                          end) raw seen.

Definition digits2 (s : string) : bool :=
  match s with
  | String a (String b EmptyString) => is_digit a && is_digit b
  | _ => false
  end.

Definition digits4 (s : string) : bool :=
  match s with
  | String a (String b (String c (String d EmptyString))) =>
      is_digit a && is_digit b && is_digit c && is_digit d
  | _ => false
  end.

(** The shape [YYYY-MM-DD]. *)
Definition isYMD (s : string) : bool :=
  match s with
  | String a (String b (String c (String d (String "-"
      (String e (String f (String "-" (String g (String h EmptyString))))))))) =>
      is_digit a && is_digit b && is_digit c && is_digit d
      && is_digit e && is_digit f && is_digit g && is_digit h
  | _ => false
  end.

(** The instants of the years 0000 to 9999, in milliseconds. *)
Definition inFourDigitYears (t : Z) : Prop :=
  (-62167219200000 <= t <= 253402300799999)%Z.

(** [s] is the calendar date of the instant [t], written [YYYY-MM-DD]:
    the year, month and day of the UTC day of [t], whose day number
    [days_from_civil] gives back. *)
Definition renders (t : Z) (s : string) : Prop :=
  let '(y, m, d) := civil_from_days (t / msPerDay) in
  days_from_civil y m d = (t / msPerDay)%Z /\
  s = (pad 4 y ++ "-" ++ pad 2 m ++ "-" ++ pad 2 d)%string /\ isYMD s = true.

(** A date string that does not parse if it compares above ["Unknown"]. *)
Definition noDateAbove {host : Host} (s : string) : Prop :=
  string_gtb s "Unknown" = true -> Date_parse s = NaN.

(** A string that starts with a digit or a sign, as ISO timestamps do. *)
Definition lowHead (s : string) : bool :=
  match s with
  | String c _ => is_digit c || Ascii.eqb c "+" || Ascii.eqb c "-"
  | EmptyString => false
  end.

(** * Sample inputs *)

Module Sample.

Definition sale (date product : string) (quantity amount : Q) : SalesRecord :=
  {| Date := date; Category := "家電"; Product := product;
     Quantity := quantity; Amount := amount; Cost := None;
     Brand := @detectBrand Ref.host product; isGift := None |}.

Definition withCost (cost : Q) (r : SalesRecord) : SalesRecord :=
  {| Date := Date r; Category := Category r; Product := Product r;
     Quantity := Quantity r; Amount := Amount r; Cost := Some (Fin cost);
     Brand := Brand r; isGift := isGift r |}.

(** Four sales of three products over four days. *)
Definition sales : list SalesRecord :=
  [ sale "2024-01-05" "LG Fridge X" 2 40000;
    sale "2024-01-06" "LG Fridge X" 1 20000;
    sale "2024-02-10" "Sony TV" 1 30000;
    sale "2024-02-11" "Dyson V8" 1 10000 ].

(** An order, its refund and a small sale. *)
Definition refund : list SalesRecord :=
  [ sale "2024-03-01" "Bulk order" 1 20000000000000000;
    sale "2024-03-02" "Bulk refund" 1 (-20000000000000000);
    sale "2024-03-03" "Cable" 1 1 ].

(** Amounts of 50, 7 and 3. *)
Definition fifty : list SalesRecord :=
  [ sale "2024-03-01" "Rice 5kg" 1 50;
    sale "2024-03-01" "Rice 1kg" 1 7;
    sale "2024-03-01" "Salt" 1 3 ].

(** The sales of February. *)
Definition february : list SalesRecord :=
  [ sale "2024-02-10" "Sony TV" 1 30000;
    sale "2024-02-11" "Dyson V8" 1 10000 ].

Definition sixMonths : list Seasonality.SeasonalityData :=
  map (fun m => {| Seasonality.month := m; Seasonality.sales := 10;
                   Seasonality.revenue := 1000; Seasonality.topCategory := "家電" |})
      ["2024-01"; "2024-02"; "2024-03"; "2024-04"; "2024-05"; "2024-06"].

(** The example of the specification: a product last sold on 2023-12-01
    in data that end on 2024-03-01. *)
Definition stale : list SalesRecord :=
  [ sale "2023-12-01" "Sharp Oven" 1 9000;
    sale "2024-03-01" "Sony TV" 1 30000 ].

(** A product with one undated record and one dated record. *)
Definition undated : list SalesRecord :=
  [ sale "Unknown" "Teco Fan" 1 900;
    sale "2023-12-01" "Teco Fan" 1 900;
    sale "2024-03-01" "Sony TV" 1 30000 ].

(** A product with an undated record and a record whose date is written
    as [toUTCString] writes it. *)
Definition undatedUTC : list SalesRecord :=
  [ sale "Unknown" "Teco Fan" 1 900;
    sale "Wed, 01 Jan 2025 00:00:00 GMT" "Teco Fan" 1 900;
    sale "Wed, 05 Feb 2025 00:00:00 GMT" "Sony TV" 1 30000 ].





Definition saleRow : Row :=
  [ ("Date", VString "2024-01-05"); ("Product", VString "LG Fridge X");
    ("Qty", VNumber (Fin 2)); ("Amount", VNumber (Fin 40000)) ].

Definition emptyRow : Row :=
  [ ("Date", VString "2024-01-05"); ("Product", VString "LG Fridge X");
    ("Qty", VNumber (Fin 0)); ("Amount", VString "") ].

Definition serialRow : Row :=
  [ ("日期", VNumber (Fin 45296)); ("品名", VString "LG Fridge X");
    ("數量", VNumber (Fin 2)); ("金額", VNumber (Fin 40000)) ].

Definition serialZeroRow : Row :=
  [ ("日期", VNumber (Fin 0)); ("品名", VString "LG Fridge X");
    ("數量", VNumber (Fin 2)); ("金額", VNumber (Fin 40000)) ].

Definition timestampRow : Row :=
  [ ("日期", VNumber (Fin 1704412800000)); ("品名", VString "LG Fridge X");
    ("數量", VNumber (Fin 2)); ("金額", VNumber (Fin 40000)) ].

Definition garbledRow : Row :=
  [ ("Date", VString "n/a"); ("Product", VString "LG Fridge X");
    ("Qty", VNumber (Fin 2)); ("Amount", VNumber (Fin 40000)) ].

Definition undatedRow : Row :=
  [ ("Product", VString "LG Fridge X");
    ("Qty", VNumber (Fin 2)); ("Amount", VNumber (Fin 40000)) ].

Definition rawBatch : list Row := [saleRow; emptyRow].

(** Two rows of one product: one without a date, one with a date that
    does not parse. *)
Definition undatedBatch : list Row := [undatedRow; garbledRow].

Definition repeated : list Row := [saleRow; serialRow; saleRow].

(** The record of [saleRow] and of [emptyRow] in the deduplicating
    normaliser. *)
Definition saleRecord : SalesRecord :=
  {| Date := "2024-01-05"; Category := "未分類"; Product := "LG Fridge X";
     Quantity := 2; Amount := 40000; Cost := None; Brand := "LG 樂金"; isGift := None |}.

Definition emptyRecord : SalesRecord :=
  {| Date := "2024-01-05"; Category := "未分類"; Product := "LG Fridge X";
     Quantity := 0; Amount := 0; Cost := None; Brand := "LG 樂金"; isGift := None |}.

End Sample.

(** A date value that is read as a spreadsheet serial number and whose
    instant lies outside the range of [Date] (more than 8.64e15 ms from
    the epoch). *)
Definition serialOverflow (dateVal : value) : bool :=
  match dateVal with
  | VNumber (Fin q) =>
      negb (Qeq_bool q 0)
      && (8640000000000000 <? Z.abs (Qtrunc ((q - 25569) * 86400000)))%Z
  | _ => false
  end.

(** The keywords [detectBrand] looks for. *)
Definition brandKeywords : list string :=
  ["panasonic"; "國際"; "lg"; "samsung"; "三星"; "sony"; "索尼"; "hitachi"; "日立";
   "toshiba"; "東芝"; "sharp"; "夏普"; "teco"; "東元"; "sampo"; "聲寶"; "heran"; "禾聯";
   "sanlux"; "三洋"; "sakura"; "櫻花"; "dyson"; "philips"; "飛利浦"; "tatung"; "大同";
   "whirlpool"; "惠而浦"; "daikin"; "大金"].

(** The labels it returns for them. *)
Definition brandLabels : list string :=
  ["Panasonic 國際"; "LG 樂金"; "Samsung 三星"; "Sony"; "Hitachi 日立"; "Toshiba 東芝";
   "Sharp 夏普"; "TECO 東元"; "SAMPO 聲寶"; "HERAN 禾聯"; "Sanlux 三洋"; "Sakura 櫻花";
   "Dyson"; "Philips"; "Tatung 大同"; "Whirlpool"; "Daikin 大金"].

(** [s] occurs in [t]. *)
Definition occursIn (s t : string) : Prop := exists a b, t = (a ++ s ++ b)%string.

(** A record without its gift flag, as the deduplicating normaliser
    builds it. *)
Definition unflagged (r : SalesRecord) : SalesRecord :=
  {| Date := Date r; Category := Category r; Product := Product r;
     Quantity := Quantity r; Amount := Amount r; Cost := Cost r;
     Brand := Brand r; isGift := None |}.

(** [d] is a greatest string of [dates] in the code-unit order. *)
Definition latest (dates : list string) (d : string) : Prop :=
  In d dates /\ forall d', In d' dates -> string_gtb d' d = false.

(** The date strings of the records that are dated. *)
Definition datedOf (data : list SalesRecord) : list string :=
  filter (fun d => negb (d =? "Unknown")%string) (map Date data).

Definition ABCClass_eqb (a b : Performance.ABCClass) : bool :=
  match a, b with
  | Performance.ClassA, Performance.ClassA
  | Performance.ClassB, Performance.ClassB
  | Performance.ClassC, Performance.ClassC => true
  | _, _ => false
  end.

(** The rows of a class. *)
Definition ofClass (c : Performance.ABCClass) (rows : list Performance.ProductPerformance)
  : list Performance.ProductPerformance :=
  filter (fun p => ABCClass_eqb (Performance.abcClass p) c) rows.

(** A reader of CSV text.  Fields are separated by commas and records by
    line feeds; a field is written bare, without double quotes, commas or
    line feeds, or between double quotes, a double quote inside it being
    written twice. *)
Inductive CsvState : Type := Expect | Bare | Quoted | Closed.

Definition comma : ascii := ascii_of_nat 44.
Definition linefeed : ascii := ascii_of_nat 10.

(** [cur] is the text of the field being read, [fields] the fields of the
    record being read, [records] the records read. *)
Fixpoint readCsv (st : CsvState) (cur : string) (fields : list string)
         (records : list (list string)) (s : string) : option (list (list string)) :=
  match s with
  | EmptyString =>
      match st with
      | Quoted => None
      | _ => Some (records ++ [fields ++ [cur]])
      end
  | String c s' =>
      match st with
      | Quoted =>
          if Ascii.eqb c Dashboard.dquote then readCsv Closed cur fields records s'
          else readCsv Quoted (cur ++ String c EmptyString) fields records s'
      | Closed =>
          if Ascii.eqb c Dashboard.dquote
          then readCsv Quoted (cur ++ String Dashboard.dquote EmptyString) fields records s'
          else if Ascii.eqb c comma then readCsv Expect EmptyString (fields ++ [cur]) records s'
          else if Ascii.eqb c linefeed
               then readCsv Expect EmptyString [] (records ++ [fields ++ [cur]]) s'
               else None
      | Expect | Bare =>
          if Ascii.eqb c Dashboard.dquote then
            match st with
            | Expect => readCsv Quoted EmptyString fields records s'
            | _ => None
            end
          else if Ascii.eqb c comma then readCsv Expect EmptyString (fields ++ [cur]) records s'
          else if Ascii.eqb c linefeed
               then readCsv Expect EmptyString [] (records ++ [fields ++ [cur]]) s'
               else readCsv Bare (cur ++ String c EmptyString) fields records s'
      end
  end.

(** A field that can be written bare. *)
Fixpoint bareText (s : string) : bool :=
  match s with
  | EmptyString => true
  | String c s' =>
      negb (Ascii.eqb c Dashboard.dquote) && negb (Ascii.eqb c comma)
      && negb (Ascii.eqb c linefeed) && bareText s'
  end.

(** The shape [YYYY-MM]. *)
Definition isYM (s : string) : bool :=
  match s with
  | String a (String b (String c (String d (String "-"
      (String e (String f EmptyString)))))) =>
      is_digit a && is_digit b && is_digit c && is_digit d && is_digit e && is_digit f
  | _ => false
  end.

(** The sales the chart shows for a month and a category: those of the
    first point with that month and category, or 0. *)
Definition shownSales (data : list TrendChart.ChartDataPoint) (month category : string) : Q :=
  match find (fun d => (TrendChart.month d =? month)%string
                       && (TrendChart.category d =? category)%string) data with
  | Some p => TrendChart.sales p
  | None => 0
  end.

(** * Further sample inputs *)

Module Cases.

(** A product with cost data and a product without. *)
Definition costMix : list SalesRecord :=
  [ Sample.withCost 20000 (Sample.sale "2024-02-10" "Sony TV" 1 30000);
    Sample.sale "2024-02-11" "Dyson V8" 1 10000 ].

Definition monthOf (month : string) (revenue : Q) : Seasonality.SeasonalityData :=
  {| Seasonality.month := month; Seasonality.sales := 10;
     Seasonality.revenue := revenue; Seasonality.topCategory := "家電" |}.

(** Three months, the first and the last a year apart. *)
Definition yearApart : list Seasonality.SeasonalityData :=
  [ monthOf "2023-03" 1000; monthOf "2024-02" 1000; monthOf "2024-03" 1100 ].

(** A falling and a rising quarter. *)
Definition rising : list Seasonality.SeasonalityData :=
  [ monthOf "2024-01" 900; monthOf "2024-02" 1000; monthOf "2024-03" 1100 ].

(** A text with a comma, double quotes and a line feed. *)
Definition quotedReason : string :=
  "A, " ++ String Dashboard.dquote ("core" ++ String Dashboard.dquote Dashboard.newline)
  ++ "keep".

(** Decisions for two products of [Sample.sales] and for a product that is
    not sold. *)
Definition decisions : list Dashboard.ProductDecision :=
  [ {| Dashboard.productName := "LG Fridge X"; Dashboard.category := "家電";
       Dashboard.tag := "主力進貨 (High Stock)"; Dashboard.lifecycle := "成熟期";
       Dashboard.reason := quotedReason;
       Dashboard.action := "restock" |};
    {| Dashboard.productName := "Dyson V8"; Dashboard.category := "家電";
       Dashboard.tag := "觀察名單 (Watch)"; Dashboard.lifecycle := "衰退期";
       Dashboard.reason := "slow"; Dashboard.action := "watch" |};
    {| Dashboard.productName := "Ghost"; Dashboard.category := "家電";
       Dashboard.tag := "停止進貨 (Drop)"; Dashboard.lifecycle := "衰退期";
       Dashboard.reason := "none"; Dashboard.action := "drop" |} ].

(** Twenty-five units sold over three days. *)
Definition threeDays : list SalesRecord :=
  [ Sample.sale "2024-04-01" "Tea" 10 1000;
    Sample.sale "2024-04-02" "Tea" 10 1000;
    Sample.sale "2024-04-03" "Tea" 5 500 ].

(** Twenty-three units sold over forty days, one a day on the first
    twenty-three. *)
Definition fortyDays : list SalesRecord :=
  map (fun n => Sample.sale (decimal (Z.of_nat n)) "Tea"
                            (if (n <? 23)%nat then 1 else 0) 100)
      (seq 0 40).

(** A sale of 400 at a unit cost of 197. *)
Definition costly : list SalesRecord :=
  [ Sample.withCost 197 (Sample.sale "2024-04-01" "Tea" 1 400) ].

(** Revenues of 80 and then 31, and of 80 and then 403. *)
Definition falling : list Seasonality.SeasonalityData :=
  [ monthOf "2024-01" 100; monthOf "2024-02" 80; monthOf "2024-03" 31 ].

Definition soaring : list Seasonality.SeasonalityData :=
  [ monthOf "2024-02" 80; monthOf "2024-03" 403 ].

(** Two brands with revenues of 1 and 2. *)
Definition oneAndTwo : list SalesRecord :=
  [ Sample.sale "2024-04-01" "Sony TV" 1 1;
    Sample.sale "2024-04-01" "LG Fridge X" 1 2 ].

(** Chart points of two months and two categories. *)
Definition points : list TrendChart.ChartDataPoint :=
  [ {| TrendChart.month := "2025-02"; TrendChart.category := "Cooling";
       TrendChart.sales := 10 |};
    {| TrendChart.month := "2025-01"; TrendChart.category := "Heating";
       TrendChart.sales := 120 |};
    {| TrendChart.month := "2025-01"; TrendChart.category := "Cooling";
       TrendChart.sales := 5 |} ].

End Cases.

(** * Properties *)

(** ** Arithmetic helpers *)

Lemma Qgt_bool_iff (a b : Q) : Qgt_bool a b = true <-> b < a.
Proof.
  unfold Qgt_bool. rewrite negb_true_iff.
  split; intros H.
  - apply Qnot_le_lt. intros Hle. apply Qle_bool_iff in Hle. congruence.
  - destruct (Qle_bool a b) eqn:E; [|reflexivity].
    apply Qle_bool_iff in E. exfalso. apply (Qlt_not_le _ _ H E).
Qed.


Lemma Qle_bool_false_iff (a b : Q) : Qle_bool a b = false <-> b < a.
Proof.
  rewrite <- Qgt_bool_iff. unfold Qgt_bool.
  destruct (Qle_bool a b); simpl; split; congruence.
Qed.

Lemma Qge_bool_iff (a b : Q) : Qge_bool a b = true <-> b <= a.
Proof. unfold Qge_bool. apply Qle_bool_iff. Qed.

Lemma Qge_bool_false_iff (a b : Q) : Qge_bool a b = false <-> a < b.
Proof. unfold Qge_bool. apply Qle_bool_false_iff. Qed.

(** ** Rounding to a double *)

Lemma pow2_pos (e : Z) : 0 < 2 ^ e.
Proof. apply Qpower_0_lt. reflexivity. Qed.

Lemma pow2_add (a b : Z) : 2 ^ (a + b) == 2 ^ a * 2 ^ b.
Proof. apply Qpower_plus. discriminate. Qed.

Lemma pow2_le (a b : Z) : (a <= b)%Z -> 2 ^ a <= 2 ^ b.
Proof. intros H. apply Qpower_le_compat_l; [exact H|discriminate]. Qed.

Lemma pow2_lt_inv (a b : Z) : 2 ^ a < 2 ^ b -> (a < b)%Z.
Proof. intros H. apply (Qpower_lt_compat_l_inv 2); [exact H|reflexivity]. Qed.

Lemma pow2_succ (a : Z) : 2 ^ (a + 1) == 2 * 2 ^ a.
Proof. rewrite pow2_add. change (2 ^ 1) with 2. ring. Qed.

Lemma pow2_Z (a : Z) : (0 <= a)%Z -> inject_Z (2 ^ a) == 2 ^ a.
Proof. intros H. rewrite Zpower_Qpower by exact H. reflexivity. Qed.

Lemma floor_bounds (x : Q) : inject_Z (Qfloor x) <= x /\ x < inject_Z (Qfloor x) + 1.
Proof.
  split; [apply Qfloor_le|].
  pose proof (Qlt_floor x) as H. rewrite inject_Z_plus in H. exact H.
Qed.

Lemma nearest_even_error (x : Q) :
  x - (1 # 2) <= inject_Z (nearest_even x) /\ inject_Z (nearest_even x) <= x + (1 # 2).
Proof.
  unfold nearest_even. destruct (floor_bounds x) as [H1 H2].
  destruct (Qcompare_spec (x - inject_Z (Qfloor x)) (1 # 2)) as [E|E|E].
  - destruct (Z.even (Qfloor x)); rewrite ?inject_Z_plus; change (inject_Z 1) with 1;
      split; lra.
  - split; lra.
  - rewrite inject_Z_plus. change (inject_Z 1) with 1. split; lra.
Qed.

Lemma floor_unique (x : Q) (z : Z) :
  inject_Z z <= x -> x < inject_Z z + 1 -> Qfloor x = z.
Proof.
  intros H1 H2. destruct (floor_bounds x) as [F1 F2].
  assert (A : (z < Qfloor x + 1)%Z).
  { rewrite Zlt_Qlt, inject_Z_plus. change (inject_Z 1) with 1. lra. }
  assert (B : (Qfloor x < z + 1)%Z).
  { rewrite Zlt_Qlt, inject_Z_plus. change (inject_Z 1) with 1. lra. }
  lia.
Qed.

#[global] Instance nearest_even_Proper : Proper (Qeq ==> eq) nearest_even.
Proof.
  intros x y E. unfold nearest_even.
  assert (F : Qfloor x = Qfloor y) by (rewrite E; reflexivity).
  rewrite F.
  assert (C : Qcompare (x - inject_Z (Qfloor y)) (1 # 2) =
              Qcompare (y - inject_Z (Qfloor y)) (1 # 2)).
  { rewrite E. reflexivity. }
  rewrite C. reflexivity.
Qed.

Lemma nearest_even_Z (z : Z) : nearest_even (inject_Z z) = z.
Proof.
  unfold nearest_even. rewrite Qfloor_Z.
  destruct (Qcompare_spec (inject_Z z - inject_Z z) (1 # 2)) as [E|E|E]; [lra|reflexivity|lra].
Qed.

Lemma nearest_even_mono (x y : Q) : x <= y -> (nearest_even x <= nearest_even y)%Z.
Proof.
  intros H.
  destruct (Z.le_gt_cases (nearest_even x) (nearest_even y)) as [L|G]; [exact L|exfalso].
  pose proof (Qfloor_resp_le x y H) as Hf.
  destruct (floor_bounds x) as [X1 X2]. destruct (floor_bounds y) as [Y1 Y2].
  revert G. unfold nearest_even.
  destruct (Qcompare_spec (x - inject_Z (Qfloor x)) (1 # 2)) as [Ex|Ex|Ex];
    destruct (Qcompare_spec (y - inject_Z (Qfloor y)) (1 # 2)) as [Ey|Ey|Ey];
    try (destruct (Z.even (Qfloor x)) eqn:Px); try (destruct (Z.even (Qfloor y)) eqn:Py);
    intros G; try lia.
  all: assert (Hxy : (Qfloor y < Qfloor x + 1)%Z) by lia.
  all: assert (Heq : Qfloor x = Qfloor y) by lia.
  all: try (rewrite Heq in Px; congruence).
  all: rewrite Heq in *; try lra; try lia.
Qed.

Lemma nearest_even_opp (x : Q) : nearest_even (- x) = (- nearest_even x)%Z.
Proof.
  destruct (floor_bounds x) as [X1 X2].
  destruct (Qeq_dec x (inject_Z (Qfloor x))) as [E|N].
  - clear X1 X2. set (f := Qfloor x) in *. clearbody f.
    rewrite E, <- inject_Z_opp, !nearest_even_Z. reflexivity.
  - assert (F : Qfloor (- x) = (- Qfloor x - 1)%Z).
    { apply floor_unique.
      - unfold Z.sub. rewrite inject_Z_plus, !inject_Z_opp. change (inject_Z 1) with 1. lra.
      - unfold Z.sub. rewrite inject_Z_plus, !inject_Z_opp. change (inject_Z 1) with 1.
        destruct (Qlt_le_dec (inject_Z (Qfloor x)) x); [lra|]. exfalso. apply N. lra. }
    unfold nearest_even. rewrite F.
    assert (I : inject_Z (- Qfloor x - 1) == - inject_Z (Qfloor x) - 1).
    { unfold Z.sub. rewrite inject_Z_plus, !inject_Z_opp. reflexivity. }
    destruct (Qcompare_spec (x - inject_Z (Qfloor x)) (1 # 2)) as [Ex|Ex|Ex];
      destruct (Qcompare_spec (- x - inject_Z (- Qfloor x - 1)) (1 # 2)) as [Ey|Ey|Ey];
      rewrite I in Ey; try lra.
    + replace (- Qfloor x - 1)%Z with (- (Qfloor x + 1))%Z by lia.
      rewrite Z.even_opp, Z.even_add. simpl.
      destruct (Z.even (Qfloor x)); simpl; lia.
    + lia.
    + lia.
Qed.

Lemma binade_spec (x : Q) :
  ~ x == 0 -> 2 ^ binade x <= Qabs x /\ Qabs x < 2 ^ (binade x + 1).
Proof.
  intros Hx. unfold binade.
  set (n := Z.abs (Qnum x)). set (d := Zpos (Qden x)).
  set (a := Z.log2 n). set (b := Z.log2 d).
  assert (Hn : (0 < n)%Z).
  { unfold n. destruct x as [xn xd]. simpl. unfold Qeq in Hx. simpl in Hx. lia. }
  assert (Hd : (0 < d)%Z) by (unfold d; lia).
  destruct (Z.log2_spec n Hn) as [N1 N2]. destruct (Z.log2_spec d Hd) as [D1 D2].
  fold a in N1, N2. fold b in D1, D2.
  assert (Ha : (0 <= a)%Z) by apply Z.log2_nonneg.
  assert (Hb : (0 <= b)%Z) by apply Z.log2_nonneg.
  assert (Habs : Qabs x == inject_Z n / inject_Z d).
  { destruct x as [xn xd]. unfold n, d. cbn [Qnum Qden]. rewrite <- Zabs_Qabs.
    apply Qmake_Qdiv. }
  assert (QN1 : 2 ^ a <= inject_Z n) by (rewrite <- pow2_Z by lia; rewrite <- Zle_Qle; exact N1).
  assert (QN2 : inject_Z n < 2 * 2 ^ a).
  { rewrite <- pow2_succ, <- pow2_Z by lia. rewrite <- Zlt_Qlt. exact N2. }
  assert (QD1 : 2 ^ b <= inject_Z d) by (rewrite <- pow2_Z by lia; rewrite <- Zle_Qle; exact D1).
  assert (QD2 : inject_Z d < 2 * 2 ^ b).
  { rewrite <- pow2_succ, <- pow2_Z by lia. rewrite <- Zlt_Qlt. exact D2. }
  assert (Hk : 2 ^ a == 2 ^ (a - b) * 2 ^ b).
  { rewrite <- pow2_add. replace (a - b + b)%Z with a by lia. reflexivity. }
  pose proof (pow2_pos a) as Pa. pose proof (pow2_pos b) as Pb.
  pose proof (pow2_pos (a - b)) as Pk.
  assert (Dpos : 0 < inject_Z d) by lra.
  destruct (Qle_bool (2 ^ (a - b)) (Qabs x)) eqn:T.
  - apply Qle_bool_iff in T. split; [exact T|].
    rewrite Habs, pow2_succ. apply Qlt_shift_div_r; [exact Dpos|]. nra.
  - apply Qle_bool_false_iff in T. split.
    + rewrite Habs. apply Qle_shift_div_l; [exact Dpos|].
      assert (E : 2 ^ (a - b) == 2 * 2 ^ (a - b - 1)).
      { rewrite <- pow2_succ. replace (a - b - 1 + 1)%Z with (a - b)%Z by lia. reflexivity. }
      pose proof (pow2_pos (a - b - 1)). nra.
    + replace (a - b - 1 + 1)%Z with (a - b)%Z by lia. lra.
Qed.

Lemma binade_unique (x : Q) (e : Z) :
  2 ^ e <= Qabs x -> Qabs x < 2 ^ (e + 1) -> binade x = e.
Proof.
  intros H1 H2.
  assert (Hx : ~ x == 0).
  { intros E. rewrite E in H1. pose proof (pow2_pos e). change (Qabs 0) with 0 in H1. lra. }
  destruct (binade_spec x Hx) as [B1 B2].
  assert (A : (binade x < e + 1)%Z) by (apply pow2_lt_inv; lra).
  assert (B : (e < binade x + 1)%Z) by (apply pow2_lt_inv; lra).
  lia.
Qed.

Lemma binade_comp (x y : Q) : ~ x == 0 -> x == y -> binade x = binade y.
Proof.
  intros Hx E. destruct (binade_spec x Hx) as [B1 B2].
  symmetry. apply binade_unique; rewrite <- E; assumption.
Qed.

#[global] Instance fl_Proper : Proper (Qeq ==> Qeq) fl.
Proof.
  intros x y E. unfold fl.
  destruct (Qeq_bool x 0) eqn:Zx.
  - apply Qeq_bool_iff in Zx. rewrite E in Zx. apply Qeq_bool_iff in Zx. rewrite Zx.
    reflexivity.
  - apply Qeq_bool_neq in Zx.
    assert (Zy : Qeq_bool y 0 = false).
    { destruct (Qeq_bool y 0) eqn:T; [|reflexivity].
      apply Qeq_bool_iff in T. rewrite <- E in T. contradiction. }
    rewrite Zy. cbv zeta. rewrite <- (binade_comp x y Zx E).
    set (e := (binade x - 52)%Z). clearbody e.
    assert (N : nearest_even (x / 2 ^ e) = nearest_even (y / 2 ^ e)).
    { apply nearest_even_Proper. rewrite E. reflexivity. }
    rewrite N. reflexivity.
Qed.

Lemma fl_0 : fl 0 = 0.
Proof. reflexivity. Qed.

(** The value of [fl] on a non-zero number, through its scaled mantissa. *)
Lemma fl_nonzero (x : Q) :
  ~ x == 0 ->
  fl x = inject_Z (nearest_even (x / 2 ^ (binade x - 52))) * 2 ^ (binade x - 52).
Proof.
  intros Hx. unfold fl.
  destruct (Qeq_bool x 0) eqn:Zx; [|reflexivity].
  apply Qeq_bool_iff in Zx. contradiction.
Qed.

Lemma scaled_bounds (x : Q) :
  ~ x == 0 ->
  2 ^ 52 <= Qabs (x / 2 ^ (binade x - 52)) /\ Qabs (x / 2 ^ (binade x - 52)) < 2 ^ 53.
Proof.
  intros Hx. destruct (binade_spec x Hx) as [B1 B2].
  pose proof (pow2_pos (binade x - 52)) as P.
  assert (A : Qabs (x / 2 ^ (binade x - 52)) == Qabs x / 2 ^ (binade x - 52)).
  { unfold Qdiv. rewrite Qabs_Qmult, Qabs_Qinv, (Qabs_pos (2 ^ _)) by lra. reflexivity. }
  assert (E1 : 2 ^ binade x == 2 ^ 52 * 2 ^ (binade x - 52)).
  { rewrite <- pow2_add. replace (52 + (binade x - 52))%Z with (binade x) by lia. reflexivity. }
  assert (E2 : 2 ^ (binade x + 1) == 2 ^ 53 * 2 ^ (binade x - 52)).
  { rewrite <- pow2_add. replace (53 + (binade x - 52))%Z with (binade x + 1)%Z by lia.
    reflexivity. }
  rewrite A. split.
  - apply Qle_shift_div_l; [exact P|]. lra.
  - apply Qlt_shift_div_r; [exact P|]. lra.
Qed.

(** The rounding error is at most half a unit in the last place, hence
    at most [2^-53] of the magnitude. *)
Lemma fl_error (x : Q) : Qabs (fl x - x) <= Qabs x * (1 # 9007199254740992).
Proof.
  destruct (Qeq_dec x 0) as [Z0|NZ].
  - rewrite Z0. rewrite fl_0. compute. discriminate.
  - rewrite (fl_nonzero x NZ).
    set (e := (binade x - 52)%Z).
    pose proof (pow2_pos e) as P.
    destruct (nearest_even_error (x / 2 ^ e)) as [N1 N2].
    destruct (scaled_bounds x NZ) as [S1 _]. fold e in S1.
    set (m := inject_Z (nearest_even (x / 2 ^ e))) in *.
    assert (Hx : x == (x / 2 ^ e) * 2 ^ e) by (field; lra).
    set (X := x / 2 ^ e) in *.
    assert (D : m * 2 ^ e - x == (m - X) * 2 ^ e) by (rewrite Hx at 1; ring).
    rewrite D, Qabs_Qmult, (Qabs_pos (2 ^ e)) by lra.
    assert (AX : Qabs x == Qabs X * 2 ^ e).
    { rewrite Hx at 1. rewrite Qabs_Qmult, (Qabs_pos (2 ^ e)) by lra. reflexivity. }
    rewrite AX.
    assert (M : Qabs (m - X) <= 1 # 2) by (apply Qabs_Qle_condition; split; lra).
    change (2 ^ 52) with 4503599627370496 in S1.
    pose proof (Qabs_nonneg (m - X)). nra.
Qed.

Lemma Qabs_Z (m : Z) : Qabs (inject_Z m) == inject_Z (Z.abs m).
Proof. unfold inject_Z. rewrite <- Zabs_Qabs. reflexivity. Qed.

(** A number with a mantissa of at most 53 bits is a double. *)
Lemma fl_exact (m e : Z) :
  (Z.abs m <= 2 ^ 53)%Z -> fl (inject_Z m * 2 ^ e) == inject_Z m * 2 ^ e.
Proof.
  intros Hm. set (x := inject_Z m * 2 ^ e).
  pose proof (pow2_pos e) as Pe.
  destruct (Qeq_dec x 0) as [Z0|NZ].
  - rewrite Z0. reflexivity.
  - rewrite (fl_nonzero x NZ).
    set (E := (binade x - 52)%Z).
    pose proof (pow2_pos E) as PE.
    destruct (binade_spec x NZ) as [B1 B2].
    assert (AX : Qabs x == inject_Z (Z.abs m) * 2 ^ e).
    { unfold x. rewrite Qabs_Qmult, Qabs_Z, (Qabs_pos (2 ^ e)) by lra. reflexivity. }
    assert (QM : inject_Z (Z.abs m) <= 2 ^ 53).
    { rewrite <- pow2_Z by lia. rewrite <- Zle_Qle. exact Hm. }
    assert (HE : (E <= e + 1)%Z).
    { assert (L : (binade x < 53 + e + 1)%Z).
      { apply pow2_lt_inv. rewrite (pow2_add (53 + e) 1), (pow2_add 53 e).
        change (2 ^ 1) with 2. pose proof (pow2_pos 53). nra. }
      unfold E. lia. }
    assert (Hint : exists z : Z, x / 2 ^ E == inject_Z z).
    { destruct (Z.le_gt_cases E e) as [L|G].
      - exists (m * 2 ^ (e - E))%Z.
        rewrite inject_Z_mult, pow2_Z by lia. unfold x.
        replace e with ((e - E) + E)%Z at 1 by lia. rewrite pow2_add. field. lra.
      - assert (EE : E = (e + 1)%Z) by lia.
        assert (Hbig : 2 ^ 53 <= inject_Z (Z.abs m)).
        { assert (B : binade x = (53 + e)%Z) by (unfold E in EE; lia).
          rewrite B, AX, pow2_add in B1. nra. }
        assert (Habs : Z.abs m = (2 ^ 53)%Z).
        { apply Z.le_antisymm; [exact Hm|].
          rewrite Zle_Qle, pow2_Z by lia. exact Hbig. }
        exists (m / 2)%Z.
        assert (Hm2 : m = (2 * (m / 2))%Z).
        { destruct (Z.abs_eq_or_opp m) as [A|A]; rewrite A in Habs.
          - rewrite Habs. reflexivity.
          - replace m with (- 2 ^ 53)%Z by lia. reflexivity. }
        unfold x. rewrite EE, pow2_succ. rewrite Hm2 at 1. rewrite inject_Z_mult.
        change (inject_Z 2) with 2. field. lra. }
    destruct Hint as [z Hz].
    rewrite (nearest_even_Proper _ _ Hz), nearest_even_Z, <- Hz. field. lra.
Qed.

Lemma fl_Z (z : Z) : (Z.abs z <= 2 ^ 53)%Z -> fl (inject_Z z) == inject_Z z.
Proof.
  intros H. pose proof (fl_exact z 0 H) as E. change (2 ^ 0) with 1 in E.
  rewrite Qmult_1_r in E. exact E.
Qed.

Lemma binade_opp (x : Q) : binade (- x) = binade x.
Proof.
  destruct (Qeq_dec x 0) as [Z0|NZ].
  - destruct x as [n d]. assert (N : n = 0%Z) by (unfold Qeq in Z0; simpl in Z0; lia).
    subst n. reflexivity.
  - destruct (binade_spec x NZ) as [B1 B2].
    apply binade_unique; rewrite Qabs_opp; assumption.
Qed.

Lemma fl_opp (x : Q) : fl (- x) == - fl x.
Proof.
  destruct (Qeq_dec x 0) as [Z0|NZ].
  - rewrite Z0. reflexivity.
  - assert (NZ' : ~ - x == 0) by (intros E; apply NZ; lra).
    rewrite (fl_nonzero x NZ), (fl_nonzero (- x) NZ'), binade_opp.
    set (e := (binade x - 52)%Z). pose proof (pow2_pos e).
    assert (E : - x / 2 ^ e == - (x / 2 ^ e)) by (field; lra).
    rewrite (nearest_even_Proper _ _ E), nearest_even_opp, inject_Z_opp. ring.
Qed.

Lemma fl_nonneg (x : Q) : 0 <= x -> 0 <= fl x.
Proof.
  intros Hx. destruct (Qeq_dec x 0) as [Z0|NZ].
  - rewrite Z0. rewrite fl_0. lra.
  - rewrite (fl_nonzero x NZ).
    set (e := (binade x - 52)%Z). pose proof (pow2_pos e) as P.
    assert (X : 0 <= x / 2 ^ e).
    { apply Qle_shift_div_l; [exact P|]. lra. }
    pose proof (nearest_even_mono 0 _ X) as M.
    change 0 with (inject_Z 0) in M at 1. rewrite nearest_even_Z in M.
    rewrite Zle_Qle in M. change (inject_Z 0) with 0 in M. nra.
Qed.

Lemma fl_nonpos (x : Q) : x <= 0 -> fl x <= 0.
Proof.
  intros Hx. assert (H : 0 <= fl (- x)) by (apply fl_nonneg; lra).
  rewrite fl_opp in H. lra.
Qed.

Lemma fl_mono_pos (x y : Q) : 0 < x -> x <= y -> fl x <= fl y.
Proof.
  intros Hx Hxy.
  assert (NZx : ~ x == 0) by lra. assert (NZy : ~ y == 0) by lra.
  destruct (binade_spec x NZx) as [X1 X2]. destruct (binade_spec y NZy) as [Y1 Y2].
  rewrite Qabs_pos in X1, X2, Y1, Y2 by lra.
  assert (L : (binade x <= binade y)%Z).
  { assert (A : (binade x < binade y + 1)%Z) by (apply pow2_lt_inv; lra). lia. }
  rewrite (fl_nonzero x NZx), (fl_nonzero y NZy).
  set (ex := (binade x - 52)%Z). set (ey := (binade y - 52)%Z).
  pose proof (pow2_pos ex) as Px. pose proof (pow2_pos ey) as Py.
  destruct (Z.eq_dec (binade x) (binade y)) as [Eq|Ne].
  - assert (E : ex = ey) by (unfold ex, ey; lia). rewrite <- E in *.
    assert (S : x / 2 ^ ex <= y / 2 ^ ex).
    { apply Qle_shift_div_l; [exact Px|].
      assert (EE : x / 2 ^ ex * 2 ^ ex == x) by (field; lra). lra. }
    pose proof (nearest_even_mono _ _ S) as M. rewrite Zle_Qle in M. nra.
  - destruct (scaled_bounds x NZx) as [_ Sx]. destruct (scaled_bounds y NZy) as [Sy _].
    fold ex in Sx. fold ey in Sy.
    assert (Xp : 0 <= x / 2 ^ ex) by (apply Qle_shift_div_l; [exact Px|lra]).
    assert (Yp : 0 <= y / 2 ^ ey) by (apply Qle_shift_div_l; [exact Py|lra]).
    rewrite Qabs_pos in Sx, Sy by assumption.
    assert (Mx : inject_Z (nearest_even (x / 2 ^ ex)) <= 2 ^ 53).
    { pose proof (nearest_even_mono _ (2 ^ 53) (Qlt_le_weak _ _ Sx)) as M.
      change (2 ^ 53) with (inject_Z 9007199254740992) in M at 1.
      rewrite nearest_even_Z, Zle_Qle in M. exact M. }
    assert (My : 2 ^ 52 <= inject_Z (nearest_even (y / 2 ^ ey))).
    { pose proof (nearest_even_mono (2 ^ 52) _ Sy) as M.
      change (2 ^ 52) with (inject_Z 4503599627370496) in M at 1.
      rewrite nearest_even_Z, Zle_Qle in M. exact M. }
    assert (Hp : 2 * 2 ^ ex <= 2 ^ ey).
    { rewrite <- pow2_succ. apply pow2_le. unfold ex, ey. lia. }
    change (2 ^ 53) with 9007199254740992 in Mx.
    change (2 ^ 52) with 4503599627370496 in My.
    nra.
Qed.

(** Rounding keeps the order. *)
Lemma fl_mono (x y : Q) : x <= y -> fl x <= fl y.
Proof.
  intros Hxy.
  destruct (Qlt_le_dec 0 x) as [Px|Nx].
  - apply fl_mono_pos; assumption.
  - destruct (Qlt_le_dec y 0) as [Ny|Py].
    + assert (H : fl (- y) <= fl (- x)) by (apply fl_mono_pos; lra).
      rewrite !fl_opp in H. lra.
    + pose proof (fl_nonpos x Nx). pose proof (fl_nonneg y Py). lra.
Qed.

(** The result of a rounding is a double: rounding it again changes
    nothing. *)
Lemma fl_idem (x : Q) : fl (fl x) == fl x.
Proof.
  destruct (Qeq_dec x 0) as [Z0|NZ].
  - rewrite Z0. reflexivity.
  - rewrite (fl_nonzero x NZ). apply fl_exact.
    destruct (scaled_bounds x NZ) as [_ S].
    set (X := x / 2 ^ (binade x - 52)) in *.
    apply Qabs_Qlt_condition in S. destruct S as [S1 S2].
    pose proof (nearest_even_mono _ (2 ^ 53) (Qlt_le_weak _ _ S2)) as M2.
    change (2 ^ 53) with (inject_Z 9007199254740992) in M2 at 1.
    rewrite nearest_even_Z in M2.
    pose proof (nearest_even_mono (- 2 ^ 53) _ (Qlt_le_weak _ _ S1)) as M1.
    change (- 2 ^ 53) with (inject_Z (- 9007199254740992)) in M1 at 1.
    rewrite nearest_even_Z in M1.
    change (2 ^ 53)%Z with 9007199254740992%Z. lia.
Qed.

Lemma fold_Qplus_acc (l : list Q) (a : Q) : fold_left Qplus l a == a + fold_left Qplus l 0.
Proof.
  revert a. induction l as [|x l IH]; intros a; simpl.
  - lra.
  - rewrite (IH (a + x)), (IH (0 + x)). lra.
Qed.

Lemma sumQ_nil : sumQ [] = 0.
Proof. reflexivity. Qed.

Lemma sumQ_cons (x : Q) (l : list Q) : sumQ (x :: l) == x + sumQ l.
Proof. unfold sumQ. simpl. rewrite fold_Qplus_acc. lra. Qed.

Lemma sumQ_app (l1 l2 : list Q) : sumQ (l1 ++ l2) == sumQ l1 + sumQ l2.
Proof.
  induction l1 as [|x l1 IH]; simpl.
  - rewrite sumQ_nil. lra.
  - rewrite !sumQ_cons, IH. lra.
Qed.

Lemma sumQ_perm (l1 l2 : list Q) : Permutation l1 l2 -> sumQ l1 == sumQ l2.
Proof.
  induction 1.
  - reflexivity.
  - rewrite !sumQ_cons, IHPermutation. reflexivity.
  - rewrite !sumQ_cons. lra.
  - etransitivity; eassumption.
Qed.

(** ** Sorting *)

Section SortFacts.
Context {A : Type} (cmp : A -> A -> number).

Lemma sort_insert_perm (x : A) (l : list A) : Permutation (sort_insert cmp x l) (x :: l).
Proof.
  induction l as [|y ys IH]; simpl.
  - reflexivity.
  - destruct (sortsBefore cmp x y).
    + reflexivity.
    + rewrite IH. apply perm_swap.
Qed.

Lemma Array_sort_perm (l : list A) : Permutation (Array_sort cmp l) l.
Proof.
  induction l as [|x xs IH]; simpl.
  - constructor.
  - rewrite sort_insert_perm. constructor. exact IH.
Qed.

Lemma Array_sort_In (l : list A) (x : A) : In x (Array_sort cmp l) <-> In x l.
Proof.
  split; apply Permutation_in; [|symmetry]; apply Array_sort_perm.
Qed.

Lemma Array_sort_Forall (P : A -> Prop) (l : list A) :
  Forall P l -> Forall P (Array_sort cmp l).
Proof.
  intros H. eapply Permutation_Forall; [|exact H]. symmetry. apply Array_sort_perm.
Qed.

Lemma Array_sort_length (l : list A) : List.length (Array_sort cmp l) = List.length l.
Proof. apply Permutation_length, Array_sort_perm. Qed.

(** When the comparator decides a total preorder [le], the result is
    sorted for it. *)
Context (le : A -> A -> Prop).
Hypothesis before_le : forall a b, sortsBefore cmp a b = true -> le a b.
Hypothesis after_le : forall a b, sortsBefore cmp a b = false -> le b a.

Lemma sort_insert_sorted (x : A) (l : list A) : Sorted le l -> Sorted le (sort_insert cmp x l).
Proof.
  induction l as [|y ys IH]; intros Hs; simpl.
  - repeat constructor.
  - destruct (sortsBefore cmp x y) eqn:E.
    + constructor; [exact Hs|]. constructor. apply before_le, E.
    + inversion Hs as [|? ? Hs' Hhd]; subst.
      constructor; [apply IH, Hs'|].
      destruct ys as [|z zs]; simpl.
      * constructor. apply after_le, E.
      * destruct (sortsBefore cmp x z); constructor.
        -- apply after_le, E.
        -- inversion Hhd; assumption.
Qed.

Lemma Array_sort_sorted (l : list A) : Sorted le (Array_sort cmp l).
Proof.
  induction l as [|x xs IH]; simpl.
  - constructor.
  - apply sort_insert_sorted, IH.
Qed.

End SortFacts.


(** ** Maps *)

Section MapFacts.
Context {V : Type}.
Implicit Types (m : list (string * V)) (k : string) (v : V).

Lemma Map_get_set m k v k' :
  Map_get (Map_set m k v) k' = if (k =? k')%string then Some v else Map_get m k'.
Proof.
  induction m as [|[k0 v0] m IH]; simpl.
  - reflexivity.
  - destruct (String.eqb_spec k0 k) as [->|Hne]; simpl.
    + destruct (k =? k')%string; reflexivity.
    + rewrite IH. destruct (String.eqb_spec k0 k') as [->|Hne'].
      * destruct (String.eqb_spec k k'); [congruence|reflexivity].
      * reflexivity.
Qed.

Lemma Map_set_keys m k v :
  map fst (Map_set m k v) = if Map_has m k then map fst m else map fst m ++ [k].
Proof.
  unfold Map_has.
  induction m as [|[k0 v0] m IH]; simpl.
  - reflexivity.
  - destruct (String.eqb_spec k0 k) as [->|Hne]; simpl.
    + reflexivity.
    + rewrite IH. destruct (Map_get m k); reflexivity.
Qed.

Lemma Map_get_In m k v : Map_get m k = Some v -> In (k, v) m.
Proof.
  induction m as [|[k0 v0] m IH]; simpl; [discriminate|].
  destruct (String.eqb_spec k0 k) as [->|Hne].
  - intros [= ->]. left. reflexivity.
  - intros H. right. apply IH, H.
Qed.

Lemma Map_get_None m k : Map_get m k = None <-> ~ In k (map fst m).
Proof.
  induction m as [|[k0 v0] m IH]; simpl.
  - tauto.
  - destruct (String.eqb_spec k0 k) as [->|Hne].
    + split; [discriminate|]. intros H. exfalso. apply H. left. reflexivity.
    + rewrite IH. tauto.
Qed.

Lemma In_Map_get m k v : NoDup (map fst m) -> In (k, v) m -> Map_get m k = Some v.
Proof.
  induction m as [|[k0 v0] m IH]; simpl; [tauto|].
  intros Hnd [Heq|Hin].
  - injection Heq as -> ->. rewrite String.eqb_refl. reflexivity.
  - inversion Hnd as [|? ? Hnotin Hnd']; subst.
    destruct (String.eqb_spec k0 k) as [->|Hne].
    + exfalso. apply Hnotin. apply (in_map fst) in Hin. exact Hin.
    + apply IH; assumption.
Qed.

Lemma Map_get_upsert m k (init : V) (upd : V -> V) k' :
  Map_get (Map_upsert m k init upd) k' =
  if (k =? k')%string
  then Some (upd (match Map_get m k with Some e => e | None => init end))
  else Map_get m k'.
Proof.
  unfold Map_upsert, Map_has.
  destruct (Map_get m k) as [e|] eqn:E.
  - rewrite E, Map_get_set. reflexivity.
  - rewrite Map_get_set, String.eqb_refl, !Map_get_set.
    destruct (k =? k')%string; reflexivity.
Qed.

Lemma Map_upsert_keys m k (init : V) (upd : V -> V) :
  map fst (Map_upsert m k init upd) = if Map_has m k then map fst m else map fst m ++ [k].
Proof.
  unfold Map_upsert, Map_has.
  destruct (Map_get m k) as [e|] eqn:E.
  - rewrite E, Map_set_keys. unfold Map_has. rewrite E. reflexivity.
  - rewrite Map_get_set, String.eqb_refl, !Map_set_keys.
    unfold Map_has. rewrite Map_get_set, String.eqb_refl, E. reflexivity.
Qed.

Lemma Map_upsert_NoDup m k (init : V) (upd : V -> V) :
  NoDup (map fst m) -> NoDup (map fst (Map_upsert m k init upd)).
Proof.
  intros Hnd. rewrite Map_upsert_keys. unfold Map_has.
  destruct (Map_get m k) eqn:E; [exact Hnd|].
  apply Map_get_None in E.
  apply NoDup_rev in Hnd. rewrite <- (rev_involutive (map fst m ++ [k])).
  apply NoDup_rev. rewrite rev_app_distr. simpl. constructor; [|exact Hnd].
  rewrite <- in_rev. exact E.
Qed.

End MapFacts.

(** ** Grouping: the map built by folding [Map_upsert] over the records *)

Section GroupBy.
Context {R V : Type} (key : R -> string) (init : R -> V) (upd : R -> V -> V).

Lemma group_keys_In (data : list R) : forall m k,
  In k (map fst (group key init upd m data)) <-> In k (map fst m) \/ In k (map key data).
Proof.
  induction data as [|r data IH]; intros m k; simpl.
  - tauto.
  - unfold group in *. simpl. rewrite IH, Map_upsert_keys.
    unfold Map_has. destruct (Map_get m (key r)) eqn:E.
    + apply Map_get_In, (in_map fst) in E. simpl in E.
      split; [tauto|]. intros [H|[<-|H]]; tauto.
    + rewrite in_app_iff. simpl. tauto.
Qed.

Lemma group_NoDup (data : list R) : forall m,
  NoDup (map fst m) -> NoDup (map fst (group key init upd m data)).
Proof.
  induction data as [|r data IH]; intros m Hnd; simpl.
  - exact Hnd.
  - apply IH, Map_upsert_NoDup, Hnd.
Qed.

(** The entry of a key: the fold of the updates of its records, from
    the initial entry its first record creates. *)
Lemma group_get (data : list R) : forall m k,
  Map_get (group key init upd m data) k =
  match Map_get m k, filter (hasKey key k) data with
  | Some e, rs => Some (fold_left (fun e r => upd r e) rs e)
  | None, [] => None
  | None, r :: rs => Some (fold_left (fun e r => upd r e) (r :: rs) (init r))
  end.
Proof.
  induction data as [|r data IH]; intros m k; simpl.
  - destruct (Map_get m k); reflexivity.
  - unfold group in *. simpl. rewrite IH, Map_get_upsert. unfold hasKey.
    destruct (String.eqb_spec (key r) k) as [<-|Hne].
    + destruct (Map_get m (key r)); reflexivity.
    + reflexivity.
Qed.

(** A property of the entries that the initial entry has and every
    update keeps holds of the whole map. *)
Lemma group_Forall (P : string -> V -> Prop) (data : list R) : forall m,
  (forall r, In r data -> P (key r) (init r)) ->
  (forall r e, In r data -> P (key r) e -> P (key r) (upd r e)) ->
  (forall k e, Map_get m k = Some e -> P k e) ->
  forall k e, Map_get (group key init upd m data) k = Some e -> P k e.
Proof.
  induction data as [|r data IH]; intros m Hinit Hupd Hm k e; simpl.
  - apply Hm.
  - apply IH.
    + intros r' Hr'. apply Hinit. right. exact Hr'.
    + intros r' e' Hr'. apply Hupd. right. exact Hr'.
    + intros k' e'. rewrite Map_get_upsert.
      destruct (String.eqb_spec (key r) k') as [<-|Hne].
      * intros [= <-]. apply Hupd; [left; reflexivity|].
        destruct (Map_get m (key r)) eqn:E.
        -- apply Hm, E.
        -- apply Hinit. left. reflexivity.
      * apply Hm.
Qed.

End GroupBy.

Lemma group_entries {R V : Type} (key : R -> string) (init : R -> V) (upd : R -> V -> V)
      (P : string -> V -> Prop) (data : list R) :
  (forall r, In r data -> P (key r) (init r)) ->
  (forall r e, In r data -> P (key r) e -> P (key r) (upd r e)) ->
  forall k e, In (k, e) (group key init upd [] data) -> P k e.
Proof.
  intros Hinit Hupd k e Hin.
  apply (group_Forall key init upd P data [] Hinit Hupd).
  - intros k' e' H. discriminate H.
  - apply In_Map_get; [|exact Hin]. apply group_NoDup. constructor.
Qed.

(** Every key of the grouped map is the key of a record. *)
Lemma group_key_origin {R V : Type} (key : R -> string) (init : R -> V) (upd : R -> V -> V)
      (data : list R) (k : string) (e : V) :
  In (k, e) (group key init upd [] data) -> exists r, In r data /\ key r = k.
Proof.
  intros Hin. apply (in_map fst) in Hin. simpl in Hin.
  apply group_keys_In in Hin. destruct Hin as [[]|Hin].
  apply in_map_iff in Hin. destruct Hin as [r [Hk Hr]]. exists r. auto.
Qed.

(** ** The folds of the analysers, as groupings *)

Lemma Performance_fold (data : list SalesRecord) : forall t m,
  fold_left Performance.aggregate data (t, m) =
  (fold_left (fun t r => t + Amount r) data t,
   group Product Performance.newItem Performance.addRow m data).
Proof.
  induction data as [|r data IH]; intros t m; simpl.
  - reflexivity.
  - apply IH.
Qed.

Lemma PriceBands_fold (data : list SalesRecord) : forall t m,
  fold_left PriceBands.aggregate data (t, m) =
  (fold_left (fun t r => t + Amount r) data t,
   group PriceBands.rangeOf
         (fun _ => {| PriceBands.count := 0; PriceBands.revenue_acc := 0 |})
         PriceBands.addRow m data).
Proof.
  induction data as [|r data IH]; intros t m; simpl.
  - reflexivity.
  - apply IH.
Qed.

Lemma Brands_fold (data : list SalesRecord) : forall t m,
  fold_left Brands.aggregate data (t, m) =
  (fold_left (fun t r => t + Amount r) data t,
   group Brand (fun _ => {| Brands.revenue_acc := 0; Brands.count := 0 |})
         Brands.addRow m data).
Proof.
  induction data as [|r data IH]; intros t m; simpl.
  - reflexivity.
  - apply IH.
Qed.

Lemma assignABC_In (l : list Performance.ProductPerformance) : forall c p,
  In p (Performance.assignABC c l) ->
  exists q c', In q l /\ p = Performance.setClass c' q.
Proof.
  induction l as [|x l IH]; intros c p; simpl.
  - tauto.
  - intros [<-|Hin].
    + exists x. eexists. split; [left; reflexivity|reflexivity].
    + destruct (IH _ _ Hin) as [q [c' [Hq Hp]]]. exists q, c'. auto.
Qed.

Lemma analyzePerformance_products (data : list SalesRecord) (p : Performance.ProductPerformance) :
  In p (Performance.analyzePerformance data) ->
  exists r, In r data /\ Product r = Performance.productName p.
Proof.
  unfold Performance.analyzePerformance. rewrite Performance_fold.
  intros Hin. apply assignABC_In in Hin. destruct Hin as [q [c' [Hq ->]]].
  apply Array_sort_In, in_map_iff in Hq. destruct Hq as [item [<- Hitem]].
  unfold Map_values in Hitem. apply in_map_iff in Hitem.
  destruct Hitem as [[k e] [<- Hke]]. simpl.
  assert (Hname : Performance.productName e = k).
  { revert k e Hke. apply group_entries.
    - reflexivity.
    - intros r e _ H. exact H. }
  apply group_key_origin in Hke. destruct Hke as [r [Hr Hk]].
  exists r. split; [exact Hr|]. congruence.
Qed.

Lemma analyzeSeasonality_months {host : Host} (data : list SalesRecord)
      (s : Seasonality.SeasonalityData) :
  In s (Seasonality.analyzeSeasonality data) ->
  exists r, In r data /\ Seasonality.monthOf r = Seasonality.month s.
Proof.
  unfold Seasonality.analyzeSeasonality. intros Hin.
  apply Array_sort_In, in_map_iff in Hin. destruct Hin as [[k e] [<- Hke]].
  change (fold_left Seasonality.aggregate data [])
    with (group Seasonality.monthOf
                (fun _ => {| Seasonality.totalQty := 0; Seasonality.totalRev := 0;
                             Seasonality.categories := [] |})
                Seasonality.addRow [] data) in Hke.
  apply group_key_origin in Hke. exact Hke.
Qed.

Lemma analyzeBrands_brands (data : list SalesRecord) (b : Brands.BrandMetric) :
  In b (Brands.analyzeBrands data) ->
  exists r, In r data /\ Brand r = Brands.brand b.
Proof.
  unfold Brands.analyzeBrands. rewrite Brands_fold. intros Hin.
  apply Array_sort_In, in_map_iff in Hin. destruct Hin as [[k e] [<- Hke]].
  apply group_key_origin in Hke. exact Hke.
Qed.

Lemma analyzePriceBands_ranges (data : list SalesRecord) (b : PriceBands.PriceBandMetric) :
  In b (PriceBands.analyzePriceBands data) ->
  exists r, In r data /\ PriceBands.rangeOf r = PriceBands.range b.
Proof.
  unfold PriceBands.analyzePriceBands. rewrite PriceBands_fold. intros Hin.
  apply Array_sort_In, in_map_iff in Hin. destruct Hin as [[k e] [<- Hke]].
  apply group_key_origin in Hke. exact Hke.
Qed.

(** C9.  Applied to any subset [sub] of a non-empty record set [full],
    each aggregation returns only keys that a record of [sub] contributes:
    every product of [analyzePerformance], every month of
    [analyzeSeasonality], every brand of [analyzeBrands] and every price
    band of [analyzePriceBands] is that of some record of [sub]. *)
Theorem aggregations_no_phantom_rows {host : Host} (full sub : list SalesRecord) :
  full <> [] ->
  incl sub full ->
  (forall p, In p (Performance.analyzePerformance sub) ->
             exists r, In r sub /\ Product r = Performance.productName p) /\
  (forall s, In s (Seasonality.analyzeSeasonality sub) ->
             exists r, In r sub /\ Seasonality.monthOf r = Seasonality.month s) /\
  (forall b, In b (Brands.analyzeBrands sub) ->
             exists r, In r sub /\ Brand r = Brands.brand b) /\
  (forall b, In b (PriceBands.analyzePriceBands sub) ->
             exists r, In r sub /\ PriceBands.rangeOf r = PriceBands.range b).
Proof.
  intros _ _. repeat split.
  - apply analyzePerformance_products.
  - apply analyzeSeasonality_months.
  - apply analyzeBrands_brands.
  - apply analyzePriceBands_ranges.
Qed.

(** ** C1: cumulative share and ABC class *)

Lemma fold_amount_total (data : list SalesRecord) (t : Q) :
  fold_left (fun t r => t + Amount r) data t == t + sumQ (map Amount data).
Proof.
  revert t. induction data as [|r data IH]; intros t; simpl.
  - rewrite sumQ_nil. lra.
  - rewrite IH, sumQ_cons. lra.
Qed.

Section MapSums.
Context {V : Type} (f : V -> Q).

Lemma sumValues_set (m : list (string * V)) (k : string) (v : V) :
  sumValues f (Map_set m k v) ==
  sumValues f m + f v - match Map_get m k with Some e => f e | None => 0 end.
Proof.
  unfold sumValues, Map_values.
  induction m as [|[k0 v0] m IH]; simpl.
  - rewrite sumQ_cons. lra.
  - destruct (String.eqb_spec k0 k) as [->|Hne]; simpl.
    + rewrite !sumQ_cons. lra.
    + rewrite !sumQ_cons, IH. lra.
Qed.

Lemma sumValues_upsert (m : list (string * V)) (k : string) (init : V) (upd : V -> V) (d : Q) :
  f init == 0 ->
  (forall e, f (upd e) == f e + d) ->
  sumValues f (Map_upsert m k init upd) == sumValues f m + d.
Proof.
  intros Hinit Hupd. unfold Map_upsert, Map_has.
  destruct (Map_get m k) as [e|] eqn:E.
  - rewrite E, sumValues_set, E, Hupd. lra.
  - rewrite Map_get_set, String.eqb_refl, !sumValues_set, Map_get_set, String.eqb_refl, E.
    rewrite Hupd. lra.
Qed.

End MapSums.

Lemma Performance_group_total (data : list SalesRecord) : forall m,
  sumValues Performance.totalAmount
            (group Product Performance.newItem Performance.addRow m data) ==
  sumValues Performance.totalAmount m + sumQ (map Amount data).
Proof.
  induction data as [|r data IH]; intros m; simpl.
  - rewrite ?sumQ_nil. lra.
  - unfold group in *. simpl. rewrite IH, sumQ_cons.
    rewrite (sumValues_upsert Performance.totalAmount m _ _ _ (Amount r)).
    + lra.
    + reflexivity.
    + intros e. reflexivity.
Qed.

Lemma Performance_entry_total (rs : list SalesRecord) : forall e,
  Performance.totalAmount (fold_left (fun e r => Performance.addRow r e) rs e) ==
  Performance.totalAmount e + sumQ (map Amount rs).
Proof.
  induction rs as [|r rs IH]; intros e; simpl.
  - rewrite sumQ_nil. lra.
  - rewrite IH, sumQ_cons. simpl. lra.
Qed.

Lemma Performance_entry_name (rs : list SalesRecord) : forall e,
  Performance.productName (fold_left (fun e r => Performance.addRow r e) rs e) =
  Performance.productName e.
Proof.
  induction rs as [|r rs IH]; intros e; simpl.
  - reflexivity.
  - rewrite IH. reflexivity.
Qed.

Lemma Performance_group_entry (data : list SalesRecord) (k : string)
      (e : Performance.ProductPerformance) :
  In (k, e) (group Product Performance.newItem Performance.addRow [] data) ->
  Performance.productName e = k /\
  Performance.totalAmount e == sumQ (map Amount (recordsOf k data)).
Proof.
  intros Hin.
  assert (Hget : Map_get (group Product Performance.newItem Performance.addRow [] data) k
                 = Some e).
  { apply In_Map_get; [|exact Hin]. apply group_NoDup. constructor. }
  rewrite group_get in Hget. simpl in Hget.
  unfold recordsOf. fold (hasKey Product k).
  destruct (filter (hasKey Product k) data) as [|r rs] eqn:E; [discriminate|].
  injection Hget as <-. split.
  - rewrite Performance_entry_name. simpl.
    assert (Hr : In r (filter (hasKey Product k) data)) by (rewrite E; left; reflexivity).
    apply filter_In in Hr. destruct Hr as [_ Hr]. apply String.eqb_eq in Hr. exact Hr.
  - rewrite Performance_entry_total.
    change (map Amount (r :: rs)) with (Amount r :: map Amount rs).
    rewrite sumQ_cons. simpl. lra.
Qed.

Lemma assignABC_amounts (l : list Performance.ProductPerformance) : forall c,
  map Performance.totalAmount (Performance.assignABC c l) = map Performance.totalAmount l /\
  map Performance.amountShare (Performance.assignABC c l) = map Performance.amountShare l /\
  map Performance.productName (Performance.assignABC c l) = map Performance.productName l.
Proof.
  induction l as [|x l IH]; intros c; cbn [Performance.assignABC map].
  - auto.
  - destruct (IH (fadd c (Performance.amountShare x))) as [H1 [H2 H3]].
    rewrite H1, H2, H3. auto.
Qed.


Lemma assignABC_class (l : list Performance.ProductPerformance) : forall c,
  Forall (fun p => Performance.abcClass p = Performance.classOf (Performance.cumulativeShare p))
         (Performance.assignABC c l).
Proof.
  induction l as [|x l IH]; intros c; cbn [Performance.assignABC]; constructor.
  - reflexivity.
  - apply IH.
Qed.

Lemma assignABC_length (l : list Performance.ProductPerformance) (c : Q) :
  List.length (Performance.assignABC c l) = List.length l.
Proof.
  revert c. induction l as [|x l IH]; intros c; cbn [Performance.assignABC List.length];
    [reflexivity|].
  rewrite IH. reflexivity.
Qed.

Lemma classOf_spec (c : Q) :
  (c <= 80 -> Performance.classOf c = Performance.ClassA) /\
  (80 < c -> c <= 95 -> Performance.classOf c = Performance.ClassB) /\
  (95 < c -> Performance.classOf c = Performance.ClassC).
Proof.
  unfold Performance.classOf.
  destruct (Qle_bool c 80) eqn:E80; destruct (Qle_bool c 95) eqn:E95;
    try apply Qle_bool_iff in E80; try apply Qle_bool_iff in E95;
    try apply Qle_bool_false_iff in E80; try apply Qle_bool_false_iff in E95;
    repeat split; intros; try reflexivity; exfalso; lra.
Qed.

(** The exact shares add up to 100. *)
Lemma sum_exact_shares (T : Q) (l : list Performance.ProductPerformance) :
  0 < T ->
  sumQ (map (fun p => Performance.totalAmount p / T * 100) l) ==
  sumQ (map Performance.totalAmount l) / T * 100.
Proof.
  intros HT. induction l as [|x l IH]; cbn [map].
  - rewrite !sumQ_nil. field. lra.
  - rewrite !sumQ_cons, IH. field. lra.
Qed.

(** *** The accumulated rounding error *)

(** One rounding of a non-negative number changes it by a factor between
    [1 - 2^-53] and [1 + 2^-53]. *)
Lemma fl_relative (x : Q) :
  0 <= x -> x * (1 - roundoff) <= fl x /\ fl x <= x * (1 + roundoff).
Proof.
  intros Hx. pose proof (fl_error x) as E.
  rewrite (Qabs_pos x Hx) in E. apply Qabs_Qle_condition in E.
  fold roundoff in E. split; lra.
Qed.

Lemma shrink_pos (m : Z) : 0 < (1 - roundoff) ^ m.
Proof. apply Qpower_0_lt. reflexivity. Qed.

Lemma grow_pos (m : Z) : 0 < (1 + roundoff) ^ m.
Proof. apply Qpower_0_lt. reflexivity. Qed.

Lemma shrink_succ (m : Z) : (1 - roundoff) ^ (m + 1) == (1 - roundoff) ^ m * (1 - roundoff).
Proof. rewrite Qpower_plus by discriminate. reflexivity. Qed.

Lemma grow_succ (m : Z) : (1 + roundoff) ^ (m + 1) == (1 + roundoff) ^ m * (1 + roundoff).
Proof. rewrite Qpower_plus by discriminate. reflexivity. Qed.

Lemma shrink_le (a b : Z) : (0 <= a <= b)%Z -> (1 - roundoff) ^ b <= (1 - roundoff) ^ a.
Proof.
  intros [Ha Hab]. replace b with (a + (b - a))%Z by lia.
  assert (Hd : (0 <= b - a)%Z) by lia. revert Hd. generalize (b - a)%Z as d.
  intros d Hd. pattern d. apply natlike_ind; [| |exact Hd].
  - rewrite Z.add_0_r. lra.
  - intros k Hk IH. replace (a + Z.succ k)%Z with (a + k + 1)%Z by lia.
    rewrite shrink_succ. pose proof (shrink_pos (a + k)) as P.
    unfold roundoff in *. nra.
Qed.

Lemma grow_le (a b : Z) : (0 <= a <= b)%Z -> (1 + roundoff) ^ a <= (1 + roundoff) ^ b.
Proof.
  intros [Ha Hab]. apply Qpower_le_compat_l; [exact Hab|]. discriminate.
Qed.

(** A share is the exact share up to two roundings. *)
Lemma share_bounds (T a : Q) :
  0 < T -> 0 <= a ->
  a / T * 100 * (1 - roundoff) ^ 2 <= fmul (fdiv a T) 100 /\
  fmul (fdiv a T) 100 <= a / T * 100 * (1 + roundoff) ^ 2.
Proof.
  intros HT Ha. unfold fmul, fdiv.
  assert (Hq : 0 <= a / T) by (apply Qle_shift_div_l; lra).
  destruct (fl_relative (a / T) Hq) as [L1 U1].
  assert (Hf : 0 <= fl (a / T)) by (apply fl_nonneg; exact Hq).
  assert (Hm : 0 <= fl (a / T) * 100) by lra.
  destruct (fl_relative _ Hm) as [L2 U2].
  set (q := a / T) in *. set (f := fl q) in *. set (g := fl (f * 100)) in *.
  change ((1 - roundoff) ^ 2) with ((1 - roundoff) * (1 - roundoff)).
  change ((1 + roundoff) ^ 2) with ((1 + roundoff) * (1 + roundoff)).
  unfold roundoff in *. split; nra.
Qed.

(** The running sum of rounded shares of non-negative amounts: after
    [k + n + 1] additions it is the exact sum up to [k + n + 3]
    roundings. *)
Lemma assignABC_bounds (T : Q) (l : list Performance.ProductPerformance) :
  0 < T ->
  Forall (fun p => 0 <= Performance.totalAmount p /\
                   Performance.amountShare p =
                     fmul (fdiv (Performance.totalAmount p) T) 100) l ->
  forall (k : Z) (c X : Q) (n : nat) (p : Performance.ProductPerformance),
    (0 <= k)%Z -> 0 <= X ->
    X * (1 - roundoff) ^ (k + 2) <= c -> c <= X * (1 + roundoff) ^ (k + 2) ->
    nth_error (Performance.assignABC c l) n = Some p ->
    let S := X + sumQ (map (fun p => Performance.totalAmount p / T * 100) (firstn (S n) l)) in
    S * (1 - roundoff) ^ (k + Z.of_nat n + 3) <= Performance.cumulativeShare p /\
    Performance.cumulativeShare p <= S * (1 + roundoff) ^ (k + Z.of_nat n + 3).
Proof.
  intros HT Hall. induction Hall as [|x l [Hx Hshare] _ IH]; intros k c X n p Hk HX Lc Uc Hn.
  - destruct n; discriminate.
  - cbn [Performance.assignABC] in Hn.
    destruct (share_bounds T (Performance.totalAmount x) HT Hx) as [Ls Us].
    rewrite <- Hshare in Ls, Us.
    set (s := Performance.amountShare x) in *.
    set (e := Performance.totalAmount x / T * 100) in *.
    assert (He : 0 <= e).
    { unfold e. assert (0 <= Performance.totalAmount x / T) by (apply Qle_shift_div_l; lra).
      lra. }
    pose proof (shrink_pos (k + 2)) as P1. pose proof (grow_pos (k + 2)) as P2.
    pose proof (shrink_pos 2) as P3. pose proof (grow_pos 2) as P4.
    assert (Hc : 0 <= c) by nra.
    assert (Hs : 0 <= s) by nra.
    assert (Hcs : 0 <= c + s) by lra.
    destruct (fl_relative (c + s) Hcs) as [L U]. fold (fadd c s) in L, U.
    pose proof (shrink_le 2 (k + 2) ltac:(lia)) as M1.
    pose proof (grow_le 2 (k + 2) ltac:(lia)) as M2.
    assert (L' : (X + e) * (1 - roundoff) ^ (k + 1 + 2) <= fadd c s).
    { replace (k + 1 + 2)%Z with (k + 2 + 1)%Z by lia. rewrite shrink_succ.
      assert (A : (X + e) * (1 - roundoff) ^ (k + 2) <= c + s) by nra.
      assert (B : 0 <= 1 - roundoff) by (unfold roundoff; lra).
      nra. }
    assert (U' : fadd c s <= (X + e) * (1 + roundoff) ^ (k + 1 + 2)).
    { replace (k + 1 + 2)%Z with (k + 2 + 1)%Z by lia. rewrite grow_succ.
      assert (A : c + s <= (X + e) * (1 + roundoff) ^ (k + 2)) by nra.
      assert (B : 0 <= 1 + roundoff) by (unfold roundoff; lra).
      nra. }
    destruct n as [|n].
    + cbn [nth_error] in Hn. injection Hn as <-.
      cbn [Performance.cumulativeShare Performance.setClass firstn map]. cbv zeta.
      rewrite sumQ_cons, sumQ_nil. fold e.
      replace (k + Z.of_nat 0 + 3)%Z with (k + 1 + 2)%Z by lia.
      assert (E : X + (e + 0) == X + e) by ring. rewrite E. split; assumption.
    + cbn [nth_error] in Hn.
      assert (HX' : 0 <= X + e) by lra.
      pose proof (IH (k + 1)%Z (fadd c s) (X + e) n p ltac:(lia) HX' L' U' Hn) as R.
      cbv zeta in R. cbv zeta.
      replace (k + Z.of_nat (S n) + 3)%Z with (k + 1 + Z.of_nat n + 3)%Z by lia.
      rewrite firstn_cons, map_cons, sumQ_cons. fold e.
      assert (E : X + (e + sumQ (map (fun p0 => Performance.totalAmount p0 / T * 100)
                                     (firstn (S n) l)))
                  == X + e + sumQ (map (fun p0 => Performance.totalAmount p0 / T * 100)
                                       (firstn (S n) l))) by ring.
      rewrite E. exact R.
Qed.


(** With a positive total and no negative product total, the cumulative
    share of the last of [n] products is 100 up to [n + 2] roundings. *)
Lemma analyzePerformance_last_share (data : list SalesRecord) :
  0 < sumQ (map Amount data) ->
  let out := Performance.analyzePerformance data in
  Forall (fun p => 0 <= Performance.totalAmount p) out ->
  exists front lastItem,
    out = front ++ [lastItem] /\
    100 * (1 - roundoff) ^ (Z.of_nat (List.length out) + 2)
      <= Performance.cumulativeShare lastItem /\
    Performance.cumulativeShare lastItem
      <= 100 * (1 + roundoff) ^ (Z.of_nat (List.length out) + 2).
Proof.
  intros Hpos out. subst out. unfold Performance.analyzePerformance.
  rewrite Performance_fold.
  set (T := fold_left (fun t r => t + Amount r) data 0).
  set (G := group Product Performance.newItem Performance.addRow [] data).
  set (cmp := fun a b : Performance.ProductPerformance =>
                Fin (Performance.totalAmount b - Performance.totalAmount a)).
  set (L0 := map (Performance.metrics T) (Map_values G)).
  set (L1 := Array_sort cmp L0).
  assert (HT : T == sumQ (map Amount data)).
  { unfold T. rewrite fold_amount_total. lra. }
  assert (HTpos : 0 < T) by (rewrite HT; exact Hpos).
  assert (HG : sumValues Performance.totalAmount G == sumQ (map Amount data)).
  { unfold G. rewrite Performance_group_total. unfold sumValues. simpl.
    rewrite sumQ_nil. lra. }
  destruct (assignABC_amounts L1 0) as [Hamt _].
  assert (HL1 : Forall (fun p => Performance.amountShare p =
                                 fmul (fdiv (Performance.totalAmount p) T) 100) L1).
  { apply Array_sort_Forall, Forall_forall. intros p Hp.
    apply in_map_iff in Hp. destruct Hp as [item [<- _]].
    cbn [Performance.metrics Performance.amountShare Performance.totalAmount].
    apply Qgt_bool_iff in HTpos. rewrite HTpos. reflexivity. }
  intros Hnonneg.
  assert (Hne : Performance.assignABC 0 L1 <> []).
  { intros Hnil. apply (f_equal (@List.length _)) in Hnil.
    rewrite assignABC_length in Hnil. unfold L1 in Hnil.
    rewrite Array_sort_length in Hnil. unfold L0 in Hnil.
    rewrite length_map in Hnil. unfold Map_values in Hnil. rewrite length_map in Hnil.
    destruct G; [|discriminate]. unfold sumValues in HG. simpl in HG.
    rewrite sumQ_nil in HG. lra. }
  destruct (exists_last Hne) as [front [lastItem Hout]].
  exists front, lastItem. split; [exact Hout|].
  assert (Hlen : List.length (Performance.assignABC 0 L1) = S (List.length front)).
  { rewrite Hout, length_app. simpl. lia. }
  assert (Hn : nth_error (Performance.assignABC 0 L1) (List.length front) = Some lastItem).
  { rewrite Hout, nth_error_app2, Nat.sub_diag by lia. reflexivity. }
  assert (Hall : Forall (fun p => 0 <= Performance.totalAmount p /\
                                  Performance.amountShare p =
                                    fmul (fdiv (Performance.totalAmount p) T) 100) L1).
  { rewrite Forall_forall in HL1. apply Forall_forall. intros p Hp. split; [|apply HL1, Hp].
    assert (Hin : In (Performance.totalAmount p)
                     (map Performance.totalAmount (Performance.assignABC 0 L1))).
    { rewrite Hamt. apply in_map, Hp. }
    apply in_map_iff in Hin. destruct Hin as [p' [<- Hp']].
    rewrite Forall_forall in Hnonneg. apply Hnonneg, Hp'. }
  pose proof (assignABC_bounds T L1 HTpos Hall 0 0 0 (List.length front) lastItem
                ltac:(lia) ltac:(lra) ltac:(lra) ltac:(lra) Hn) as B.
  cbv zeta in B.
  assert (HS : 0 + sumQ (map (fun p => Performance.totalAmount p / T * 100)
                             (firstn (S (List.length front)) L1)) == 100).
  { rewrite firstn_all2 by (rewrite <- (assignABC_length L1 0); lia).
    unfold L1.
    rewrite (sumQ_perm _ _ (Permutation_map _ (Array_sort_perm cmp L0))).
    rewrite sum_exact_shares by exact HTpos.
    assert (E : map Performance.totalAmount L0 = map Performance.totalAmount (Map_values G)).
    { unfold L0. rewrite map_map. reflexivity. }
    rewrite E. fold (sumValues Performance.totalAmount G). rewrite HG, HT. field. lra. }
  rewrite HS in B. rewrite Hlen.
  replace (Z.of_nat (S (List.length front)) + 2)%Z
    with (0 + Z.of_nat (List.length front) + 3)%Z by lia.
  exact B.
Qed.

(** Bernoulli's inequality for the factor of one rounding. *)
Lemma shrink_bernoulli (m : Z) :
  (0 <= m)%Z -> 1 - inject_Z m * roundoff <= (1 - roundoff) ^ m.
Proof.
  intros Hm. pattern m. apply natlike_ind; [| |exact Hm].
  - change (inject_Z 0) with 0. change ((1 - roundoff) ^ 0) with 1. lra.
  - intros k Hk IH. unfold Z.succ. rewrite shrink_succ, inject_Z_plus.
    change (inject_Z 1) with 1.
    pose proof (shrink_pos k) as P.
    assert (Hk' : 0 <= inject_Z k).
    { change 0 with (inject_Z 0). rewrite <- Zle_Qle. exact Hk. }
    unfold roundoff in *. nra.
Qed.


(** ** C2: the output filter of the normaliser *)

Lemma mapM_app {A B : Type} (f : A -> result B) (l1 l2 : list A) :
  mapM f (l1 ++ l2) =
  (a <- mapM f l1 ;; b <- mapM f l2 ;; Ok (a ++ b)).
Proof.
  induction l1 as [|x l1 IH]; simpl.
  - destruct (mapM f l2); reflexivity.
  - destruct (f x) as [y|e]; simpl; [|reflexivity].
    rewrite IH. destruct (mapM f l1) as [a|e]; simpl; [|reflexivity].
    destruct (mapM f l2); reflexivity.
Qed.

Lemma positiveSale_iff (r : SalesRecord) :
  positiveSale r = true <-> 0 < Quantity r \/ 0 < Amount r.
Proof.
  unfold positiveSale. rewrite orb_true_iff, !Qgt_bool_iff. reflexivity.
Qed.

(** C2.  Every record that [normalizeData] returns has a positive
    quantity or a positive amount; and a raw row that normalises to
    quantity 0 and amount 0 yields no record: the output is that of the
    batch without the row. *)
Theorem normalizeData_keeps_only_sales {host : Host} (rawData : list Row)
        (out : list SalesRecord) :
  normalizeData rawData = Ok out ->
  Forall (fun r => 0 < Quantity r \/ 0 < Amount r) out /\
  (forall pre row post r,
     rawData = pre ++ row :: post ->
     normalizeRow row = Ok r ->
     Quantity r == 0 -> Amount r == 0 ->
     ~ In r out /\ normalizeData (pre ++ post) = Ok out).
Proof.
  unfold normalizeData. intros Hout.
  destruct (mapM normalizeRow rawData) as [rows|e] eqn:Hrows; simpl in Hout; [|discriminate].
  injection Hout as <-.
  assert (Hall : Forall (fun r => 0 < Quantity r \/ 0 < Amount r) (filter positiveSale rows)).
  { apply Forall_forall. intros r Hr. apply filter_In in Hr. apply positiveSale_iff, Hr. }
  split; [exact Hall|].
  intros pre row post r -> Hrow Hq Ha. split.
  - intros Hin. rewrite Forall_forall in Hall. specialize (Hall r Hin). lra.
  - rewrite mapM_app in Hrows. rewrite mapM_app. simpl in Hrows. rewrite Hrow in Hrows.
    destruct (mapM normalizeRow pre) as [a|]; simpl in *; [|discriminate].
    destruct (mapM normalizeRow post) as [b|]; simpl in *; [|discriminate].
    injection Hrows as <-. rewrite !filter_app. simpl.
    replace (positiveSale r) with false; [reflexivity|].
    symmetry. apply not_true_is_false. rewrite positiveSale_iff. lra.
Qed.

(** ** C5: the forecast *)

Lemma forecast_confidence_rule (seasonality : list Seasonality.SeasonalityData) :
  Forecast.confidence (Forecast.forecastNextMonth seasonality) =
  if (List.length seasonality =? 0)%nat then Forecast.LOW
  else if (6 <=? List.length seasonality)%nat then Forecast.HIGH
  else if (List.length seasonality <? 3)%nat then Forecast.LOW
  else Forecast.MEDIUM.
Proof.
  unfold Forecast.forecastNextMonth.
  destruct (List.length seasonality =? 0)%nat; [reflexivity|].
  destruct (2 <=? List.length (map Seasonality.revenue (slice_last 3 seasonality)))%nat;
    reflexivity.
Qed.

(** C5.  [forecastNextMonth] is a total function (nothing in it can
    throw).  On the empty series it returns the all-zero result with trend
    STABLE and confidence LOW; on a non-empty series the confidence is
    HIGH with at least 6 months, LOW with fewer than 3, MEDIUM
    otherwise. *)
Theorem forecastNextMonth_confidence :
  Forecast.forecastNextMonth [] =
    {| Forecast.nextMonthRevenue := 0; Forecast.nextMonthQty := 0;
       Forecast.trend := Forecast.STABLE; Forecast.trendPercent := 0;
       Forecast.confidence := Forecast.LOW; Forecast.method := "無歷史數據" |} /\
  forall seasonality : list Seasonality.SeasonalityData,
    seasonality <> [] ->
    ((6 <= List.length seasonality)%nat ->
       Forecast.confidence (Forecast.forecastNextMonth seasonality) = Forecast.HIGH) /\
    ((List.length seasonality < 3)%nat ->
       Forecast.confidence (Forecast.forecastNextMonth seasonality) = Forecast.LOW) /\
    ((3 <= List.length seasonality < 6)%nat ->
       Forecast.confidence (Forecast.forecastNextMonth seasonality) = Forecast.MEDIUM).
Proof.
  split; [reflexivity|].
  intros s Hne. rewrite forecast_confidence_rule.
  destruct (Nat.eqb_spec (List.length s) 0) as [E0|E0].
  - destruct s; [congruence|discriminate].
  - destruct (Nat.leb_spec 6 (List.length s)); destruct (Nat.ltb_spec (List.length s) 3);
      repeat split; intros; try reflexivity; lia.
Qed.

(** ** C4: slow-moving alerts under the default threshold *)

Section SlowMovingFacts.
Context {host : Host}.

Lemma check_gated (lastRecordDate thresholdDays : number)
      (m : list (string * SlowMoving.ProductInfo)) : forall alerts,
  Forall (gated thresholdDays) alerts ->
  Forall (gated thresholdDays)
         (fold_left (SlowMoving.check lastRecordDate thresholdDays) m alerts).
Proof.
  induction m as [|[k info] m IH]; intros alerts Hall; simpl.
  - exact Hall.
  - apply IH.
    destruct (number_geb (SlowMoving.daysBetween lastRecordDate (SlowMoving.lastSale info))
                         thresholdDays) eqn:E; [|exact Hall].
    destruct (number_geb (SlowMoving.daysBetween lastRecordDate (SlowMoving.lastSale info))
                         (Fin 60)) eqn:E60;
      [|destruct (number_geb (SlowMoving.daysBetween lastRecordDate (SlowMoving.lastSale info))
                             (Fin 30)) eqn:E30];
      (apply Forall_app; split; [exact Hall|]; constructor; [|constructor];
       unfold gated; simpl; rewrite E, E60, ?E30; auto).
Qed.

Lemma detectSlowMoving_gated (data : list SalesRecord) (thresholdDays : number) :
  Forall (gated thresholdDays) (SlowMoving.detectSlowMoving data thresholdDays).
Proof.
  unfold SlowMoving.detectSlowMoving.
  destruct (List.length _ =? 0)%nat; [constructor|].
  apply Array_sort_Forall, check_gated. constructor.
Qed.

End SlowMovingFacts.

(** C4.  With the threshold 30, every alert of [detectSlowMoving] has a
    finite days-since-last-sale of at least 30; it is HIGH with the
    liquidate-or-halt-reorder recommendation from 60 days on and MEDIUM
    below 60; no alert is LOW. *)
Theorem detectSlowMoving_default_threshold {host : Host} (data : list SalesRecord) :
  Forall (fun a =>
            exists d, SlowMoving.daysSinceLastSale a = Fin d /\ 30 <= d /\
              (60 <= d -> SlowMoving.riskLevel a = SlowMoving.HIGH /\
                          SlowMoving.recommendation a = "建議立即清倉或停止進貨") /\
              (d < 60 -> SlowMoving.riskLevel a = SlowMoving.MEDIUM /\
                         SlowMoving.recommendation a = "建議促銷活動或降價處理") /\
              SlowMoving.riskLevel a <> SlowMoving.LOW)
         (SlowMoving.detectSlowMoving data (Fin 30)).
Proof.
  eapply Forall_impl; [|apply detectSlowMoving_gated].
  intros a [Hgate Hrisk].
  destruct (SlowMoving.daysSinceLastSale a) as [|d]; [discriminate|].
  exists d. split; [reflexivity|].
  simpl in Hgate, Hrisk. apply Qge_bool_iff in Hgate.
  destruct (Qge_bool d 60) eqn:E60.
  - apply Qge_bool_iff in E60. injection Hrisk as -> ->.
    repeat split; intros; try assumption; try discriminate; exfalso; lra.
  - apply Qge_bool_false_iff in E60.
    replace (Qge_bool d 30) with true in Hrisk by (symmetry; apply Qge_bool_iff; exact Hgate).
    injection Hrisk as -> ->.
    repeat split; intros; try assumption; try discriminate; exfalso; lra.
Qed.

(** ** Entries of a grouped map *)

Section GroupEntries.
Context {R V : Type} (key : R -> string) (init : R -> V) (upd : R -> V -> V).

(** The entry stored under [k]: its records are not empty, and the entry
    is the fold of their updates. *)
Lemma group_entry (data : list R) (k : string) (e : V) :
  In (k, e) (group key init upd [] data) ->
  exists r rs, filter (hasKey key k) data = r :: rs /\
               e = fold_left (fun e r => upd r e) (r :: rs) (init r).
Proof.
  intros Hin.
  assert (Hget : Map_get (group key init upd [] data) k = Some e).
  { apply In_Map_get; [|exact Hin]. apply group_NoDup. constructor. }
  rewrite group_get in Hget. simpl in Hget.
  destruct (filter (hasKey key k) data) as [|r rs]; [discriminate|].
  injection Hget as <-. exists r, rs. auto.
Qed.

(** Every record's key has an entry. *)
Lemma group_has_entry (data : list R) (r : R) :
  In r data -> exists e, In (key r, e) (group key init upd [] data).
Proof.
  intros Hr.
  assert (Hk : In (key r) (map fst (group key init upd [] data))).
  { apply group_keys_In. right. apply in_map, Hr. }
  apply in_map_iff in Hk. destruct Hk as [[k e] [Hk He]]. simpl in Hk. subst k.
  exists e. exact He.
Qed.

(** A field that starts at 0 and grows by [g r] with each record sums
    [g] over the records of the key. *)
Lemma fold_additive (f : V -> Q) (g : R -> Q) (rs : list R) :
  (forall r e, f (upd r e) == f e + g r) ->
  forall e, f (fold_left (fun e r => upd r e) rs e) == f e + sumQ (map g rs).
Proof.
  intros Hupd. induction rs as [|r rs IH]; intros e; simpl.
  - rewrite sumQ_nil. lra.
  - rewrite IH, Hupd, sumQ_cons. lra.
Qed.

Lemma group_additive (f : V -> Q) (g : R -> Q) (data : list R) (k : string) (e : V) :
  (forall r, f (init r) == 0) ->
  (forall r e, f (upd r e) == f e + g r) ->
  In (k, e) (group key init upd [] data) ->
  f e == sumQ (map g (filter (hasKey key k) data)).
Proof.
  intros Hinit Hupd Hin.
  destruct (group_entry data k e Hin) as [r [rs [Hrs ->]]].
  rewrite Hrs, fold_additive by exact Hupd. rewrite Hinit. lra.
Qed.

End GroupEntries.

(** ** C6: profit margin *)



(** *** Percentages with one decimal *)







(** ** C3: inventory metrics *)


Lemma Set_of_In (l : list string) : forall seen x,
  In x (Set_of seen l) <-> In x l /\ ~ In x seen.
Proof.
  induction l as [|y l IH]; intros seen x; simpl.
  - tauto.
  - destruct (existsb (String.eqb y) seen) eqn:E.
    + apply existsb_exists in E. destruct E as [z [Hz Hyz]].
      apply String.eqb_eq in Hyz. subst z.
      rewrite IH. split; [tauto|]. intros [[<-|H] Hn]; tauto.
    + assert (Hy : ~ In y seen).
      { intros Hin. apply not_true_iff_false in E. apply E.
        apply existsb_exists. exists y. split; [exact Hin|apply String.eqb_refl]. }
      simpl. rewrite IH. simpl. split.
      * intros [<-|[H Hn]]; [tauto|]. split; [tauto|]. intros Hs. apply Hn. right. exact Hs.
      * intros [[<-|H] Hn]; [tauto|].
        destruct (string_dec y x) as [->|Hne]; [tauto|]. right.
        split; [exact H|]. intros [Heq|Hs]; tauto.
Qed.

Lemma Set_of_NoDup (l : list string) : forall seen, NoDup (Set_of seen l).
Proof.
  induction l as [|y l IH]; intros seen; simpl.
  - constructor.
  - destruct (existsb (String.eqb y) seen); [apply IH|].
    constructor; [|apply IH].
    rewrite Set_of_In. simpl. tauto.
Qed.

Lemma Set_of_length (l : list string) :
  List.length (Set_of [] l) = List.length (nodup string_dec l).
Proof.
  apply Permutation_length, NoDup_Permutation.
  - apply Set_of_NoDup.
  - apply NoDup_nodup.
  - intros x. rewrite Set_of_In, nodup_In. simpl. tauto.
Qed.

(** *** The order of equal keys *)







Section InventoryFacts.
Context {host : Host}.

Lemma totalDaysOf_distinct (data : list SalesRecord) :
  Inventory.totalDaysOf data = distinctDays data.
Proof.
  unfold Inventory.totalDaysOf, distinctDays, Inventory.len.
  rewrite Array_sort_length, Set_of_length.
  destruct (List.length (nodup string_dec (map Date data))) as [|n]; [reflexivity|].
  replace (Nat.max 1 (S n)) with (S n) by lia.
  destruct (Qeq_bool _ 0) eqn:E; [|reflexivity].
  apply Qeq_bool_iff in E. unfold Qeq in E. simpl in E. lia.
Qed.

Lemma Inventory_entry (data : list SalesRecord) (k : string) (info : Inventory.ProductInfo) :
  In (k, info) (fold_left Inventory.aggregate data []) ->
  Inventory.qty info = sampleOf k data.
Proof.
  intros Hin.
  destruct (group_entry Product
              (fun row => {| Inventory.qty := []; Inventory.category_of := Category row |})
              Inventory.pushQty data k info Hin) as [r [rs [Hrs ->]]].
  unfold sampleOf, recordsOf. fold (hasKey Product k). rewrite Hrs.
  generalize (r :: rs). intros l.
  change (map Quantity l)
    with (Inventory.qty {| Inventory.qty := []; Inventory.category_of := Category r |}
          ++ map Quantity l).
  generalize {| Inventory.qty := []; Inventory.category_of := Category r |}.
  induction l as [|x l IH]; intros e; simpl.
  - rewrite app_nil_r. reflexivity.
  - rewrite IH. simpl. rewrite <- app_assoc. reflexivity.
Qed.


End InventoryFacts.


(** ** C8: the deduplicating normaliser *)

Section DedupFacts.
Context {host : Host}.

Lemma normalizeRow_cases (seen : list string) (row : Row) :
  match Part002.normalizeRow [] row with
  | Throw e => Part002.normalizeRow seen row = Throw e
  | Ok (_, None) => False
  | Ok (_, Some r) =>
      Part002.normalizeRow seen row =
      if existsb (String.eqb (keyOf r)) seen then Ok (seen, None)
      else Ok (keyOf r :: seen, Some r)
  end.
Proof.
  unfold Part002.normalizeRow.
  destruct (normalizeDate (getVal row datePatterns)) as [dateStr|e]; simpl; reflexivity.
Qed.

Lemma normalizeRow_yields (seen : list string) (row : Row) (r : SalesRecord) :
  yields row r ->
  Part002.normalizeRow seen row =
  if existsb (String.eqb (keyOf r)) seen then Ok (seen, None)
  else Ok (keyOf r :: seen, Some r).
Proof.
  intros [s Hs]. pose proof (normalizeRow_cases seen row) as H.
  rewrite Hs in H. exact H.
Qed.

Lemma normalizeRow_Ok (seen seen' : list string) (row : Row) (o : option SalesRecord) :
  Part002.normalizeRow seen row = Ok (seen', o) ->
  exists r, yields row r /\
    ((In (keyOf r) seen /\ seen' = seen /\ o = None) \/
     (~ In (keyOf r) seen /\ seen' = keyOf r :: seen /\ o = Some r)).
Proof.
  intros H. pose proof (normalizeRow_cases seen row) as Hc.
  destruct (Part002.normalizeRow [] row) as [[s [r|]]|e] eqn:E.
  - exists r. split; [exists s; exact E|].
    rewrite Hc in H. destruct (existsb (String.eqb (keyOf r)) seen) eqn:Ex.
    + injection H as <- <-. left. split; [|auto].
      apply existsb_exists in Ex. destruct Ex as [k [Hk Hkk]].
      apply String.eqb_eq in Hkk. subst k. exact Hk.
    + injection H as <- <-. right. split; [|auto].
      intros Hin. apply not_true_iff_false in Ex. apply Ex.
      apply existsb_exists. exists (keyOf r). split; [exact Hin|apply String.eqb_refl].
  - contradiction.
  - congruence.
Qed.

Lemma existsb_eqb_In (k : string) (seen : list string) :
  existsb (String.eqb k) seen = true <-> In k seen.
Proof.
  rewrite existsb_exists. split.
  - intros [x [Hx Hk]]. apply String.eqb_eq in Hk. subst x. exact Hx.
  - intros H. exists k. split; [exact H|apply String.eqb_refl].
Qed.

Lemma mapRows_app (l1 l2 : list Row) : forall seen,
  Part002.mapRows seen (l1 ++ l2) =
  (rows1 <- Part002.mapRows seen l1 ;;
   rows2 <- Part002.mapRows (seenAfter seen l1) l2 ;;
   Ok (rows1 ++ rows2)).
Proof.
  induction l1 as [|row l1 IH]; intros seen; simpl.
  - destruct (Part002.mapRows seen l2); reflexivity.
  - destruct (Part002.normalizeRow seen row) as [[s o]|e]; simpl; [|reflexivity].
    rewrite IH. destruct (Part002.mapRows s l1); simpl; [|reflexivity].
    destruct (Part002.mapRows (seenAfter s l1) l2); reflexivity.
Qed.

(** After rows that all normalise, [seenRows] holds the initial keys and
    the keys of their records. *)
Lemma seenAfter_In (raw : list Row) : forall seen rows k,
  Part002.mapRows seen raw = Ok rows ->
  (In k (seenAfter seen raw) <->
   In k seen \/ exists row r, In row raw /\ yields row r /\ keyOf r = k).
Proof.
  induction raw as [|row raw IH]; intros seen rows k Hrows; simpl.
  - split; [tauto|]. intros [H|[row [r [[] _]]]]. exact H.
  - simpl in Hrows.
    destruct (Part002.normalizeRow seen row) as [[s o]|e] eqn:E; simpl in Hrows; [|discriminate].
    destruct (Part002.mapRows s raw) as [rs|] eqn:Ers; simpl in Hrows; [|discriminate].
    rewrite (IH s rs k Ers).
    destruct (normalizeRow_Ok _ _ _ _ E) as [r [Hy Hcase]].
    assert (Huniq : forall r', yields row r' -> r' = r).
    { intros r' [s1 H1]. destruct Hy as [s2 H2]. congruence. }
    split.
    + intros [Hin|[row' [r' [Hrow' [Hy' Hk]]]]].
      * destruct Hcase as [[_ [-> _]]|[_ [-> _]]]; [tauto|].
        destruct Hin as [<-|Hin]; [|tauto].
        right. exists row, r. auto.
      * right. exists row', r'. auto.
    + intros [Hin|[row' [r' [[<-|Hrow'] [Hy' Hk]]]]].
      * left. destruct Hcase as [[_ [-> _]]|[_ [-> _]]]; [|right]; exact Hin.
      * left. rewrite (Huniq r' Hy') in Hk. subst k.
        destruct Hcase as [[Hin [-> _]]|[_ [-> _]]]; [exact Hin|left; reflexivity].
      * right. exists row', r'. auto.
Qed.

Lemma somes_In {A : Type} (l : list (option A)) (a : A) : In a (Part002.somes l) <-> In (Some a) l.
Proof.
  induction l as [|[x|] l IH]; simpl.
  - tauto.
  - rewrite IH. split; intros [H|H]; auto; left; congruence.
  - rewrite IH. split; [tauto|]. intros [H|H]; [discriminate|exact H].
Qed.

Lemma somes_filter_keep (l : list (option SalesRecord)) :
  Part002.somes (filter Part002.keep l) = filter positiveSale (Part002.somes l).
Proof.
  induction l as [|[x|] l IH]; simpl.
  - reflexivity.
  - destruct (positiveSale x); simpl; rewrite IH; reflexivity.
  - exact IH.
Qed.

Lemma somes_app {A : Type} (l1 l2 : list (option A)) :
  Part002.somes (l1 ++ l2) = Part002.somes l1 ++ Part002.somes l2.
Proof.
  induction l1 as [|[x|] l1 IH]; simpl; rewrite ?IH; reflexivity.
Qed.

(** The records kept by [mapRows] have pairwise distinct keys, none of
    them seen before. *)
Lemma mapRows_NoDup (raw : list Row) : forall seen rows,
  Part002.mapRows seen raw = Ok rows ->
  NoDup (map keyOf (Part002.somes rows)) /\
  (forall r, In r (Part002.somes rows) ->
     ~ In (keyOf r) seen /\ exists row, In row raw /\ yields row r).
Proof.
  induction raw as [|row raw IH]; intros seen rows Hrows; simpl in Hrows.
  - injection Hrows as <-. simpl. split; [constructor|tauto].
  - destruct (Part002.normalizeRow seen row) as [[s o]|e] eqn:E; simpl in Hrows; [|discriminate].
    destruct (Part002.mapRows s raw) as [rs|] eqn:Ers; simpl in Hrows; [|discriminate].
    injection Hrows as <-.
    destruct (IH s rs Ers) as [Hnd Hfresh].
    destruct (normalizeRow_Ok _ _ _ _ E) as [r [Hy [[Hin [-> ->]]|[Hnin [-> ->]]]]]; simpl.
    + split; [exact Hnd|]. intros r' Hr'. destruct (Hfresh r' Hr') as [H1 [row' [H2 H3]]].
      split; [exact H1|]. exists row'. auto.
    + split.
      * constructor; [|exact Hnd]. intros Hk. apply in_map_iff in Hk.
        destruct Hk as [r' [Hk Hr']]. destruct (Hfresh r' Hr') as [H1 _].
        apply H1. left. symmetry. exact Hk.
      * intros r' [<-|Hr'].
        -- split; [exact Hnin|]. exists row. auto.
        -- destruct (Hfresh r' Hr') as [H1 [row' [H2 H3]]].
           split; [intros Hs; apply H1; right; exact Hs|]. exists row'. auto.
Qed.

(** Filtering records keeps their keys pairwise distinct. *)
Lemma filter_distinct_keys (keep : SalesRecord -> bool) (records : list SalesRecord) :
  NoDup (map keyOf records) -> NoDup (map keyOf (filter keep records)).
Proof.
  induction records as [|r records IH]; simpl; intros Hnd; [constructor|].
  inversion Hnd as [|? ? Hfresh Hrest]; subst.
  destruct (keep r); simpl; [|apply IH, Hrest].
  constructor; [|apply IH, Hrest].
  intros Hin. apply Hfresh. apply in_map_iff in Hin. destruct Hin as [r' [Hk Hin]].
  apply filter_In in Hin. apply in_map_iff. exists r'. tauto.
Qed.

End DedupFacts.

(** C8 (amended).  In the deduplicating normaliser the output holds at
    most one record per key: the keys of the output records are pairwise
    distinct, so (number printing being a function of the number) no two
    output records agree on date, product, quantity and amount.  The
    record of the first row with a given key is in the output exactly
    when it passes the output filter (positive quantity or amount), and a
    later row with a key already met is discarded: the output is that of
    the batch without it. *)
Theorem normalizeData_dedup {host : Host} (rawData : list Row) (out : list SalesRecord) :
  Part002.normalizeData rawData = Ok out ->
  NoDup (map keyOf out) /\
  ((forall a b, a == b -> NumberToString a = NumberToString b) ->
   forall i j r1 r2,
     nth_error out i = Some r1 -> nth_error out j = Some r2 ->
     Date r1 = Date r2 -> Product r1 = Product r2 ->
     Quantity r1 == Quantity r2 -> Amount r1 == Amount r2 ->
     i = j) /\
  (forall pre row post r,
     rawData = pre ++ row :: post -> yields row r ->
     ((forall row' r', In row' pre -> yields row' r' -> keyOf r' <> keyOf r) ->
      (In r out <-> positiveSale r = true)) /\
     ((exists row' r', In row' pre /\ yields row' r' /\ keyOf r' = keyOf r) ->
      Part002.normalizeData (pre ++ post) = Ok out)).
Proof.
  unfold Part002.normalizeData. intros Hout.
  destruct (Part002.mapRows [] rawData) as [rows|e] eqn:Hrows; simpl in Hout; [|discriminate].
  injection Hout as <-. rewrite somes_filter_keep.
  destruct (mapRows_NoDup rawData [] rows Hrows) as [Hnd _].
  assert (Hnd' : NoDup (map keyOf (filter positiveSale (Part002.somes rows))))
    by (apply filter_distinct_keys, Hnd).
  split; [exact Hnd'|]. split.
  - intros Hprint i j r1 r2 Hi Hj Hd Hp Hq Ha.
    assert (Hk : keyOf r1 = keyOf r2).
    { unfold keyOf, Part002.rowKey. rewrite Hd, Hp, (Hprint _ _ Hq), (Hprint _ _ Ha).
      reflexivity. }
    rewrite NoDup_nth_error in Hnd'. apply Hnd'.
    + rewrite length_map. apply nth_error_Some. congruence.
    + rewrite !nth_error_map, Hi, Hj. simpl. congruence.
  - intros pre row post r -> Hy.
    rewrite mapRows_app in Hrows.
    destruct (Part002.mapRows [] pre) as [rows1|] eqn:E1; simpl in Hrows; [|discriminate].
    rewrite (normalizeRow_yields _ _ _ Hy) in Hrows.
    pose proof (seenAfter_In pre [] rows1 (keyOf r) E1) as Hseen.
    split.
    + intros Hfirst.
      assert (Hnew : existsb (String.eqb (keyOf r)) (seenAfter [] pre) = false).
      { apply not_true_iff_false. rewrite existsb_eqb_In, Hseen.
        intros [[]|[row' [r' [H1 [H2 H3]]]]]. exact (Hfirst row' r' H1 H2 H3). }
      rewrite Hnew in Hrows. simpl in Hrows.
      destruct (Part002.mapRows _ post) as [rs|]; simpl in Hrows; [|discriminate].
      injection Hrows as <-. rewrite filter_In, somes_In. split; [tauto|].
      intros Hpos. split; [|exact Hpos].
      apply in_or_app. right. left. reflexivity.
    + intros [row' [r' Hdup]].
      assert (Hold : existsb (String.eqb (keyOf r)) (seenAfter [] pre) = true).
      { rewrite existsb_eqb_In, Hseen. right. exists row', r'. exact Hdup. }
      rewrite Hold in Hrows. simpl in Hrows.
      rewrite mapRows_app, E1. simpl.
      destruct (Part002.mapRows _ post) as [rs|]; simpl in Hrows; [|discriminate].
      injection Hrows as <-. simpl.
      rewrite somes_filter_keep, !somes_app. reflexivity.
Qed.

(** ** C7: date normalisation *)

Lemma pad4_shape (n : Z) : (0 <= n <= 9999)%Z -> digits4 (pad 4 n) = true.
Proof.
  intros Hn.
  assert (H : forallb (fun k => digits4 (pad 4 (Z.of_nat k))) (seq 0 (Z.to_nat 10000)) = true)
    by (vm_compute; reflexivity).
  rewrite forallb_forall in H. specialize (H (Z.to_nat n)).
  rewrite Z2Nat.id in H by lia. apply H, in_seq. lia.
Qed.

Lemma pad2_shape (n : Z) : (0 <= n <= 99)%Z -> digits2 (pad 2 n) = true.
Proof.
  intros Hn.
  assert (H : forallb (fun k => digits2 (pad 2 (Z.of_nat k))) (seq 0 (Z.to_nat 100)) = true)
    by (vm_compute; reflexivity).
  rewrite forallb_forall in H. specialize (H (Z.to_nat n)).
  rewrite Z2Nat.id in H by lia. apply H, in_seq. lia.
Qed.

Lemma ymd_shape (a b c rest : string) :
  digits4 a = true -> digits2 b = true -> digits2 c = true ->
  isYMD (a ++ "-" ++ b ++ "-" ++ c)%string = true /\
  slice0 10 (a ++ "-" ++ b ++ "-" ++ c ++ "T" ++ rest)%string
  = (a ++ "-" ++ b ++ "-" ++ c)%string.
Proof.
  destruct a as [|a1 [|a2 [|a3 [|a4 [|]]]]]; try discriminate.
  destruct b as [|b1 [|b2 [|]]]; try discriminate.
  destruct c as [|c1 [|c2 [|]]]; try discriminate.
  simpl. intros Ha Hb Hc. split; [|reflexivity].
  rewrite !andb_true_iff in *. tauto.
Qed.

Section CalendarFacts.
Local Open Scope Z_scope.

Ltac Zify.zify_post_hook ::= Z.to_euclidean_division_equations.

Lemma civil_from_days_bounds (days : Z) :
  let '(y, m, d) := civil_from_days days in 1 <= m <= 12 /\ 1 <= d <= 31.
Proof.
  unfold civil_from_days. cbv zeta.
  set (z := days + 719468). set (era := z / 146097). set (doe := z - era * 146097).
  assert (Hdoe : 0 <= doe <= 146096) by (subst doe era; lia).
  clearbody doe. clear z era.
  set (yoe := (doe - doe / 1460 + doe / 36524 - doe / 146096) / 365).
  set (doy := doe - (365 * yoe + yoe / 4 - yoe / 100)).
  assert (Hdoy : 0 <= doy <= 365) by (subst doy yoe; lia).
  clearbody doy.
  set (mp := (5 * doy + 2) / 153).
  assert (Hmp : 0 <= mp <= 11) by (subst mp; lia).
  assert (Hd : 1 <= doy - (153 * mp + 2) / 5 + 1 <= 31) by (subst mp; lia).
  destruct (mp <? 10) eqn:E; [apply Z.ltb_lt in E | apply Z.ltb_ge in E]; split; lia.
Qed.

Lemma civil_from_days_year (days : Z) :
  -719528 <= days <= 2932896 ->
  let '(y, m, d) := civil_from_days days in 0 <= y <= 9999.
Proof.
  intros Hd. unfold civil_from_days. cbv zeta.
  set (z := days + 719468). set (era := z / 146097). set (doe := z - era * 146097).
  assert (Hdoe : 0 <= doe <= 146096) by (subst doe era; lia).
  set (yoe := (doe - doe / 1460 + doe / 36524 - doe / 146096) / 365).
  set (doy := doe - (365 * yoe + yoe / 4 - yoe / 100)).
  assert (Hdoy : 0 <= doy <= 365) by (subst doy yoe; lia).
  set (mp := (5 * doy + 2) / 153).
  assert (Hmp : 0 <= mp <= 11) by (subst mp; lia).
  destruct (mp <? 10) eqn:E; [apply Z.ltb_lt in E | apply Z.ltb_ge in E].
  - replace (mp + 3 <=? 2) with false by (symmetry; apply Z.leb_gt; lia).
    subst mp doy yoe doe era z; lia.
  - replace (mp - 9 <=? 2) with true by (symmetry; apply Z.leb_le; lia).
    subst mp doy yoe doe era z; lia.
Qed.

Lemma civil_roundtrip (days : Z) :
  let '(y, m, d) := civil_from_days days in days_from_civil y m d = days.
Proof.
  unfold civil_from_days. cbv zeta.
  set (z := days + 719468). set (era := z / 146097). set (doe := z - era * 146097).
  assert (Hdoe : 0 <= doe <= 146096) by (subst doe era; lia).
  assert (Hz : days = era * 146097 + doe - 719468) by (subst doe z; lia).
  clearbody doe era. clear z.
  set (yoe := (doe - doe / 1460 + doe / 36524 - doe / 146096) / 365).
  set (doy := doe - (365 * yoe + yoe / 4 - yoe / 100)).
  assert (Hyoe : 0 <= yoe <= 399) by (subst yoe; lia).
  assert (Hdoy : 0 <= doy <= 365) by (subst doy yoe; lia).
  assert (Hdoe' : doe = 365 * yoe + yoe / 4 - yoe / 100 + doy) by (subst doy; lia).
  clearbody doy yoe.
  set (mp := (5 * doy + 2) / 153).
  assert (Hmp : 0 <= mp <= 11) by (subst mp; lia).
  unfold days_from_civil.
  destruct (mp <? 10) eqn:E; [apply Z.ltb_lt in E | apply Z.ltb_ge in E].
  - replace (mp + 3 <=? 2) with false by (symmetry; apply Z.leb_gt; lia).
    replace (2 <? mp + 3) with true by (symmetry; apply Z.ltb_lt; lia).
    cbv zeta. replace (mp + 3 - 3) with mp by lia.
    replace ((yoe + era * 400) / 400) with era by lia.
    subst mp. lia.
  - replace (mp - 9 <=? 2) with true by (symmetry; apply Z.leb_le; lia).
    replace (2 <? mp - 9) with false by (symmetry; apply Z.ltb_ge; lia).
    cbv zeta. replace (mp - 9 + 9) with mp by lia.
    replace ((yoe + era * 400 + 1 - 1) / 400) with era by lia.
    subst mp. lia.
Qed.

Lemma inFourDigitYears_days (t : Z) :
  inFourDigitYears t -> -719528 <= t / msPerDay <= 2932896.
Proof. unfold inFourDigitYears, msPerDay. lia. Qed.

End CalendarFacts.

Lemma iso_string_renders (t : Z) :
  inFourDigitYears t -> renders t (slice0 10 (iso_string t)).
Proof.
  intros Ht. unfold renders, iso_string.
  pose proof (civil_from_days_bounds (t / msPerDay)) as Hb.
  pose proof (civil_from_days_year (t / msPerDay) (inFourDigitYears_days t Ht)) as Hy.
  pose proof (civil_roundtrip (t / msPerDay)) as Hrt.
  destruct (civil_from_days (t / msPerDay)) as [[y m] d].
  split; [exact Hrt|].
  unfold iso_year.
  replace ((0 <=? y)%Z && (y <=? 9999)%Z) with true
    by (symmetry; apply andb_true_iff; split; apply Z.leb_le; lia).
  destruct (ymd_shape (pad 4 y) (pad 2 m) (pad 2 d)
              (pad 2 (t mod msPerDay / 3600000) ++ ":" ++ pad 2 (t mod msPerDay / 60000 mod 60)
               ++ ":" ++ pad 2 (t mod msPerDay / 1000 mod 60) ++ "."
               ++ pad 3 (t mod msPerDay mod 1000) ++ "Z")%string)
    as [Hshape Hslice].
  - apply pad4_shape. lia.
  - apply pad2_shape. lia.
  - apply pad2_shape. lia.
  - rewrite Hslice. split; [reflexivity|exact Hshape].
Qed.

Section DateFacts.
Context {host : Host}.

Lemma normalizeRow_Date (row : Row) (s : string) :
  normalizeDate (getVal row datePatterns) = Ok s ->
  exists r, normalizeRow row = Ok r /\ Date r = s.
Proof.
  intros H. unfold normalizeRow. rewrite H. simpl. eexists. split; reflexivity.
Qed.

Lemma truthy_number (q : Q) : ~ q == 0 -> truthy (VNumber (Fin q)) = true.
Proof.
  intros H. simpl. apply negb_true_iff, not_true_iff_false.
  intros E. apply Qeq_bool_iff in E. exact (H E).
Qed.

Lemma truthy_string (s : string) : s <> "" -> truthy (VString s) = true.
Proof.
  intros H. simpl. apply negb_true_iff, String.eqb_neq, H.
Qed.

Lemma inFourDigitYears_clip (t : Z) :
  inFourDigitYears t -> (Z.abs t <=? 8640000000000000)%Z = true.
Proof. unfold inFourDigitYears. intros H. apply Z.leb_le. lia. Qed.

End DateFacts.

(** C7 (amended).  In [normalizeData], a numeric date value other than 0
    is read as a spreadsheet serial date: the instant [(value - 25569) *
    86400000] ms after the Unix epoch, and when that instant lies in the
    years 0000 to 9999 the record's date is its calendar day, written
    YYYY-MM-DD.  A non-empty string that the host parses to such an
    instant is rendered the same way; a non-empty string that does not
    parse is passed through verbatim; an absent date value yields
    ["Unknown"], and so does every other falsy value: the number 0, the
    empty string, [NaN] and [false]. *)
Theorem normalizeRow_date {host : Host} (row : Row) :
  let dateVal := getVal row datePatterns in
  (forall q, dateVal = VNumber (Fin q) -> ~ q == 0 ->
     let t := Qtrunc ((q - 25569) * 86400000) in
     inFourDigitYears t ->
     exists r, normalizeRow row = Ok r /\ renders t (Date r)) /\
  (forall s t, dateVal = VString s -> s <> "" ->
     Date_parse s = Fin t -> inFourDigitYears (Qfloor t) ->
     exists r, normalizeRow row = Ok r /\ renders (Qfloor t) (Date r)) /\
  (forall s, dateVal = VString s -> s <> "" -> Date_parse s = NaN ->
     exists r, normalizeRow row = Ok r /\ Date r = s) /\
  (dateVal = VNull \/ dateVal = VUndefined ->
     exists r, normalizeRow row = Ok r /\ Date r = "Unknown") /\
  (forall q, dateVal = VNumber (Fin q) -> q == 0 ->
     exists r, normalizeRow row = Ok r /\ Date r = "Unknown") /\
  (dateVal = VString "" ->
     exists r, normalizeRow row = Ok r /\ Date r = "Unknown") /\
  (truthy dateVal = false ->
     exists r, normalizeRow row = Ok r /\ Date r = "Unknown").
Proof.
  intros dateVal. subst dateVal.
  assert (Hfalsy : truthy (getVal row datePatterns) = false ->
                   exists r, normalizeRow row = Ok r /\ Date r = "Unknown").
  { intros Hf. apply normalizeRow_Date. unfold normalizeDate. rewrite Hf. reflexivity. }
  repeat split.
  - intros q Hv Hq t Ht.
    destruct (normalizeRow_Date row (slice0 10 (iso_string t))) as [r [Hr Hd]].
    + rewrite Hv. unfold normalizeDate. rewrite (truthy_number q Hq).
      change (TimeClip _) with
        (if (Z.abs t <=? 8640000000000000)%Z then Fin (inject_Z t) else NaN).
      rewrite (inFourDigitYears_clip t Ht). unfold toISOString, bind.
      rewrite Qfloor_Z. reflexivity.
    + exists r. split; [exact Hr|]. rewrite Hd. apply iso_string_renders, Ht.
  - intros s t Hv Hs Hp Ht.
    destruct (normalizeRow_Date row (slice0 10 (iso_string (Qfloor t)))) as [r [Hr Hd]].
    + rewrite Hv. unfold normalizeDate. rewrite (truthy_string s Hs). simpl.
      rewrite Hp. reflexivity.
    + exists r. split; [exact Hr|]. rewrite Hd. apply iso_string_renders, Ht.
  - intros s Hv Hs Hp. apply normalizeRow_Date.
    rewrite Hv. unfold normalizeDate. rewrite (truthy_string s Hs). simpl.
    rewrite Hp. reflexivity.
  - intros [Hv|Hv]; apply normalizeRow_Date; rewrite Hv; reflexivity.
  - intros q Hv Hq. apply Hfalsy. rewrite Hv. cbn [truthy].
    apply Qeq_bool_iff in Hq. rewrite Hq. reflexivity.
  - intros Hv. apply Hfalsy. rewrite Hv. reflexivity.
  - exact Hfalsy.
Qed.

(** ** C10: products with an undated record *)

Lemma string_gtb_irrefl (s : string) : string_gtb s s = false.
Proof.
  unfold string_gtb, String.ltb.
  destruct (String.compare s s) eqn:E; try reflexivity.
  pose proof (String.compare_antisym s s) as H. rewrite E in H. discriminate H.
Qed.

(** A string that is neither above nor equal to [u] is below it. *)
Lemma string_below (s u : string) :
  string_gtb s u = false -> s <> u -> string_gtb u s = true.
Proof.
  unfold string_gtb, String.ltb. intros H Hne.
  rewrite String.compare_antisym.
  destruct (String.compare u s) eqn:E; simpl; try reflexivity.
  - apply String.compare_eq_iff in E. congruence.
  - discriminate H.
Qed.

Lemma string_gtb_lt (a b : string) :
  string_gtb a b = true <-> OrderedTypeEx.String_as_OT.lt b a.
Proof.
  unfold string_gtb, String.ltb. rewrite <- OrderedTypeEx.String_as_OT.cmp_lt.
  unfold OrderedTypeEx.String_as_OT.cmp.
  destruct (String.compare b a); split; congruence.
Qed.

Lemma string_gtb_trans (a b c : string) :
  string_gtb a b = true -> string_gtb b c = true -> string_gtb a c = true.
Proof.
  rewrite !string_gtb_lt. intros Hab Hbc.
  exact (OrderedTypeEx.String_as_OT.lt_trans _ _ _ Hbc Hab).
Qed.

Lemma lowHead_below (s : string) :
  lowHead s = true -> string_gtb (slice0 10 s) "Unknown" = false.
Proof.
  destruct s as [|c s]; [discriminate|].
  unfold string_gtb, String.ltb, slice0. simpl.
  destruct c as [[] [] [] [] [] [] [] []]; intros H; try discriminate H; reflexivity.
Qed.

Lemma ymd_not_above_Unknown (s : string) :
  isYMD s = true -> string_gtb s "Unknown" = false.
Proof.
  destruct s as [|a s]; [discriminate|].
  intros H.
  assert (Ha : is_digit a = true).
  { cbn -[is_digit] in H.
    repeat match type of H with
           | context [match ?x with _ => _ end] =>
               is_var x; destruct x; cbn -[is_digit] in H; try discriminate H
           end.
    rewrite !andb_true_iff in H. tauto. }
  clear H. unfold string_gtb, String.ltb. simpl.
  destruct a as [[] [] [] [] [] [] [] []]; try discriminate Ha; reflexivity.
Qed.

Lemma iso_string_lowHead (t : Z) : lowHead (iso_string t) = true.
Proof.
  unfold iso_string. destruct (civil_from_days (t / msPerDay)) as [[y m] d].
  unfold iso_year.
  destruct ((0 <=? y)%Z && (y <=? 9999)%Z) eqn:E.
  - apply andb_true_iff in E. destruct E as [E1 E2].
    apply Z.leb_le in E1. apply Z.leb_le in E2.
    pose proof (pad4_shape y (conj E1 E2)) as Hs.
    destruct (pad 4 y) as [|a rest]; [discriminate Hs|].
    simpl in Hs. destruct rest as [|b [|c [|e [|]]]]; try discriminate Hs.
    rewrite !andb_true_iff in Hs. simpl. destruct Hs as [[[Ha _] _] _].
    rewrite Ha. reflexivity.
  - destruct (y <? 0)%Z; reflexivity.
Qed.

Section UnknownFacts.
Context {host : Host}.

(** The dates [normalizeDate] can return. *)
Lemma normalizeDate_cases (dateVal : value) (s : string) :
  normalizeDate dateVal = Ok s ->
  s = "Unknown" \/
  (exists t, s = slice0 10 (iso_string t)) \/
  Date_parse s = NaN.
Proof.
  unfold normalizeDate.
  destruct (truthy dateVal) eqn:Et; [|intros [= <-]; left; reflexivity].
  assert (Hiso : forall tv, (x <- toISOString tv ;; Ok (slice0 10 x)) = Ok s ->
                            exists t, s = slice0 10 (iso_string t)).
  { intros [|t]; simpl; [discriminate|]. intros [= <-]. eexists. reflexivity. }
  destruct dateVal as [| |b|n|str].
  - discriminate Et.
  - discriminate Et.
  - destruct b; [|discriminate Et]. intros H. right. left. exact (Hiso (Fin 1) H).
  - intros H. right. left. exact (Hiso _ H).
  - simpl. destruct (Date_parse str) as [|t] eqn:Ep; simpl.
    + intros [= <-]. right. right. exact Ep.
    + intros [= <-]. right. left. eexists. reflexivity.
Qed.

Lemma normalizeRow_noDateAbove (row : Row) (r : SalesRecord) :
  normalizeRow row = Ok r -> noDateAbove (Date r).
Proof.
  unfold normalizeRow.
  destruct (normalizeDate (getVal row datePatterns)) as [s|e] eqn:E; simpl; [|discriminate].
  intros [= <-]. simpl. unfold noDateAbove.
  destruct (normalizeDate_cases _ _ E) as [->|[[t ->]|Hp]].
  - rewrite string_gtb_irrefl. discriminate.
  - rewrite (lowHead_below _ (iso_string_lowHead t)). discriminate.
  - intros _. exact Hp.
Qed.

Lemma mapM_In {A B : Type} (f : A -> result B) (l : list A) : forall ys y,
  mapM f l = Ok ys -> In y ys -> exists x, In x l /\ f x = Ok y.
Proof.
  induction l as [|x l IH]; intros ys y; simpl.
  - intros [= <-] [].
  - destruct (f x) as [b|] eqn:Ex; simpl; [|discriminate].
    destruct (mapM f l) as [bs|]; simpl; [|discriminate].
    intros [= <-] [<-|Hin].
    + exists x. auto.
    + destruct (IH bs y eq_refl Hin) as [x' [H1 H2]]. exists x'. auto.
Qed.

Lemma normalizeData_noDateAbove (rawData : list Row) (out : list SalesRecord) :
  normalizeData rawData = Ok out -> Forall (fun r => noDateAbove (Date r)) out.
Proof.
  unfold normalizeData.
  destruct (mapM normalizeRow rawData) as [rows|] eqn:E; simpl; [|discriminate].
  intros [= <-]. apply Forall_forall. intros r Hr. apply filter_In in Hr.
  destruct (mapM_In _ _ _ _ E (proj1 Hr)) as [row [_ Hrow]].
  exact (normalizeRow_noDateAbove row r Hrow).
Qed.

(** When none of the records is dated above ["Unknown"], the last-sale
    date is ["Unknown"] as soon as one record carries it. *)
Lemma lastSale_Unknown (rs : list SalesRecord) : forall e,
  (forall r, In r rs -> string_gtb (Date r) "Unknown" = false) ->
  string_gtb (SlowMoving.lastSale e) "Unknown" = false ->
  (SlowMoving.lastSale e = "Unknown" \/ In "Unknown" (map Date rs)) ->
  SlowMoving.lastSale (fold_left (fun e r => SlowMoving.addRow r e) rs e) = "Unknown".
Proof.
  induction rs as [|r rs IH]; intros e Hall He Hsome; simpl.
  - destruct Hsome as [H|[]]. exact H.
  - assert (Hr : string_gtb (Date r) "Unknown" = false) by (apply Hall; left; reflexivity).
    apply IH.
    + intros r' Hr'. apply Hall. right. exact Hr'.
    + simpl. destruct (string_gtb (Date r) (SlowMoving.lastSale e)); assumption.
    + simpl. destruct Hsome as [Hu|[Hu|Hu]].
      * left. rewrite Hu, Hr. reflexivity.
      * left. rewrite Hu.
        destruct (string_dec (SlowMoving.lastSale e) "Unknown") as [->|Hne].
        -- rewrite string_gtb_irrefl. reflexivity.
        -- rewrite (string_below _ _ He Hne). reflexivity.
      * right. exact Hu.
Qed.

(** Once the last-sale date is ["Unknown"] or an unparseable string above
    it, it stays so. *)
Lemma lastSale_stays_invalid (rs : list SalesRecord) : forall e,
  Date_parse "Unknown" = NaN ->
  (forall r, In r rs -> noDateAbove (Date r)) ->
  (SlowMoving.lastSale e = "Unknown" \/
   (string_gtb (SlowMoving.lastSale e) "Unknown" = true /\
    Date_parse (SlowMoving.lastSale e) = NaN)) ->
  Date_parse (SlowMoving.lastSale (fold_left (fun e r => SlowMoving.addRow r e) rs e)) = NaN.
Proof.
  induction rs as [|r rs IH]; intros e Hu Hall He; simpl.
  - destruct He as [->|[_ H]]; assumption.
  - apply IH; [exact Hu | intros r' Hr'; apply Hall; right; exact Hr' |].
    simpl. destruct (string_gtb (Date r) (SlowMoving.lastSale e)) eqn:E; [|exact He].
    right.
    assert (Habove : string_gtb (Date r) "Unknown" = true).
    { destruct He as [Heq|[Hab _]].
      - rewrite Heq in E. exact E.
      - exact (string_gtb_trans _ _ _ E Hab). }
    split; [exact Habove|]. apply (Hall r (or_introl eq_refl)), Habove.
Qed.

Lemma lastSale_invalid (rs : list SalesRecord) : forall e,
  Date_parse "Unknown" = NaN ->
  (forall r, In r rs -> noDateAbove (Date r)) ->
  noDateAbove (SlowMoving.lastSale e) ->
  In "Unknown" (map Date rs) ->
  Date_parse (SlowMoving.lastSale (fold_left (fun e r => SlowMoving.addRow r e) rs e)) = NaN.
Proof.
  induction rs as [|r rs IH]; intros e Hu Hall He Hin; simpl.
  - destruct Hin.
  - assert (Hrest : forall r', In r' rs -> noDateAbove (Date r'))
      by (intros r' Hr'; apply Hall; right; exact Hr').
    destruct Hin as [Hr|Hin].
    + apply lastSale_stays_invalid; [exact Hu|exact Hrest|].
      simpl. rewrite Hr.
      destruct (string_gtb "Unknown" (SlowMoving.lastSale e)) eqn:E; [left; reflexivity|].
      destruct (string_dec (SlowMoving.lastSale e) "Unknown") as [Heq|Hne]; [left; exact Heq|].
      right.
      assert (Habove : string_gtb (SlowMoving.lastSale e) "Unknown" = true).
      { apply string_below; [exact E|]. congruence. }
      split; [exact Habove|exact (He Habove)].
    + apply IH; [exact Hu|exact Hrest| |exact Hin].
      simpl. destruct (string_gtb (Date r) (SlowMoving.lastSale e)); [|exact He].
      apply Hall. left. reflexivity.
Qed.

(** Every alert comes from an entry of the product map that passed the
    gate. *)
Lemma check_origin (lastRecordDate thresholdDays : number)
      (m : list (string * SlowMoving.ProductInfo)) : forall alerts a,
  In a (fold_left (SlowMoving.check lastRecordDate thresholdDays) m alerts) ->
  In a alerts \/
  exists info, In (SlowMoving.productName a, info) m /\
    number_geb (SlowMoving.daysBetween lastRecordDate (SlowMoving.lastSale info))
               thresholdDays = true.
Proof.
  induction m as [|[k info] m IH]; intros alerts a Hin; simpl in Hin.
  - left. exact Hin.
  - apply IH in Hin. destruct Hin as [Hin|[info' [H1 H2]]].
    + destruct (number_geb (SlowMoving.daysBetween lastRecordDate (SlowMoving.lastSale info))
                           thresholdDays) eqn:E; [|left; exact Hin].
      destruct (number_geb _ (Fin 60)); [|destruct (number_geb _ (Fin 30))];
        (apply in_app_or in Hin; destruct Hin as [Hin|[<-|[]]]; [left; exact Hin|];
         right; exists info; split; [left; reflexivity|exact E]).
    + right. exists info'. split; [right; exact H1|exact H2].
Qed.

Lemma daysBetween_invalid (lastRecordDate : number) (s : string) :
  Date_parse s = NaN -> SlowMoving.daysBetween lastRecordDate s = NaN.
Proof.
  intros H. unfold SlowMoving.daysBetween. rewrite H.
  destruct lastRecordDate; reflexivity.
Qed.

End UnknownFacts.

(** C10 (amended).  On a host for which ["Unknown"] is not a date, take a
    record set in which no date string of a product both compares above
    ["Unknown"] and parses; every record set [normalizeData] returns is
    such, and no YYYY-MM-DD string compares above ["Unknown"].  If the
    product has a record dated ["Unknown"], the last-sale date kept for
    it does not parse (it is ["Unknown"] itself when none of the
    product's dates compares above it), its days-since-last-sale is NaN,
    and for every threshold the product is absent from the output of
    [detectSlowMoving]. *)
Theorem detectSlowMoving_unknown_date {host : Host} :
  Date_parse "Unknown" = NaN ->
  (forall (data : list SalesRecord) (thresholdDays : number) (product : string),
     (exists r, In r data /\ Product r = product /\ Date r = "Unknown") ->
     (forall r, In r data -> Product r = product -> noDateAbove (Date r)) ->
     (forall info, In (product, info) (fold_left SlowMoving.aggregate data []) ->
        Date_parse (SlowMoving.lastSale info) = NaN /\
        (forall lastRecordDate,
           SlowMoving.daysBetween lastRecordDate (SlowMoving.lastSale info) = NaN) /\
        ((forall r, In r data -> Product r = product ->
                    string_gtb (Date r) "Unknown" = false) ->
         SlowMoving.lastSale info = "Unknown")) /\
     ~ exists a, In a (SlowMoving.detectSlowMoving data thresholdDays) /\
                 SlowMoving.productName a = product) /\
  (forall rawData data, normalizeData rawData = Ok data ->
     Forall (fun r => noDateAbove (Date r)) data) /\
  (forall s, isYMD s = true -> string_gtb s "Unknown" = false).
Proof.
  intros Hparse. split; [|split; [exact normalizeData_noDateAbove
                                 |exact ymd_not_above_Unknown]].
  intros data thresholdDays product [r0 [Hr0 [Hp0 Hd0]]] Hsafe.
  assert (Hentry : forall info,
             In (product, info) (fold_left SlowMoving.aggregate data []) ->
             exists r rs,
               (forall x, In x (r :: rs) -> In x data /\ Product x = product) /\
               In "Unknown" (map Date (r :: rs)) /\
               info = fold_left (fun e x => SlowMoving.addRow x e) (r :: rs)
                                {| SlowMoving.lastSale := Date r; SlowMoving.totalQty := 0;
                                   SlowMoving.category_of := Category r |}).
  { intros info Hin.
    destruct (group_entry Product
                (fun row => {| SlowMoving.lastSale := Date row; SlowMoving.totalQty := 0;
                               SlowMoving.category_of := Category row |})
                SlowMoving.addRow data product info Hin) as [r [rs [Hrs ->]]].
    exists r, rs. split; [|split; [|reflexivity]].
    - intros x Hx. rewrite <- Hrs in Hx. apply filter_In in Hx.
      destruct Hx as [Hx Hk]. apply String.eqb_eq in Hk. auto.
    - rewrite <- Hd0. apply in_map. rewrite <- Hrs. apply filter_In.
      split; [exact Hr0|]. apply String.eqb_eq. exact Hp0. }
  assert (Hinvalid : forall info,
             In (product, info) (fold_left SlowMoving.aggregate data []) ->
             Date_parse (SlowMoving.lastSale info) = NaN).
  { intros info Hin. destruct (Hentry info Hin) as [r [rs [Hrs [Hu ->]]]].
    apply lastSale_invalid.
    - exact Hparse.
    - intros x Hx. destruct (Hrs x Hx). apply Hsafe; assumption.
    - simpl. destruct (Hrs r (or_introl eq_refl)). apply Hsafe; assumption.
    - exact Hu. }
  split.
  - intros info Hin. split; [exact (Hinvalid info Hin)|]. split.
    + intros L. apply daysBetween_invalid, Hinvalid, Hin.
    + intros Hbelow. destruct (Hentry info Hin) as [r [rs [Hrs [Hu ->]]]].
      apply lastSale_Unknown.
      * intros x Hx. destruct (Hrs x Hx). apply Hbelow; assumption.
      * simpl. destruct (Hrs r (or_introl eq_refl)). apply Hbelow; assumption.
      * right. exact Hu.
  - intros [a [Ha Hname]]. unfold SlowMoving.detectSlowMoving in Ha.
    destruct (List.length _ =? 0)%nat; [exact Ha|].
    apply Array_sort_In, check_origin in Ha.
    destruct Ha as [[]|[info [Hin Hgate]]].
    rewrite Hname in Hin.
    rewrite (daysBetween_invalid _ _ (Hinvalid info Hin)) in Hgate. discriminate Hgate.
Qed.

(** * The properties on the sample inputs *)



(** Amounts of 50, 7 and 3: the shares 83.33333333333334 and
    11.666666666666666 add up to 95.00000000000001, so the second product
    is of class C, not B. *)
Example analyzePerformance_rounded_shares :
  map (fun p => (Performance.productName p, Performance.abcClass p,
                 Qle_bool (Performance.cumulativeShare p) 95))
      (Performance.analyzePerformance Sample.fifty)
  = [("Rice 5kg", Performance.ClassB, true);
     ("Rice 1kg", Performance.ClassC, false);
     ("Salt", Performance.ClassC, false)].
Proof. vm_compute. reflexivity. Qed.

(** Shares of 60, 30 and 10 percent: cumulative 60 is class A, 90 is
    class B, 100 is class C. *)
Example analyzePerformance_sample_classes :
  map (fun p => (Performance.productName p, Performance.abcClass p))
      (Performance.analyzePerformance Sample.sales)
  = [("LG Fridge X", Performance.ClassA); ("Sony TV", Performance.ClassB);
     ("Dyson V8", Performance.ClassC)].
Proof. vm_compute. reflexivity. Qed.

(** A single product has cumulative share 100, above 95: class C. *)
Example analyzePerformance_single_product :
  map (fun p => (Performance.productName p, Performance.totalQty p,
                 Performance.totalAmount p, Performance.averagePrice p,
                 Performance.salesFrequency p, Performance.abcClass p))
      (Performance.analyzePerformance (firstn 2 Sample.sales))
  = [("LG Fridge X", 3, 60000, 20000, 2, Performance.ClassC)].
Proof. vm_compute. reflexivity. Qed.

Lemma normalizeData_keeps_only_sales_witness :
  exists out,
    @normalizeData Ref.host Sample.rawBatch = Ok out /\
    Forall (fun r => 0 < Quantity r \/ 0 < Amount r) out /\
    @normalizeData Ref.host [Sample.saleRow] = Ok out.
Proof.
  destruct (@normalizeData Ref.host Sample.rawBatch) as [out|e] eqn:E;
    [|vm_compute in E; discriminate E].
  exists out. split; [reflexivity|].
  destruct (normalizeData_keeps_only_sales (host:=Ref.host) Sample.rawBatch out E)
    as [Hall Hrow].
  split; [exact Hall|].
  assert (Hr : exists r, @normalizeRow Ref.host Sample.emptyRow = Ok r /\
                         Quantity r == 0 /\ Amount r == 0).
  { eexists. split; [reflexivity|]. split; reflexivity. }
  destruct Hr as [r [Hr [Hq Ha]]].
  exact (proj2 (Hrow [Sample.saleRow] Sample.emptyRow [] r eq_refl Hr Hq Ha)).
Defined.

Lemma aggregations_no_phantom_rows_witness :
  Sample.sales <> [] /\ incl Sample.february Sample.sales /\
  forall p, In p (Performance.analyzePerformance Sample.february) ->
            exists r, In r Sample.february /\ Product r = Performance.productName p.
Proof.
  assert (H1 : Sample.sales <> []) by discriminate.
  assert (H2 : incl Sample.february Sample.sales).
  { unfold incl, Sample.february, Sample.sales. cbn [In]. tauto. }
  split; [exact H1|]. split; [exact H2|].
  exact (proj1 (aggregations_no_phantom_rows (host:=Ref.host)
                  Sample.sales Sample.february H1 H2)).
Defined.

Lemma forecastNextMonth_confidence_witness :
  Sample.sixMonths <> [] /\ (6 <= List.length Sample.sixMonths)%nat /\
  Forecast.confidence (Forecast.forecastNextMonth Sample.sixMonths) = Forecast.HIGH.
Proof.
  assert (H1 : Sample.sixMonths <> []) by discriminate.
  assert (H2 : (6 <= List.length Sample.sixMonths)%nat) by (simpl; lia).
  split; [exact H1|]. split; [exact H2|].
  exact (proj1 (proj2 forecastNextMonth_confidence Sample.sixMonths H1) H2).
Defined.

(** The example of the specification: last sale 2023-12-01, data ending
    2024-03-01, threshold 30: one alert, HIGH. *)
Example detectSlowMoving_stale_example :
  map (fun a => (SlowMoving.productName a, SlowMoving.daysSinceLastSale a,
                 SlowMoving.riskLevel a, SlowMoving.recommendation a))
      (@SlowMoving.detectSlowMoving Ref.host Sample.stale (Fin 30))
  = [("Sharp Oven", Fin 91, SlowMoving.HIGH, "建議立即清倉或停止進貨")].
Proof. vm_compute. reflexivity. Qed.

Lemma detectSlowMoving_default_threshold_witness :
  Forall (fun a =>
            exists d, SlowMoving.daysSinceLastSale a = Fin d /\ 30 <= d /\
              (60 <= d -> SlowMoving.riskLevel a = SlowMoving.HIGH /\
                          SlowMoving.recommendation a = "建議立即清倉或停止進貨") /\
              (d < 60 -> SlowMoving.riskLevel a = SlowMoving.MEDIUM /\
                         SlowMoving.recommendation a = "建議促銷活動或降價處理") /\
              SlowMoving.riskLevel a <> SlowMoving.LOW)
         (@SlowMoving.detectSlowMoving Ref.host Sample.stale (Fin 30)).
Proof.
  exact (detectSlowMoving_default_threshold (host:=Ref.host) Sample.stale).
Defined.



(** Twenty-five units over three days: the daily average 8.333333333333334
    is reported as 8.33, and thirty times it is 250.00000000000003, so 251
    units are suggested.  Twenty-three units over forty days: the average
    0.575 times 100 is 57.49999999999999, reported as 0.57. *)
Example calculateInventoryMetrics_rounded_example :
  (map (fun m => (Qred (Inventory.avgDailySales m), Inventory.suggestedOrderQty m))
       (@Inventory.calculateInventoryMetrics Ref.host Cases.threeDays 7),
   map (fun m => (Qred (Inventory.avgDailySales m), Inventory.suggestedOrderQty m))
       (@Inventory.calculateInventoryMetrics Ref.host Cases.fortyDays 7))
  = ([(literal (833 # 100), 251)], [(literal (57 # 100), 18)]).
Proof. vm_compute. reflexivity. Qed.

(** A sale of 400 at a cost of 197: the margin 50.75 percent is computed
    from the double 0.5075, a thousand times which is 507.49999999999994,
    and reported as 50.7. *)
Example analyzeProfitMargin_rounded_example :
  map (fun p => (Profit.grossProfit p, Qred (Profit.marginPercent p)))
      (Profit.analyzeProfitMargin Cases.costly)
  = [(400 - 197 * 1, literal (507 # 10))].
Proof. vm_compute. reflexivity. Qed.



(** C7 as stated fails on the code: the numeric date value 0 yields
    ["Unknown"], and a numeric value too large for a date (here a Unix
    timestamp in milliseconds) makes the normaliser throw. *)
Lemma normalizeRow_date_counterexample :
  @getVal Ref.host Sample.serialZeroRow datePatterns = VNumber (Fin 0) /\
  ~ (exists r, @normalizeRow Ref.host Sample.serialZeroRow = Ok r /\
               isYMD (Date r) = true) /\
  @getVal Ref.host Sample.timestampRow datePatterns = VNumber (Fin 1704412800000) /\
  ~ (exists r, @normalizeRow Ref.host Sample.timestampRow = Ok r).
Proof.
  split; [reflexivity|]. split.
  - intros [r [Hr Hy]]. vm_compute in Hr. injection Hr as <-. discriminate Hy.
  - split; [reflexivity|].
    intros [r Hr]. vm_compute in Hr. discriminate Hr.
Qed.

Lemma normalizeRow_date_witness :
  (@getVal Ref.host Sample.serialRow datePatterns = VNumber (Fin 45296) /\
   ~ 45296 == 0 /\
   inFourDigitYears (Qtrunc ((45296 - 25569) * 86400000)) /\
   exists r, @normalizeRow Ref.host Sample.serialRow = Ok r /\
             renders (Qtrunc ((45296 - 25569) * 86400000)) (Date r)) /\
  (@getVal Ref.host Sample.serialZeroRow datePatterns = VNumber (Fin 0) /\
   exists r, @normalizeRow Ref.host Sample.serialZeroRow = Ok r /\ Date r = "Unknown").
Proof.
  split; [|split; [reflexivity|];
           exact (proj1 (proj2 (proj2 (proj2 (proj2
                    (normalizeRow_date (host:=Ref.host) Sample.serialZeroRow)))))
                  0 eq_refl (Qeq_refl 0))].
  assert (H1 : @getVal Ref.host Sample.serialRow datePatterns = VNumber (Fin 45296))
    by reflexivity.
  assert (H2 : ~ 45296 == 0) by (intros H; discriminate H).
  assert (H3 : inFourDigitYears (Qtrunc ((45296 - 25569) * 86400000)))
    by (unfold inFourDigitYears; vm_compute; split; discriminate).
  split; [exact H1|]. split; [exact H2|]. split; [exact H3|].
  exact (proj1 (normalizeRow_date (host:=Ref.host) Sample.serialRow) 45296 H1 H2 H3).
Defined.

Example normalizeRow_serial_example :
  match @normalizeRow Ref.host Sample.serialRow with
  | Ok r => Date r
  | Throw e => e
  end = "2024-01-05".
Proof. vm_compute. reflexivity. Qed.

(** C8 as stated fails on the code: the first (and only) row with its
    key yields a record, and the record is not retained, the output
    filter dropping it. *)
Lemma normalizeData_dedup_counterexample :
  ~ (forall out r,
       @Part002.normalizeData Ref.host [Sample.emptyRow] = Ok out ->
       @yields Ref.host Sample.emptyRow r ->
       In r out).
Proof.
  intros H.
  exact (H [] Sample.emptyRecord eq_refl (ex_intro _ _ eq_refl)).
Qed.

Lemma normalizeData_dedup_witness :
  @Part002.normalizeData Ref.host Sample.repeated = Ok [Sample.saleRecord] /\
  NoDup (map (@keyOf Ref.host) [Sample.saleRecord]) /\
  @Part002.normalizeData Ref.host [Sample.saleRow; Sample.serialRow] = Ok [Sample.saleRecord].
Proof.
  assert (E : @Part002.normalizeData Ref.host Sample.repeated = Ok [Sample.saleRecord])
    by (vm_compute; reflexivity).
  destruct (normalizeData_dedup (host:=Ref.host) Sample.repeated [Sample.saleRecord] E)
    as [Hnd [_ Hrows]].
  split; [exact E|]. split; [exact Hnd|].
  assert (Hy : @yields Ref.host Sample.saleRow Sample.saleRecord)
    by (eexists; reflexivity).
  refine (proj2 (Hrows [Sample.saleRow; Sample.serialRow] Sample.saleRow []
                       Sample.saleRecord eq_refl Hy) _).
  exists Sample.saleRow, Sample.saleRecord. split; [left; reflexivity|].
  split; [exact Hy|reflexivity].
Defined.

(** C10 as stated fails on the code.  A product with a record dated
    ["Unknown"] and a record whose date string compares above ["Unknown"]
    and parses is reported; and on the records the normaliser returns for
    an undated row and a row dated ["n/a"], the last-sale date selected
    is ["n/a"], not ["Unknown"]. *)
Lemma detectSlowMoving_unknown_date_counterexample :
  ~ ((exists r, In r Sample.undatedUTC /\ Product r = "Teco Fan" /\ Date r = "Unknown") ->
     ~ exists a, In a (@SlowMoving.detectSlowMoving Ref.host Sample.undatedUTC (Fin 30)) /\
                 SlowMoving.productName a = "Teco Fan") /\
  exists data info,
    @normalizeData Ref.host Sample.undatedBatch = Ok data /\
    map Date data = ["Unknown"; "n/a"] /\
    In ("LG Fridge X", info) (fold_left SlowMoving.aggregate data []) /\
    SlowMoving.lastSale info = "n/a".
Proof.
  split.
  - intros H. apply H.
    + eexists. split; [left; reflexivity|]. split; reflexivity.
    + destruct (@SlowMoving.detectSlowMoving Ref.host Sample.undatedUTC (Fin 30))
        as [|a l] eqn:E; [vm_compute in E; discriminate E|].
      exists a. split; [left; reflexivity|].
      vm_compute in E. injection E as <- _. reflexivity.
  - destruct (@normalizeData Ref.host Sample.undatedBatch) as [data|e] eqn:E;
      [|vm_compute in E; discriminate E].
    vm_compute in E. injection E as <-.
    eexists. eexists. split; [reflexivity|]. split; [reflexivity|].
    split; [left; reflexivity|reflexivity].
Qed.

Lemma detectSlowMoving_unknown_date_witness :
  @Date_parse Ref.host "Unknown" = NaN /\
  (exists r, In r Sample.undated /\ Product r = "Teco Fan" /\ Date r = "Unknown") /\
  (forall r, In r Sample.undated -> Product r = "Teco Fan" ->
             @noDateAbove Ref.host (Date r)) /\
  ~ exists a, In a (@SlowMoving.detectSlowMoving Ref.host Sample.undated (Fin 0)) /\
              SlowMoving.productName a = "Teco Fan".
Proof.
  assert (H1 : @Date_parse Ref.host "Unknown" = NaN) by reflexivity.
  assert (H2 : exists r, In r Sample.undated /\ Product r = "Teco Fan" /\ Date r = "Unknown").
  { eexists. split; [left; reflexivity|]. split; reflexivity. }
  assert (H3 : forall r, In r Sample.undated -> Product r = "Teco Fan" ->
                         @noDateAbove Ref.host (Date r)).
  { intros r [<-|[<-|[<-|[]]]] _ Habove; vm_compute in Habove; discriminate Habove. }
  split; [exact H1|]. split; [exact H2|]. split; [exact H3|].
  exact (proj2 (proj1 (detectSlowMoving_unknown_date (host:=Ref.host) H1)
                      Sample.undated (Fin 0) "Teco Fan" H2 H3)).
Defined.

(** * Further properties of the analysers

    What the aggregation functions compute beyond the statements above:
    the keys of each output, the sums they conserve, and the behaviour at
    the edges. *)

Section GroupSums.
Context {R V : Type} (key : R -> string) (init : R -> V) (upd : R -> V -> V).



End GroupSums.

Section Summaries.
Context {V B : Type} (cmp : B -> B -> number) (summ : string * V -> B) (name : B -> string).

(** The rows of a sorted summary of a map are the summaries of its entries. *)
Lemma summary_In (m : list (string * V)) (x : B) :
  In x (Array_sort cmp (map summ m)) <-> exists k e, In (k, e) m /\ x = summ (k, e).
Proof.
  rewrite Array_sort_In, in_map_iff. split.
  - intros [[k e] [<- H]]. exists k, e. auto.
  - intros [k [e [H ->]]]. exists (k, e). auto.
Qed.

Lemma summary_names (m : list (string * V)) :
  (forall e, name (summ e) = fst e) ->
  Permutation (map name (Array_sort cmp (map summ m))) (map fst m).
Proof.
  intros Hname.
  rewrite (Permutation_map name (Array_sort_perm cmp (map summ m))).
  rewrite map_map. erewrite map_ext; [reflexivity|]. exact Hname.
Qed.

Lemma summary_NoDup (m : list (string * V)) :
  (forall e, name (summ e) = fst e) ->
  NoDup (map fst m) -> NoDup (map name (Array_sort cmp (map summ m))).
Proof.
  intros Hname Hnd.
  apply (Permutation_NoDup (l := map fst m)); [|exact Hnd].
  symmetry. apply summary_names, Hname.
Qed.


End Summaries.


(** ** Daily trend *)



(** ** Brands and price bands *)














(** ** Product performance *)



(** The product names of the result: those of the grouped map. *)
Lemma analyzePerformance_names (data : list SalesRecord) :
  Permutation (map Performance.productName (Performance.analyzePerformance data))
              (map fst (group Product Performance.newItem Performance.addRow [] data)).
Proof.
  unfold Performance.analyzePerformance. rewrite Performance_fold.
  set (G := group Product Performance.newItem Performance.addRow [] data).
  set (T := fold_left (fun t r => t + Amount r) data 0).
  set (cmp := fun a b : Performance.ProductPerformance =>
                Fin (Performance.totalAmount b - Performance.totalAmount a)).
  destruct (assignABC_amounts
              (Array_sort cmp (map (Performance.metrics T) (Map_values G))) 0)
    as [_ [_ ->]].
  rewrite (Permutation_map Performance.productName
             (Array_sort_perm cmp (map (Performance.metrics T) (Map_values G)))).
  unfold Map_values. rewrite !map_map.
  erewrite map_ext_in; [reflexivity|].
  intros [k e] He. simpl. apply (Performance_group_entry data k e He).
Qed.

Lemma analyzePerformance_NoDup (data : list SalesRecord) :
  NoDup (map Performance.productName (Performance.analyzePerformance data)).
Proof.
  apply (Permutation_NoDup (Permutation_sym (analyzePerformance_names data))).
  apply group_NoDup. constructor.
Qed.

(** Every product of the data has a row. *)
Lemma analyzePerformance_covers (data : list SalesRecord) (r : SalesRecord) :
  In r data ->
  exists p, In p (Performance.analyzePerformance data) /\
            Performance.productName p = Product r.
Proof.
  intros Hr.
  destruct (group_has_entry Product Performance.newItem Performance.addRow data r Hr)
    as [e He].
  apply (in_map fst) in He. simpl in He.
  apply (Permutation_in _ (Permutation_sym (analyzePerformance_names data))) in He.
  apply in_map_iff in He. destruct He as [p [Hp Hin]]. exists p. auto.
Qed.

(** A row is the grouped entry of its product with the metrics and the
    class set. *)
Lemma analyzePerformance_row (data : list SalesRecord) (p : Performance.ProductPerformance) :
  In p (Performance.analyzePerformance data) ->
  exists (e : Performance.ProductPerformance) (c : Q),
    In (Performance.productName p, e)
       (group Product Performance.newItem Performance.addRow [] data) /\
    p = Performance.setClass c
          (Performance.metrics (fold_left (fun t r => t + Amount r) data 0) e).
Proof.
  unfold Performance.analyzePerformance. rewrite Performance_fold.
  intros Hin. apply assignABC_In in Hin. destruct Hin as [q [c [Hq ->]]].
  apply Array_sort_In, in_map_iff in Hq. destruct Hq as [e [<- He]].
  unfold Map_values in He. apply in_map_iff in He. destruct He as [[k e'] [<- He]].
  exists e', c. simpl. split; [|reflexivity].
  destruct (Performance_group_entry data k e' He) as [-> _]. exact He.
Qed.


(** ** Seasonality *)







(** ** Brand and gift detection *)

Lemma prefix_occurs (p s : string) : prefix p s = true <-> exists b, s = (p ++ b)%string.
Proof.
  revert s. induction p as [|c p IH]; intros s.
  - split; [intros _; exists s; reflexivity|]. destruct s; reflexivity.
  - destruct s as [|d s]; cbn [prefix].
    + split; [discriminate|]. intros [b Hb]. discriminate Hb.
    + destruct (ascii_dec c d) as [->|Hne].
      * rewrite IH. split; intros [b Hb]; exists b.
        -- rewrite Hb. reflexivity.
        -- injection Hb as Hb. exact Hb.
      * split; [discriminate|]. intros [b Hb]. injection Hb as Hc _.
        exfalso. apply Hne. congruence.
Qed.

Lemma includes_occurs (s p : string) : includes s p = true <-> occursIn p s.
Proof.
  unfold occursIn. induction s as [|c s IH].
  - cbn [includes]. destruct (prefix p "") eqn:E.
    + split; [|reflexivity]. intros _. apply prefix_occurs in E. destruct E as [b Hb].
      exists ""%string, b. exact Hb.
    + split; [discriminate|]. intros [a [b H]].
      destruct a; [|discriminate H]. simpl in H.
      assert (prefix p "" = true) by (apply prefix_occurs; exists b; exact H).
      congruence.
  - cbn [includes]. destruct (prefix p (String c s)) eqn:E.
    + split; [|reflexivity]. intros _. apply prefix_occurs in E. destruct E as [b Hb].
      exists ""%string, b. exact Hb.
    + rewrite IH. split.
      * intros [a [b H]]. exists (String c a), b. rewrite H. reflexivity.
      * intros [a [b H]]. destruct a as [|d a].
        -- simpl in H.
           assert (prefix p (String c s) = true) by (apply prefix_occurs; exists b; exact H).
           congruence.
        -- simpl in H. injection H as _ H. exists a, b. exact H.
Qed.

Lemma append_assoc (a b c : string) : ((a ++ b) ++ c = a ++ (b ++ c))%string.
Proof. induction a as [|x a IH]; simpl; [reflexivity|]. rewrite IH. reflexivity. Qed.

(** A string that contains [q] contains what [q] contains. *)
Lemma includes_trans (s q p : string) :
  includes q p = true -> includes s q = true -> includes s p = true.
Proof.
  rewrite !includes_occurs. intros [a [b ->]] [a' [b' ->]].
  exists (a' ++ a)%string, (b ++ b')%string.
  rewrite !append_assoc. reflexivity.
Qed.

(** X7.  [detectGift] flags a record exactly when its amount is 0 or its
    lower-cased product name contains one of the four keywords 贈, 禮, 送,
    免費; the other keywords of the list (贈品, 附贈, 加贈) contain 贈 and
    never decide. *)
Theorem detectGift_keywords {host : Host} (productName : string) (amount : Q) :
  detectGift productName amount = true <->
  amount == 0 \/
  exists keyword, In keyword ["贈"; "禮"; "送"; "免費"] /\
                  occursIn keyword (toLowerCase productName).
Proof.
  unfold detectGift. destruct (Qeq_bool amount 0) eqn:E.
  - apply Qeq_bool_iff in E. tauto.
  - assert (Hne : ~ amount == 0).
    { intros H. apply Qeq_bool_iff in H. congruence. }
    cbv zeta. rewrite existsb_exists. split.
    + intros [k [Hk Hinc]]. right.
      unfold giftKeywords in Hk. simpl in Hk.
      destruct Hk as [<-|[<-|[<-|[<-|[<-|[<-|[<-|[]]]]]]]].
      * exists "贈". split; [simpl; tauto|]. apply includes_occurs, Hinc.
      * exists "贈". split; [simpl; tauto|]. apply includes_occurs.
        apply (includes_trans _ "贈品"); [reflexivity|exact Hinc].
      * exists "禮". split; [simpl; tauto|]. apply includes_occurs, Hinc.
      * exists "贈". split; [simpl; tauto|]. apply includes_occurs.
        apply (includes_trans _ "附贈"); [reflexivity|exact Hinc].
      * exists "贈". split; [simpl; tauto|]. apply includes_occurs.
        apply (includes_trans _ "加贈"); [reflexivity|exact Hinc].
      * exists "送". split; [simpl; tauto|]. apply includes_occurs, Hinc.
      * exists "免費". split; [simpl; tauto|]. apply includes_occurs, Hinc.
    + intros [H|[k [Hk Hocc]]]; [contradiction|].
      exists k. split; [|apply includes_occurs, Hocc].
      unfold giftKeywords. simpl in Hk |- *. tauto.
Qed.

(** X8.  [detectBrand] always returns one of its seventeen brand labels or
    the fallback label, and the fallback exactly when the lower-cased
    name contains none of the brand keywords. *)
Theorem detectBrand_labels {host : Host} (productName : string) :
  In (detectBrand productName) ("Other 其他" :: brandLabels) /\
  (detectBrand productName = "Other 其他" <->
   forall keyword, In keyword brandKeywords ->
                   ~ occursIn keyword (toLowerCase productName)).
Proof.
  unfold detectBrand. cbv zeta.
  set (normalized := toLowerCase productName).
  assert (Hno : forall k, In k brandKeywords -> includes normalized k = true ->
                  ~ (forall keyword, In keyword brandKeywords ->
                                     ~ occursIn keyword normalized)).
  { intros k Hk Hinc Hall. apply (Hall k Hk). apply includes_occurs, Hinc. }
  repeat match goal with
         | |- context [if includes normalized ?k || _ then _ else _] =>
             destruct (includes normalized k) eqn:?; cbn [orb]
         | |- context [if includes normalized ?k then _ else _] =>
             destruct (includes normalized k) eqn:?
         end;
    (split;
     [ unfold brandLabels; simpl; tauto
     | first
         [ split; [discriminate|];
           intros Hall; exfalso;
           match goal with
           | H : includes normalized ?k = true |- _ =>
               apply (Hno k); [unfold brandKeywords; simpl; tauto|exact H|exact Hall]
           end
         | split; [|reflexivity]; intros _ keyword Hk Hocc;
           apply includes_occurs in Hocc;
           unfold brandKeywords in Hk; simpl in Hk;
           repeat (destruct Hk as [<-|Hk]; [congruence|]); destruct Hk ] ]).
Qed.

(** ** The normaliser *)

Section NormalizerFacts.
Context {host : Host}.

Lemma normalizeDate_overflow (dateVal : value) :
  if serialOverflow dateVal
  then normalizeDate dateVal = Throw "RangeError: Invalid time value"
  else exists s, normalizeDate dateVal = Ok s.
Proof.
  unfold normalizeDate. destruct dateVal as [| |b|[|q]|s]; simpl.
  - eexists. reflexivity.
  - eexists. reflexivity.
  - destruct b; eexists; reflexivity.
  - eexists. reflexivity.
  - destruct (Qeq_bool q 0); simpl; [eexists; reflexivity|].
    change ((q - (25567 + 2)) * (86400 * 1000)) with ((q - 25569) * 86400000).
    rewrite Z.ltb_antisym.
    destruct (Z.abs (Qtrunc ((q - 25569) * 86400000)) <=? 8640000000000000)%Z; simpl.
    + eexists. reflexivity.
    + reflexivity.
  - destruct (negb (s =? "")%string); [|eexists; reflexivity].
    destruct (Date_parse s); simpl; eexists; reflexivity.
Qed.

Lemma normalizeRow_overflow (row : Row) :
  if serialOverflow (getVal row datePatterns)
  then normalizeRow row = Throw "RangeError: Invalid time value" /\
       forall seen, Part002.normalizeRow seen row = Throw "RangeError: Invalid time value"
  else (exists r, normalizeRow row = Ok r) /\
       forall seen, exists x, Part002.normalizeRow seen row = Ok x.
Proof.
  pose proof (normalizeDate_overflow (getVal row datePatterns)) as H.
  unfold normalizeRow, Part002.normalizeRow.
  destruct (serialOverflow (getVal row datePatterns)).
  - rewrite H. simpl. auto.
  - destruct H as [s ->]. simpl. split; [eexists; reflexivity|].
    intros seen. destruct (existsb _ seen); eexists; reflexivity.
Qed.

Lemma mapRows_overflow (rawData : list Row) : forall seen,
  if existsb (fun row => serialOverflow (getVal row datePatterns)) rawData
  then Part002.mapRows seen rawData = Throw "RangeError: Invalid time value"
  else exists rows, Part002.mapRows seen rawData = Ok rows.
Proof.
  induction rawData as [|row rawData IH]; intros seen; simpl.
  - eexists. reflexivity.
  - pose proof (normalizeRow_overflow row) as H.
    destruct (serialOverflow (getVal row datePatterns)); simpl.
    + destruct H as [_ H]. rewrite H. reflexivity.
    + destruct H as [_ H]. destruct (H seen) as [x ->]. simpl.
      specialize (IH (fst x)).
      destruct (existsb _ rawData).
      * rewrite IH. reflexivity.
      * destruct IH as [rows ->]. simpl. eexists. reflexivity.
Qed.

Lemma mapM_overflow (rawData : list Row) :
  if existsb (fun row => serialOverflow (getVal row datePatterns)) rawData
  then mapM normalizeRow rawData = Throw "RangeError: Invalid time value"
  else exists rows, mapM normalizeRow rawData = Ok rows.
Proof.
  induction rawData as [|row rawData IH]; simpl.
  - eexists. reflexivity.
  - pose proof (normalizeRow_overflow row) as H.
    destruct (serialOverflow (getVal row datePatterns)); simpl.
    + destruct H as [-> _]. reflexivity.
    + destruct H as [[r ->] _]. simpl.
      destruct (existsb _ rawData).
      * rewrite IH. reflexivity.
      * destruct IH as [rows ->]. simpl. eexists. reflexivity.
Qed.

(** The deduplicating normaliser keeps or drops what the plain one
    produces, without the gift flag. *)
Lemma mapRows_mapM (rawData : list Row) : forall seen opts,
  Part002.mapRows seen rawData = Ok opts ->
  exists rows, mapM normalizeRow rawData = Ok rows /\
               Forall2 (fun o r => o = None \/ o = Some (unflagged r)) opts rows.
Proof.
  induction rawData as [|row rawData IH]; intros seen opts; simpl.
  - intros [= <-]. exists []. split; [reflexivity|constructor].
  - unfold Part002.normalizeRow at 1. unfold normalizeRow at 1.
    destruct (normalizeDate (getVal row datePatterns)) as [dateStr|e]; simpl; [|discriminate].
    destruct (existsb _ seen); simpl.
    + destruct (Part002.mapRows seen rawData) as [rs|] eqn:E; simpl; [|discriminate].
      intros [= <-]. destruct (IH _ _ E) as [rows [-> HF]]. simpl.
      eexists. split; [reflexivity|]. constructor; [left; reflexivity|exact HF].
    + destruct (Part002.mapRows _ rawData) as [rs|] eqn:E; simpl; [|discriminate].
      intros [= <-]. destruct (IH _ _ E) as [rows [-> HF]]. simpl.
      eexists. split; [reflexivity|]. constructor; [right; reflexivity|exact HF].
Qed.

Lemma kept_rows (opts : list (option SalesRecord)) (rows : list SalesRecord) :
  Forall2 (fun o r => o = None \/ o = Some (unflagged r)) opts rows ->
  (List.length (Part002.somes (filter Part002.keep opts))
   <= List.length (filter positiveSale rows))%nat /\
  forall r2, In r2 (Part002.somes (filter Part002.keep opts)) ->
             exists r1, In r1 (filter positiveSale rows) /\ r2 = unflagged r1.
Proof.
  induction 1 as [|o r opts rows Hor HF IH]; simpl.
  - split; [lia|]. intros r2 [].
  - destruct IH as [IHlen IHin].
    destruct Hor as [->| ->]; simpl.
    + split.
      * destruct (positiveSale r); simpl; lia.
      * intros r2 H2. destruct (IHin r2 H2) as [r1 [H1 ->]]. exists r1.
        split; [|reflexivity]. destruct (positiveSale r); [right|]; exact H1.
    + change (positiveSale (unflagged r)) with (positiveSale r).
      destruct (positiveSale r); simpl.
      * split; [lia|]. intros r2 [<-|H2].
        -- exists r. auto.
        -- destruct (IHin r2 H2) as [r1 [H1 ->]]. exists r1. auto.
      * split; [exact IHlen|exact IHin].
Qed.

End NormalizerFacts.

(** X9.  Both normalisers fail, with a [RangeError], exactly when some row
    carries a numeric date value other than 0 whose instant
    [(value - 25569) * 86400000] ms is more than 8.64e15 ms from the epoch;
    on every other batch they return a record list.  One such row aborts
    the whole batch. *)
Theorem normalizeData_range_error {host : Host} (rawData : list Row) :
  if existsb (fun row => serialOverflow (getVal row datePatterns)) rawData
  then normalizeData rawData = Throw "RangeError: Invalid time value" /\
       Part002.normalizeData rawData = Throw "RangeError: Invalid time value"
  else (exists out, normalizeData rawData = Ok out) /\
       (exists out, Part002.normalizeData rawData = Ok out).
Proof.
  pose proof (mapM_overflow rawData) as H1.
  pose proof (mapRows_overflow rawData []) as H2.
  unfold normalizeData, Part002.normalizeData.
  destruct (existsb _ rawData).
  - rewrite H1, H2. auto.
  - destruct H1 as [rows1 ->], H2 as [rows2 ->]. simpl.
    split; eexists; reflexivity.
Qed.

(** X10.  Every record [normalizeData] returns carries the brand detected
    from its own product name and the gift flag computed from its product
    name and amount; a returned record with amount 0 is therefore always
    flagged as a gift, and has a positive quantity.  The output is never
    longer than the input. *)
Theorem normalizeData_flags {host : Host} (rawData : list Row) (out : list SalesRecord) :
  normalizeData rawData = Ok out ->
  (List.length out <= List.length rawData)%nat /\
  Forall (fun r => Brand r = detectBrand (Product r) /\
                   isGift r = Some (detectGift (Product r) (Amount r)) /\
                   (Amount r == 0 -> isGift r = Some true /\ 0 < Quantity r)) out.
Proof.
  unfold normalizeData. destruct (mapM normalizeRow rawData) as [rows|] eqn:E; simpl;
    [|discriminate].
  intros [= <-]. split.
  - assert (Hlen : List.length rows = List.length rawData).
    { revert rows E. induction rawData as [|row rawData IH]; intros rows; simpl.
      - intros [= <-]. reflexivity.
      - destruct (normalizeRow row); simpl; [|discriminate].
        destruct (mapM normalizeRow rawData) as [rs|]; simpl; [|discriminate].
        intros [= <-]. simpl. rewrite (IH rs eq_refl). reflexivity. }
    rewrite <- Hlen. apply filter_length_le.
  - apply Forall_forall. intros r Hr. apply filter_In in Hr. destruct Hr as [Hr Hpos].
    destruct (mapM_In normalizeRow rawData rows r E Hr) as [row [_ Hrow]].
    unfold normalizeRow in Hrow.
    destruct (normalizeDate (getVal row datePatterns)); simpl in Hrow; [|discriminate].
    injection Hrow as <-. cbn [Brand Product isGift Amount Quantity] in *.
    split; [reflexivity|]. split; [reflexivity|].
    intros Hz. unfold positiveSale in Hpos. cbn [Quantity Amount] in Hpos.
    split.
    + unfold detectGift. apply Qeq_bool_iff in Hz. rewrite Hz. reflexivity.
    + apply orb_true_iff in Hpos. destruct Hpos as [H|H]; apply Qgt_bool_iff in H.
      * exact H.
      * lra.
Qed.

(** X11.  The deduplicating normaliser only removes: whenever it returns,
    the plain normaliser returns too, its output is at least as long, and
    every deduplicated record is a record of the plain output without the
    gift flag. *)
Theorem normalizeData_dedup_subset {host : Host} (rawData : list Row)
        (deduped : list SalesRecord) :
  Part002.normalizeData rawData = Ok deduped ->
  exists out, normalizeData rawData = Ok out /\
              (List.length deduped <= List.length out)%nat /\
              forall r2, In r2 deduped -> exists r1, In r1 out /\ r2 = unflagged r1.
Proof.
  unfold Part002.normalizeData, normalizeData.
  destruct (Part002.mapRows [] rawData) as [opts|] eqn:E; simpl; [|discriminate].
  intros [= <-]. destruct (mapRows_mapM rawData [] opts E) as [rows [-> HF]]. simpl.
  eexists. split; [reflexivity|]. apply kept_rows, HF.
Qed.

(** ** Forecast *)








(** ** Slow-moving alerts *)

Lemma string_gtb_false_trans (a b c : string) :
  string_gtb a b = false -> string_gtb b c = false -> string_gtb a c = false.
Proof.
  intros Hab Hbc. destruct (string_gtb a c) eqn:Hac; [|reflexivity].
  destruct (string_dec b c) as [->|Hne]; [congruence|].
  pose proof (string_below b c Hbc Hne) as Hcb.
  rewrite (string_gtb_trans a c b Hac Hcb) in Hab. discriminate Hab.
Qed.

Lemma latest_unique (dates : list string) (d d' : string) :
  latest dates d -> latest dates d' -> d = d'.
Proof.
  intros [Hin Hmax] [Hin' Hmax'].
  destruct (string_dec d d') as [E|Hne]; [exact E|].
  pose proof (Hmax' d Hin) as H1. pose proof (Hmax d' Hin') as H2.
  rewrite (string_below d d' H1 Hne) in H2. discriminate H2.
Qed.

(** The last-sale date of an entry is a greatest date of the records
    folded into it. *)
Lemma lastSale_latest (rs : list SalesRecord) : forall e,
  let e' := fold_left (fun e r => SlowMoving.addRow r e) rs e in
  (SlowMoving.lastSale e' = SlowMoving.lastSale e \/
   In (SlowMoving.lastSale e') (map Date rs)) /\
  string_gtb (SlowMoving.lastSale e) (SlowMoving.lastSale e') = false /\
  forall r, In r rs -> string_gtb (Date r) (SlowMoving.lastSale e') = false.
Proof.
  induction rs as [|r rs IH]; intros e; cbv zeta; simpl.
  - split; [left; reflexivity|]. split; [apply string_gtb_irrefl|]. intros r [].
  - destruct (IH (SlowMoving.addRow r e)) as [Hin [Hle Hall]].
    cbn [SlowMoving.addRow SlowMoving.lastSale] in Hin, Hle.
    destruct (string_gtb (Date r) (SlowMoving.lastSale e)) eqn:E.
    + split; [|split].
      * destruct Hin as [-> | Hin]; right; [left; reflexivity|right; exact Hin].
      * destruct (string_gtb (SlowMoving.lastSale e) (Date r)) eqn:E'.
        -- pose proof (string_gtb_trans _ _ _ E E') as Hbad.
           rewrite string_gtb_irrefl in Hbad. discriminate Hbad.
        -- apply (string_gtb_false_trans _ (Date r)); assumption.
      * intros r' [<-|Hr']; [exact Hle|apply Hall, Hr'].
    + split; [|split].
      * destruct Hin as [-> | Hin]; [left; reflexivity|right; right; exact Hin].
      * exact Hle.
      * intros r' [<-|Hr']; [|apply Hall, Hr'].
        apply (string_gtb_false_trans _ (SlowMoving.lastSale e)); assumption.
Qed.

Lemma SlowMoving_entry (data : list SalesRecord) (k : string) (info : SlowMoving.ProductInfo) :
  In (k, info) (fold_left SlowMoving.aggregate data []) ->
  latest (map Date (recordsOf k data)) (SlowMoving.lastSale info) /\
  SlowMoving.totalQty info == sumQ (map Quantity (recordsOf k data)).
Proof.
  set (init := fun row : SalesRecord =>
                 {| SlowMoving.lastSale := Date row; SlowMoving.totalQty := 0;
                    SlowMoving.category_of := Category row |}).
  change (fold_left SlowMoving.aggregate data [])
    with (group Product init SlowMoving.addRow [] data).
  intros Hin. split.
  - destruct (group_entry Product init SlowMoving.addRow data k info Hin)
      as [r [rs [Hrs ->]]].
    unfold recordsOf. fold (hasKey Product k). rewrite Hrs.
    destruct (lastSale_latest (r :: rs) (init r)) as [Hin' [_ Hall]].
    split.
    + destruct Hin' as [-> | H]; [left; reflexivity|exact H].
    + intros d Hd. apply in_map_iff in Hd. destruct Hd as [r' [<- Hr']].
      apply Hall, Hr'.
  - apply (group_additive Product init SlowMoving.addRow SlowMoving.totalQty Quantity
                          data k info); [reflexivity| |exact Hin].
    intros r e. reflexivity.
Qed.

Section AlertFacts.
Context {host : Host}.

Lemma check_app (lastRecordDate thresholdDays : number)
      (alerts : list SlowMoving.SlowMovingAlert) (e : string * SlowMoving.ProductInfo) :
  SlowMoving.check lastRecordDate thresholdDays alerts e =
  alerts ++ SlowMoving.check lastRecordDate thresholdDays [] e.
Proof.
  destruct e as [k info]. unfold SlowMoving.check.
  destruct (number_geb _ thresholdDays); [|rewrite app_nil_r; reflexivity].
  destruct (number_geb _ (Fin 60)); [|destruct (number_geb _ (Fin 30))]; reflexivity.
Qed.

Lemma check_fold (lastRecordDate thresholdDays : number)
      (m : list (string * SlowMoving.ProductInfo)) : forall alerts,
  fold_left (SlowMoving.check lastRecordDate thresholdDays) m alerts =
  alerts ++ flat_map (SlowMoving.check lastRecordDate thresholdDays []) m.
Proof.
  induction m as [|e m IH]; intros alerts; simpl.
  - rewrite app_nil_r. reflexivity.
  - rewrite IH, check_app, <- app_assoc. reflexivity.
Qed.

(** What [check] writes for one entry: nothing when the gate rejects it,
    otherwise one alert of that product with the entry's fields, the same
    alert under every threshold that lets it through. *)
Lemma check_cases (lastRecordDate thresholdDays : number) (k : string)
      (info : SlowMoving.ProductInfo) :
  let d := SlowMoving.daysBetween lastRecordDate (SlowMoving.lastSale info) in
  if number_geb d thresholdDays
  then exists a,
         SlowMoving.check lastRecordDate thresholdDays [] (k, info) = [a] /\
         SlowMoving.productName a = k /\
         SlowMoving.lastSaleDate a = SlowMoving.lastSale info /\
         SlowMoving.totalQtyInPeriod a = SlowMoving.totalQty info /\
         SlowMoving.daysSinceLastSale a = d /\
         forall t, number_geb d t = true ->
                   SlowMoving.check lastRecordDate t [] (k, info) = [a]
  else SlowMoving.check lastRecordDate thresholdDays [] (k, info) = [].
Proof.
  cbv zeta. unfold SlowMoving.check.
  set (d := SlowMoving.daysBetween lastRecordDate (SlowMoving.lastSale info)).
  destruct (number_geb d thresholdDays) eqn:E; [|reflexivity].
  destruct (number_geb d (Fin 60)); [|destruct (number_geb d (Fin 30))]; simpl;
    (eexists; split; [reflexivity|]; repeat split; intros t Ht; rewrite Ht; reflexivity).
Qed.

Lemma alerts_In (lastRecordDate thresholdDays : number)
      (m : list (string * SlowMoving.ProductInfo)) (a : SlowMoving.SlowMovingAlert) :
  In a (fold_left (SlowMoving.check lastRecordDate thresholdDays) m []) <->
  exists k info, In (k, info) m /\
                 SlowMoving.check lastRecordDate thresholdDays [] (k, info) = [a].
Proof.
  rewrite check_fold. cbn [app]. rewrite in_flat_map. split.
  - intros [[k info] [He Ha]]. exists k, info. split; [exact He|].
    pose proof (check_cases lastRecordDate thresholdDays k info) as Hc. cbv zeta in Hc.
    set (g := number_geb _ thresholdDays) in Hc. clearbody g. destruct g.
    + destruct Hc as [a' [Hc _]]. rewrite Hc in Ha |- *.
      destruct Ha as [->|[]]. reflexivity.
    + rewrite Hc in Ha. destruct Ha.
  - intros [k [info [He Ha]]]. exists (k, info). split; [exact He|].
    rewrite Ha. left. reflexivity.
Qed.



End AlertFacts.

(** The last element of the sorted date strings is a greatest one. *)
Lemma last_sorted_latest (dates : list string) :
  dates <> [] -> latest dates (last (Array_sort defaultCompare dates) "").
Proof.
  intros Hne.
  assert (Hs : StronglySorted (fun a b => string_gtb a b = false)
                              (Array_sort defaultCompare dates)).
  { apply Sorted_StronglySorted.
    - intros a b c. apply string_gtb_false_trans.
    - apply Array_sort_sorted; intros a b; unfold sortsBefore, defaultCompare,
        string_gtb, String.ltb; rewrite ?(String.compare_antisym b a);
        destruct (String.compare a b); simpl; intros H;
        first [reflexivity | discriminate H]. }
  pose proof (Array_sort_In defaultCompare dates) as Hin.
  assert (Hne' : Array_sort defaultCompare dates <> []).
  { intros E. destruct dates as [|d ds]; [congruence|].
    specialize (Hin d). rewrite E in Hin. apply Hin. left. reflexivity. }
  revert Hs Hin Hne'. generalize (Array_sort defaultCompare dates). intros l Hs Hin Hne'.
  assert (Hl : In (last l "") l /\ forall d, In d l -> string_gtb d (last l "") = false).
  { clear Hin. induction Hs as [|a l Hs IH Hall]; [congruence|].
    destruct l as [|b l].
    - simpl. split; [left; reflexivity|]. intros d [<-|[]]. apply string_gtb_irrefl.
    - destruct IH as [IH1 IH2]; [discriminate|].
      change (last (a :: b :: l) "") with (last (b :: l) "").
      split; [right; exact IH1|]. intros d [<-|Hd]; [|apply IH2, Hd].
      rewrite Forall_forall in Hall. apply Hall, IH1. }
  destruct Hl as [H1 H2]. split.
  - apply Hin, H1.
  - intros d Hd. apply H2, Hin, Hd.
Qed.


Lemma number_geb_weaken (d : number) (t1 t2 : Q) :
  t1 <= t2 -> number_geb d (Fin t2) = true -> number_geb d (Fin t1) = true.
Proof.
  destruct d as [|x]; simpl; [discriminate|].
  intros Hle H. apply Qge_bool_iff in H. apply Qge_bool_iff. lra.
Qed.

(** The alerts of a data set, whichever the threshold: the alerts that
    [check] writes for the entries of one product map with one reference
    date. *)
Lemma detectSlowMoving_In {host : Host} (data : list SalesRecord) (thresholdDays : number)
      (a : SlowMoving.SlowMovingAlert) :
  In a (SlowMoving.detectSlowMoving data thresholdDays) <->
  datedOf data <> [] /\
  exists k info,
    In (k, info) (fold_left SlowMoving.aggregate data []) /\
    SlowMoving.check (Date_parse (last (Array_sort defaultCompare (datedOf data)) ""))
                     thresholdDays [] (k, info) = [a].
Proof.
  unfold SlowMoving.detectSlowMoving. fold (datedOf data). rewrite Array_sort_length.
  destruct (datedOf data) as [|d0 ds].
  - simpl. split; [intros []|]. intros [H _]. congruence.
  - cbn [List.length Nat.eqb]. rewrite Array_sort_In, alerts_In.
    split; [intros H; split; [discriminate|exact H]|intros [_ H]; exact H].
Qed.

(** X14.  Thresholds of [detectSlowMoving].  Raising the threshold only
    removes alerts: the alerts under [t2] are the alerts under a lower
    [t1] whose days reach [t2], unchanged.  Every product whose days since
    its last sale reach the threshold is reported.  The risk level does
    not depend on the threshold: HIGH from 60 days, MEDIUM from 30 to below
    60, LOW below 30 (which a threshold of 30 or more never lets through). *)
Theorem detectSlowMoving_threshold {host : Host} (data : list SalesRecord) (t1 t2 : Q) :
  t1 <= t2 ->
  (forall a, In a (SlowMoving.detectSlowMoving data (Fin t2)) <->
             In a (SlowMoving.detectSlowMoving data (Fin t1)) /\
             number_geb (SlowMoving.daysSinceLastSale a) (Fin t2) = true) /\
  (forall r ref d,
     In r data -> latest (datedOf data) ref ->
     latest (map Date (recordsOf (Product r) data)) d ->
     number_geb (SlowMoving.daysBetween (Date_parse ref) d) (Fin t1) = true ->
     exists a, In a (SlowMoving.detectSlowMoving data (Fin t1)) /\
               SlowMoving.productName a = Product r) /\
  (forall a, In a (SlowMoving.detectSlowMoving data (Fin t1)) ->
     exists x, SlowMoving.daysSinceLastSale a = Fin x /\ t1 <= x /\
               (SlowMoving.riskLevel a = SlowMoving.HIGH <-> 60 <= x) /\
               (SlowMoving.riskLevel a = SlowMoving.MEDIUM <-> 30 <= x /\ x < 60) /\
               (SlowMoving.riskLevel a = SlowMoving.LOW <-> x < 30)).
Proof.
  intros Hle. split; [|split].
  - intros a. rewrite !detectSlowMoving_In.
    set (L := Date_parse (last (Array_sort defaultCompare (datedOf data)) "")).
    split.
    + intros [Hne [k [info [He Ha]]]].
      pose proof (check_cases L (Fin t2) k info) as Hc. cbv zeta in Hc.
      destruct (number_geb (SlowMoving.daysBetween L (SlowMoving.lastSale info)) (Fin t2))
        eqn:Eg.
      * destruct Hc as [a' [Hc [_ [_ [_ [Hdays Hany]]]]]].
        rewrite Hc in Ha. injection Ha as ->.
        split; [|rewrite Hdays; exact Eg].
        split; [exact Hne|]. exists k, info. split; [exact He|].
        apply Hany. apply (number_geb_weaken _ t1 t2 Hle Eg).
      * rewrite Hc in Ha. discriminate Ha.
    + intros [[Hne [k [info [He Ha]]]] Hgate].
      split; [exact Hne|]. exists k, info. split; [exact He|].
      pose proof (check_cases L (Fin t1) k info) as Hc. cbv zeta in Hc.
      destruct (number_geb (SlowMoving.daysBetween L (SlowMoving.lastSale info)) (Fin t1)).
      * destruct Hc as [a' [Hc [_ [_ [_ [Hdays Hany]]]]]].
        rewrite Hc in Ha. injection Ha as ->.
        apply Hany. rewrite <- Hdays. exact Hgate.
      * rewrite Hc in Ha. discriminate Ha.
  - intros r ref d Hr Href Hd Hgate.
    destruct (group_has_entry Product
                (fun row => {| SlowMoving.lastSale := Date row; SlowMoving.totalQty := 0;
                               SlowMoving.category_of := Category row |})
                SlowMoving.addRow data r Hr) as [info He].
    change (group Product _ SlowMoving.addRow [] data)
      with (fold_left SlowMoving.aggregate data []) in He.
    destruct (SlowMoving_entry data (Product r) info He) as [Hlatest _].
    assert (Hne : datedOf data <> []).
    { destruct Href as [Hin _]. intros E. rewrite E in Hin. destruct Hin. }
    rewrite (latest_unique _ _ _ Href (last_sorted_latest (datedOf data) Hne)) in Hgate.
    rewrite (latest_unique _ _ _ Hd Hlatest) in Hgate.
    pose proof (check_cases
                  (Date_parse (last (Array_sort defaultCompare (datedOf data)) ""))
                  (Fin t1) (Product r) info) as Hc.
    cbv zeta in Hc. rewrite Hgate in Hc. destruct Hc as [a [Hc [Hname _]]].
    exists a. split; [|exact Hname].
    apply detectSlowMoving_In. split; [exact Hne|]. exists (Product r), info. auto.
  - intros a Ha.
    pose proof (detectSlowMoving_gated data (Fin t1)) as Hg.
    rewrite Forall_forall in Hg. destruct (Hg a Ha) as [Hgate Hrisk].
    destruct (SlowMoving.daysSinceLastSale a) as [|x]; [discriminate Hgate|].
    exists x. split; [reflexivity|]. simpl in Hgate, Hrisk.
    apply Qge_bool_iff in Hgate. split; [exact Hgate|].
    destruct (Qge_bool x 60) eqn:E60; [|destruct (Qge_bool x 30) eqn:E30];
      injection Hrisk as -> _;
      repeat match goal with
             | H : Qge_bool _ _ = true |- _ => apply Qge_bool_iff in H
             | H : Qge_bool _ _ = false |- _ => apply Qge_bool_false_iff in H
             end;
      repeat split; intros; try discriminate; try reflexivity; try lra;
      try (exfalso; lra).
Qed.

(** ** Profit margin and inventory rows *)



(** Two maps with the same keys keep the same keys when grouped over the
    same records by the same key. *)
Lemma group_same_keys {R V W : Type} (key : R -> string)
      (init : R -> V) (upd : R -> V -> V) (init' : R -> W) (upd' : R -> W -> W)
      (data : list R) : forall m m',
  map fst m = map fst m' ->
  map fst (group key init upd m data) = map fst (group key init' upd' m' data).
Proof.
  induction data as [|r data IH]; intros m m' Hm; simpl.
  - exact Hm.
  - apply IH. rewrite !Map_upsert_keys, Hm.
    replace (Map_has m (key r)) with (Map_has m' (key r)); [reflexivity|].
    unfold Map_has.
    destruct (Map_get m (key r)) eqn:E; destruct (Map_get m' (key r)) eqn:E';
      try reflexivity.
    + apply Map_get_In, (in_map fst) in E. apply Map_get_None in E'.
      rewrite Hm in E. contradiction.
    + apply Map_get_In, (in_map fst) in E'. apply Map_get_None in E.
      rewrite Hm in E. contradiction.
Qed.

Lemma sumQ_nonneg (l : list Q) : Forall (fun x => 0 <= x) l -> 0 <= sumQ l.
Proof.
  induction 1 as [|x l Hx _ IH].
  - rewrite sumQ_nil. lra.
  - rewrite sumQ_cons. lra.
Qed.

Lemma distinctDays_pos (data : list SalesRecord) : 0 < distinctDays data.
Proof.
  unfold distinctDays, Qlt. cbn [Qnum Qden inject_Z]. lia.
Qed.

Lemma Math_round_nonneg (x : Q) : 0 <= x -> 0 <= Math_round x.
Proof.
  intros H. unfold Math_round.
  assert (Hf : (0 <= Qfloor (x + (1 # 2)))%Z).
  { change 0%Z with (Qfloor 0). apply Qfloor_resp_le. lra. }
  unfold Qle. cbn [Qnum Qden inject_Z]. lia.
Qed.

(** X16.  [calculateInventoryMetrics] returns one row per distinct product
    name, a row for the product of every record and only such rows, hence
    as many rows as [analyzePerformance].  For a product whose quantities
    are not negative, and a lead time that is not negative, the average
    daily sales and the suggested order quantity are not negative and the
    reorder point is at least the safety stock. *)
Theorem calculateInventoryMetrics_rows {host : Host} (data : list SalesRecord)
        (leadTimeDays : Q) :
  let out := Inventory.calculateInventoryMetrics data leadTimeDays in
  NoDup (map Inventory.productName out) /\
  (forall r, In r data -> exists m, In m out /\ Inventory.productName m = Product r) /\
  (forall m, In m out -> exists r, In r data /\ Product r = Inventory.productName m) /\
  List.length out = List.length (Performance.analyzePerformance data) /\
  (forall m, In m out ->
     (forall r, In r (recordsOf (Inventory.productName m) data) -> 0 <= Quantity r) ->
     0 <= leadTimeDays ->
     0 <= Inventory.avgDailySales m /\
     0 <= Inventory.suggestedOrderQty m /\
     forall s p, Inventory.safetyStock m = Fin s -> Inventory.reorderPoint m = Fin p ->
                 s <= p).
Proof.
  cbv zeta. unfold Inventory.calculateInventoryMetrics.
  set (init := fun row : SalesRecord =>
                 {| Inventory.qty := []; Inventory.category_of := Category row |}).
  assert (HM : fold_left Inventory.aggregate data []
               = group Product init Inventory.pushQty [] data) by reflexivity.
  split; [|split; [|split; [|split]]].
  - rewrite HM. apply summary_NoDup.
    + intros [k e]. reflexivity.
    + apply group_NoDup. constructor.
  - intros r Hr. rewrite HM.
    destruct (group_has_entry Product init Inventory.pushQty data r Hr) as [e He].
    exists (Inventory.summarize (Inventory.totalDaysOf data) leadTimeDays (Product r, e)).
    split; [|reflexivity]. apply summary_In. exists (Product r), e. auto.
  - intros m Hm. rewrite HM in Hm. apply summary_In in Hm.
    destruct Hm as [k [e [He ->]]]. simpl.
    apply group_key_origin in He. exact He.
  - rewrite HM. unfold Performance.analyzePerformance. rewrite Performance_fold.
    rewrite assignABC_length, !Array_sort_length. unfold Map_values. rewrite !length_map.
    rewrite <- (length_map fst), <- (length_map fst (group Product Performance.newItem _ _ _)).
    f_equal. apply group_same_keys. reflexivity.
  - intros m Hm Hqty Hlead. apply summary_In in Hm. destruct Hm as [k [info [He ->]]].
    cbn [Inventory.summarize Inventory.productName Inventory.avgDailySales
         Inventory.suggestedOrderQty Inventory.safetyStock Inventory.reorderPoint] in *.
    rewrite (Inventory_entry data k info He), totalDaysOf_distinct.
    change (fold_left Qplus (sampleOf k data) 0) with (sumQ (sampleOf k data)).
    assert (Hsum : 0 <= sumQ (sampleOf k data)).
    { apply sumQ_nonneg. unfold sampleOf. apply Forall_forall. intros q Hq.
      apply in_map_iff in Hq. destruct Hq as [r [<- Hr]]. apply Hqty, Hr. }
    pose proof (distinctDays_pos data) as Hdays.
    assert (Havg : 0 <= sumQ (sampleOf k data) / distinctDays data).
    { apply Qle_shift_div_l; [exact Hdays|]. lra. }
    apply fl_nonneg in Havg. fold (fdiv (sumQ (sampleOf k data)) (distinctDays data)) in Havg.
    set (avg := fdiv (sumQ (sampleOf k data)) (distinctDays data)) in *.
    split; [|split].
    + unfold fdiv at 1. apply fl_nonneg. apply Qle_shift_div_l; [reflexivity|].
      pose proof (Math_round_nonneg (fmul avg 100)) as Hr.
      assert (0 <= fmul avg 100).
      { apply fl_nonneg. apply Qmult_le_0_compat; lra. }
      lra.
    + unfold Math_ceil. pose proof (Qle_ceiling (fmul avg 30)) as Hc.
      assert (0 <= fmul avg 30).
      { apply fl_nonneg. apply Qmult_le_0_compat; lra. }
      lra.
    + intros s p Hs Hp. rewrite Hs in Hp. cbn [number_fadd number_ceil] in Hp.
      injection Hp as <-.
      destruct (number_fmul _ (Math_sqrt leadTimeDays)) as [|d] eqn:Ed;
        [discriminate Hs|].
      cbn [number_ceil] in Hs. injection Hs as <-.
      assert (Hd : fl d == d).
      { destruct (number_fmul (Fin Inventory.Zscore) _) as [|a]; [discriminate Ed|].
        destruct (Math_sqrt leadTimeDays) as [|b]; [discriminate Ed|].
        cbn [number_fmul] in Ed. injection Ed as <-. apply fl_idem. }
      assert (Hy : 0 <= fmul avg leadTimeDays).
      { apply fl_nonneg. apply Qmult_le_0_compat; lra. }
      pose proof (Qle_ceiling d) as Hc. fold (Math_ceil d) in Hc.
      assert (Hle : d <= fadd (Math_ceil d) (fmul avg leadTimeDays)).
      { apply (Qle_trans _ (fl d)); [lra|]. apply fl_mono. lra. }
      pose proof (Qceiling_resp_le _ _ Hle) as Hz. rewrite Zle_Qle in Hz. exact Hz.
Qed.

(** ** Month-over-month and year-over-year comparison *)






(** ** The sample sent with the decision prompt *)

Lemma filtered_names_NoDup (keep : Performance.ProductPerformance -> bool)
      (rows : list Performance.ProductPerformance) :
  NoDup (map Performance.productName rows) ->
  NoDup (map Performance.productName (filter keep rows)).
Proof.
  induction rows as [|p rows IH]; simpl; intros Hnd.
  - constructor.
  - inversion Hnd as [|? ? Hp Hnd']; subst.
    destruct (keep p); simpl; [|apply IH, Hnd'].
    constructor; [|apply IH, Hnd'].
    intros Hin. apply Hp. apply in_map_iff in Hin. destruct Hin as [q [Hq Hin]].
    apply filter_In in Hin. rewrite <- Hq. apply in_map, Hin.
Qed.

Lemma firstn_In {A : Type} (n : nat) (l : list A) (x : A) : In x (firstn n l) -> In x l.
Proof. intros H. rewrite <- (firstn_skipn n l). apply in_or_app. left. exact H. Qed.

Lemma slice_last_In {A : Type} (n : nat) (l : list A) (x : A) :
  In x (slice_last n l) -> In x l.
Proof.
  unfold slice_last. intros H. rewrite <- (firstn_skipn (List.length l - n) l).
  apply in_or_app. right. exact H.
Qed.

Lemma slice_last_length {A : Type} (n : nat) (l : list A) :
  (List.length (slice_last n l) <= n)%nat.
Proof. unfold slice_last. rewrite length_skipn. lia. Qed.

(** Rows with distinct names are equal when their names are. *)
Lemma distinct_names_eq (rows : list Performance.ProductPerformance)
      (p q : Performance.ProductPerformance) :
  NoDup (map Performance.productName rows) ->
  In p rows -> In q rows -> Performance.productName p = Performance.productName q -> p = q.
Proof.
  induction rows as [|x rows IH]; simpl; intros Hnd Hp Hq Hname; [destruct Hp|].
  inversion Hnd as [|? ? Hx Hnd']; subst.
  destruct Hp as [->|Hp], Hq as [->|Hq].
  - reflexivity.
  - exfalso. apply Hx. rewrite Hname. apply in_map, Hq.
  - exfalso. apply Hx. rewrite <- Hname. apply in_map, Hp.
  - apply IH; assumption.
Qed.

Lemma sample_part_NoDup (rows part : list Performance.ProductPerformance) :
  NoDup (map Performance.productName rows) ->
  (exists keep n, part = firstn n (filter keep rows)
                  \/ part = slice_last n (filter keep rows)) ->
  NoDup (map Performance.productName part).
Proof.
  intros Hnd [keep [n Hpart]].
  pose proof (filtered_names_NoDup keep rows Hnd) as Hf.
  destruct Hpart as [-> | ->].
  - rewrite <- (firstn_skipn n (filter keep rows)), map_app in Hf.
    apply NoDup_app_remove_r in Hf. exact Hf.
  - unfold slice_last.
    rewrite <- (firstn_skipn (List.length (filter keep rows) - n) (filter keep rows)),
      map_app in Hf.
    apply NoDup_app_remove_l in Hf. exact Hf.
Qed.

(** X18.  The sample that [generateDecisionMatrix] sends with its prompt,
    taken from the result of [analyzePerformance]: the first 30 rows of
    class A, the first 5 of class B and the last 5 of class C (the ranges
    of cumulative share it filters by are the classes), at most 40 rows in
    all, each a row of the result, and no product twice. *)
Theorem sampleData_classes (data : list SalesRecord) :
  let out := Performance.analyzePerformance data in
  let sample := Sampling.sampleData out in
  sample = firstn 30 (ofClass Performance.ClassA out)
           ++ firstn 5 (ofClass Performance.ClassB out)
           ++ slice_last 5 (ofClass Performance.ClassC out) /\
  (List.length sample <= 40)%nat /\
  (forall p, In p sample -> In p out) /\
  NoDup (map Performance.productName sample).
Proof.
  cbv zeta.
  set (out := Performance.analyzePerformance data).
  assert (Hclass : forall p, In p out ->
            Performance.abcClass p = Performance.classOf (Performance.cumulativeShare p)).
  { intros p Hp. destruct (analyzePerformance_row data p Hp) as [e [c [_ ->]]].
    reflexivity. }
  assert (HA : filter (fun p => Qle_bool (Performance.cumulativeShare p) 80) out
               = ofClass Performance.ClassA out).
  { apply filter_ext_in. intros p Hp. rewrite (Hclass p Hp). unfold Performance.classOf.
    destruct (Qle_bool (Performance.cumulativeShare p) 80); [reflexivity|].
    destruct (Qle_bool (Performance.cumulativeShare p) 95); reflexivity. }
  assert (HB : filter (fun p => Qgt_bool (Performance.cumulativeShare p) 80
                                && Qle_bool (Performance.cumulativeShare p) 95) out
               = ofClass Performance.ClassB out).
  { apply filter_ext_in. intros p Hp. rewrite (Hclass p Hp).
    unfold Performance.classOf, Qgt_bool.
    destruct (Qle_bool (Performance.cumulativeShare p) 80); [reflexivity|].
    destruct (Qle_bool (Performance.cumulativeShare p) 95); reflexivity. }
  assert (HC : filter (fun p => Qgt_bool (Performance.cumulativeShare p) 95) out
               = ofClass Performance.ClassC out).
  { apply filter_ext_in. intros p Hp. rewrite (Hclass p Hp).
    unfold Performance.classOf, Qgt_bool.
    destruct (Qle_bool (Performance.cumulativeShare p) 80) eqn:E80.
    - apply Qle_bool_iff in E80.
      destruct (Qle_bool (Performance.cumulativeShare p) 95) eqn:E95; [reflexivity|].
      apply Qle_bool_false_iff in E95. lra.
    - destruct (Qle_bool (Performance.cumulativeShare p) 95); reflexivity. }
  unfold Sampling.sampleData. cbv zeta. rewrite HA, HB, HC.
  pose proof (analyzePerformance_NoDup data) as Hnd. fold out in Hnd.
  split; [reflexivity|]. split; [|split].
  - rewrite !length_app.
    pose proof (firstn_le_length 30 (ofClass Performance.ClassA out)).
    pose proof (firstn_le_length 5 (ofClass Performance.ClassB out)).
    pose proof (slice_last_length 5 (ofClass Performance.ClassC out)).
    lia.
  - intros p Hp. apply in_app_or in Hp. destruct Hp as [Hp|Hp].
    + apply firstn_In in Hp. apply filter_In in Hp. apply Hp.
    + apply in_app_or in Hp. destruct Hp as [Hp|Hp].
      * apply firstn_In in Hp. apply filter_In in Hp. apply Hp.
      * apply slice_last_In in Hp. apply filter_In in Hp. apply Hp.
  - assert (Hdisj : forall c c' p q,
              c <> c' -> In p (ofClass c out) -> In q (ofClass c' out) ->
              Performance.productName p <> Performance.productName q).
    { intros c c' p q Hcc Hp Hq Hname.
      apply filter_In in Hp. apply filter_In in Hq.
      destruct Hp as [Hp Hpc], Hq as [Hq Hqc].
      pose proof (distinct_names_eq out p q Hnd Hp Hq Hname) as E. subst q.
      apply Hcc. destruct (Performance.abcClass p), c, c'; simpl in *; congruence. }
    rewrite !map_app. apply NoDup_app; [|apply NoDup_app|].
    + apply (sample_part_NoDup out); [exact Hnd|]. eexists _, 30%nat. left. reflexivity.
    + apply (sample_part_NoDup out); [exact Hnd|]. eexists _, 5%nat. left. reflexivity.
    + apply (sample_part_NoDup out); [exact Hnd|]. eexists _, 5%nat. right. reflexivity.
    + intros name Hb Hc. apply in_map_iff in Hb. apply in_map_iff in Hc.
      destruct Hb as [p [Hpn Hp]], Hc as [q [Hqn Hq]].
      apply firstn_In in Hp. apply slice_last_In in Hq.
      apply (Hdisj Performance.ClassB Performance.ClassC p q); [discriminate| | |congruence];
        assumption.
    + intros name Ha Hbc. apply in_map_iff in Ha. destruct Ha as [p [Hpn Hp]].
      apply firstn_In in Hp. apply in_app_or in Hbc. destruct Hbc as [Hb|Hc].
      * apply in_map_iff in Hb. destruct Hb as [q [Hqn Hq]]. apply firstn_In in Hq.
        apply (Hdisj Performance.ClassA Performance.ClassB p q);
          [discriminate| | |congruence]; assumption.
      * apply in_map_iff in Hc. destruct Hc as [q [Hqn Hq]]. apply slice_last_In in Hq.
        apply (Hdisj Performance.ClassA Performance.ClassC p q);
          [discriminate| | |congruence]; assumption.
Qed.

(** ** The filtered view of the dashboard *)

Lemma find_by_name (rows : list Performance.ProductPerformance) (name : string)
      (p : Performance.ProductPerformance) :
  NoDup (map Performance.productName rows) ->
  In p rows -> Performance.productName p = name ->
  find (fun g => (Performance.productName g =? name)%string) rows = Some p.
Proof.
  induction rows as [|x rows IH]; simpl; intros Hnd Hp Hname; [destruct Hp|].
  inversion Hnd as [|? ? Hx Hnd']; subst.
  destruct (String.eqb_spec (Performance.productName x) (Performance.productName p))
    as [E|Hne].
  - destruct Hp as [->|Hp]; [reflexivity|].
    exfalso. apply Hx. rewrite E. apply in_map, Hp.
  - destruct Hp as [->|Hp]; [congruence|]. apply IH; auto.
Qed.

Lemma has_In (name : string) (names : list string) :
  existsb (String.eqb name) names = true <-> In name names.
Proof.
  rewrite existsb_exists. split.
  - intros [x [Hx E]]. apply String.eqb_eq in E. subst x. exact Hx.
  - intros H. exists name. split; [exact H|apply String.eqb_refl].
Qed.

(** The products of the rows are the products of the records. *)
Lemma analyzePerformance_product (data : list SalesRecord) (name : string) :
  In name (map Performance.productName (Performance.analyzePerformance data)) <->
  In name (map Product data).
Proof.
  split.
  - intros H. apply in_map_iff in H. destruct H as [p [<- Hp]].
    destruct (analyzePerformance_products data p Hp) as [r [Hr <-]]. apply in_map, Hr.
  - intros H. apply in_map_iff in H. destruct H as [r [<- Hr]].
    destruct (analyzePerformance_covers data r Hr) as [p [Hp <-]]. apply in_map, Hp.
Qed.

Lemma filterRecords_In (globalMetrics : list Performance.ProductPerformance)
      (rawRecords : list SalesRecord) (filterCategory filterBrand filterABC : string)
      (r : SalesRecord) :
  In r (Dashboard.filterRecords globalMetrics rawRecords filterCategory filterBrand filterABC)
  <->
  In r rawRecords /\
  (filterCategory = "All" \/ Category r = filterCategory) /\
  (filterBrand = "All" \/ Brand r = filterBrand) /\
  (filterABC = "All" \/
   exists p, In p globalMetrics /\ Performance.productName p = Product r /\
             Dashboard.ABCClass_value (Performance.abcClass p) = filterABC).
Proof.
  unfold Dashboard.filterRecords. cbv zeta.
  assert (Hcat : In r (if negb (filterCategory =? "All")%string
                       then filter (fun r => (Category r =? filterCategory)%string) rawRecords
                       else rawRecords) <->
                 In r rawRecords /\ (filterCategory = "All" \/ Category r = filterCategory)).
  { destruct (String.eqb_spec filterCategory "All") as [E|Hne]; simpl.
    - tauto.
    - rewrite filter_In, String.eqb_eq. tauto. }
  set (l1 := if negb (filterCategory =? "All")%string
             then filter (fun r => (Category r =? filterCategory)%string) rawRecords
             else rawRecords) in *.
  assert (Hbrand : In r (if negb (filterBrand =? "All")%string
                         then filter (fun r => (Brand r =? filterBrand)%string) l1
                         else l1) <->
                   In r l1 /\ (filterBrand = "All" \/ Brand r = filterBrand)).
  { destruct (String.eqb_spec filterBrand "All") as [E|Hne]; simpl.
    - tauto.
    - rewrite filter_In, String.eqb_eq. tauto. }
  set (l2 := if negb (filterBrand =? "All")%string
             then filter (fun r => (Brand r =? filterBrand)%string) l1
             else l1) in *.
  destruct (String.eqb_spec filterABC "All") as [E|Hne]; simpl.
  - tauto.
  - rewrite filter_In, has_In, in_map_iff.
    split.
    + intros [H2 [p [Hname Hp]]]. apply filter_In in Hp. destruct Hp as [Hp Hc].
      apply String.eqb_eq in Hc.
      split; [tauto|]. split; [tauto|]. split; [tauto|]. right. exists p. auto.
    + intros [H0 [H1 [H2 [H3|[p [Hp [Hname Hc]]]]]]]; [contradiction|].
      split; [tauto|]. exists p. split; [exact Hname|].
      apply filter_In. split; [exact Hp|]. apply String.eqb_eq, Hc.
Qed.

Lemma withGlobalClass_same (rows : list Performance.ProductPerformance)
      (p : Performance.ProductPerformance) :
  NoDup (map Performance.productName rows) -> In p rows ->
  Dashboard.withGlobalClass rows p = p.
Proof.
  intros Hnd Hp. unfold Dashboard.withGlobalClass.
  rewrite (find_by_name rows _ p Hnd Hp eq_refl). destruct p; reflexivity.
Qed.

(** X19.  The filtered view of the dashboard, when the global metrics are
    those of the raw records.  The records kept are the raw records that
    pass each active filter, the class filter being read off the global
    metric of the record's product.  Every row of the view's table shows
    the class of the global metric of its product (the local class is never
    used), which is the selected class when a class filter is active.  The
    decisions shown are those whose product has a record in the view; each
    of them finds its row in the table, so the export never writes the
    placeholder for a missing class.  With no filter active the view shows
    all records and the global table itself. *)
Theorem filteredData_view {host : Host} (rawRecords : list SalesRecord)
        (decisions : list Dashboard.ProductDecision)
        (filterCategory filterBrand filterABC : string) :
  let global := Performance.analyzePerformance rawRecords in
  let kept :=
    Dashboard.filterRecords global rawRecords filterCategory filterBrand filterABC in
  let view :=
    Dashboard.filteredData global decisions rawRecords filterCategory filterBrand filterABC in
  (forall r, In r kept <->
     In r rawRecords /\
     (filterCategory = "All" \/ Category r = filterCategory) /\
     (filterBrand = "All" \/ Brand r = filterBrand) /\
     (filterABC = "All" \/
      exists p, In p global /\ Performance.productName p = Product r /\
                Dashboard.ABCClass_value (Performance.abcClass p) = filterABC)) /\
  (forall m, In m (Dashboard.performanceMetrics view) ->
     exists g, In g global /\
               Performance.productName g = Performance.productName m /\
               Performance.abcClass m = Performance.abcClass g /\
               (filterABC <> "All" ->
                Dashboard.ABCClass_value (Performance.abcClass m) = filterABC)) /\
  (forall d, In d (Dashboard.decisions view) <->
     In d decisions /\ exists r, In r kept /\ Product r = Dashboard.productName d) /\
  (forall d, In d (Dashboard.decisions view) ->
     exists m, In m (Dashboard.performanceMetrics view) /\
               Performance.productName m = Dashboard.productName d /\
               nth 3 (Dashboard.exportRow view d) "" =
                 Dashboard.ABCClass_value (Performance.abcClass m)) /\
  (filterCategory = "All" -> filterBrand = "All" -> filterABC = "All" ->
   kept = rawRecords /\ Dashboard.performanceMetrics view = global).
Proof.
  cbv zeta.
  set (global := Performance.analyzePerformance rawRecords).
  set (kept := Dashboard.filterRecords global rawRecords filterCategory filterBrand filterABC).
  pose proof (analyzePerformance_NoDup rawRecords) as Hnd. fold global in Hnd.
  assert (Hkept : forall r, In r kept <->
            In r rawRecords /\
            (filterCategory = "All" \/ Category r = filterCategory) /\
            (filterBrand = "All" \/ Brand r = filterBrand) /\
            (filterABC = "All" \/
             exists p, In p global /\ Performance.productName p = Product r /\
                       Dashboard.ABCClass_value (Performance.abcClass p) = filterABC)).
  { intros r. apply filterRecords_In. }
  assert (Hnames : map Performance.productName
                       (map (Dashboard.withGlobalClass global)
                            (Performance.analyzePerformance kept))
                   = map Performance.productName (Performance.analyzePerformance kept)).
  { rewrite map_map. reflexivity. }
  assert (Hvisible : forall name,
            In name (map Performance.productName
                         (map (Dashboard.withGlobalClass global)
                              (Performance.analyzePerformance kept))) <->
            exists r, In r kept /\ Product r = name).
  { intros name. rewrite Hnames, analyzePerformance_product, in_map_iff.
    split; intros [r [H1 H2]]; exists r; auto. }
  assert (Hmetric : forall m,
            In m (map (Dashboard.withGlobalClass global)
                      (Performance.analyzePerformance kept)) ->
            exists g, In g global /\
                      Performance.productName g = Performance.productName m /\
                      Performance.abcClass m = Performance.abcClass g /\
                      (filterABC <> "All" ->
                       Dashboard.ABCClass_value (Performance.abcClass m) = filterABC)).
  { intros m Hm. apply in_map_iff in Hm. destruct Hm as [local [<- Hlocal]].
    destruct (analyzePerformance_products kept local Hlocal) as [r [Hr Hname]].
    pose proof (proj1 (Hkept r) Hr) as [Hraw [_ [_ Habc]]].
    destruct (analyzePerformance_covers rawRecords r Hraw) as [g [Hg Hgname]].
    fold global in Hg.
    assert (Hfind : find (fun g' => (Performance.productName g'
                                     =? Performance.productName local)%string) global
                    = Some g).
    { apply find_by_name; [exact Hnd|exact Hg|congruence]. }
    exists g. unfold Dashboard.withGlobalClass. rewrite Hfind. simpl.
    split; [exact Hg|]. split; [congruence|]. split; [reflexivity|].
    intros Hne. destruct Habc as [E|[p [Hp [Hpname Hpc]]]]; [contradiction|].
    rewrite (distinct_names_eq global g p Hnd Hg Hp); [exact Hpc|congruence]. }
  split; [exact Hkept|]. split; [exact Hmetric|]. split; [|split].
  - intros d. unfold Dashboard.filteredData. cbn [Dashboard.decisions].
    rewrite filter_In, has_In. fold kept. rewrite Hvisible. reflexivity.
  - intros d Hd. unfold Dashboard.filteredData in Hd. cbn [Dashboard.decisions] in Hd.
    apply filter_In in Hd. destruct Hd as [_ Hd]. apply has_In in Hd. fold kept in Hd.
    apply in_map_iff in Hd. destruct Hd as [m [Hname Hm]].
    exists m. unfold Dashboard.filteredData. cbn [Dashboard.performanceMetrics].
    fold kept. split; [exact Hm|]. split; [exact Hname|].
    unfold Dashboard.exportRow. cbn [Dashboard.performanceMetrics nth].
    rewrite (find_by_name _ _ m); [reflexivity| |exact Hm|exact Hname].
    rewrite Hnames. apply analyzePerformance_NoDup.
  - intros -> -> ->. split; [reflexivity|].
    unfold Dashboard.filteredData. cbn [Dashboard.performanceMetrics].
    change (Dashboard.filterRecords global rawRecords "All" "All" "All") with rawRecords.
    fold global. rewrite <- (map_id global) at 3.
    apply map_ext_in. intros p Hp. apply withGlobalClass_same; assumption.
Qed.

(** ** The CSV export *)

Lemma append_one (cur : string) (c : ascii) (rest : string) :
  ((cur ++ String c "") ++ rest = cur ++ String c rest)%string.
Proof. rewrite append_assoc. reflexivity. Qed.

Lemma append_empty (s : string) : (s ++ "" = s)%string.
Proof. induction s as [|c s IH]; simpl; [reflexivity|]. rewrite IH. reflexivity. Qed.

Section CsvFacts.
Context {host : Host}.

(** Reading the text of a quoted cell up to its closing quote gives the
    cell back. *)
Lemma read_quoted (cell : string) : forall cur fields records rest,
  readCsv Quoted cur fields records
          (Dashboard.doubleQuotes cell ++ String Dashboard.dquote rest) =
  readCsv Closed (cur ++ cell) fields records rest.
Proof.
  induction cell as [|c cell IH]; intros cur fields records rest.
  - simpl. rewrite append_empty. reflexivity.
  - cbn [Dashboard.doubleQuotes]. destruct (Ascii.eqb c Dashboard.dquote) eqn:E.
    + apply Ascii.eqb_eq in E. subst c.
      cbn [append readCsv]. rewrite Ascii.eqb_refl. rewrite IH, append_one. reflexivity.
    + cbn [append readCsv]. rewrite E, IH, append_one. reflexivity.
Qed.

Lemma read_cell (cell : string) (fields : list string) (records : list (list string))
      (rest : string) :
  readCsv Expect "" fields records (Dashboard.csvCell cell ++ rest) =
  readCsv Closed cell fields records rest.
Proof.
  unfold Dashboard.csvCell. cbn [append readCsv]. rewrite Ascii.eqb_refl.
  rewrite append_assoc. cbn [append]. apply read_quoted.
Qed.

(** Reading a line of quoted cells leaves the reader after the closing
    quote of its last cell. *)
Lemma read_line (row : list string) : forall cell fields records rest,
  readCsv Expect "" fields records (Dashboard.csvLine (cell :: row) ++ rest) =
  readCsv Closed (last (cell :: row) "") (fields ++ removelast (cell :: row)) records rest.
Proof.
  unfold Dashboard.csvLine.
  induction row as [|cell' row IH]; intros cell fields records rest.
  - simpl map. simpl String.concat. rewrite read_cell, app_nil_r. reflexivity.
  - change (String.concat "," (map Dashboard.csvCell (cell :: cell' :: row)))
      with (Dashboard.csvCell cell ++ ","
            ++ String.concat "," (map Dashboard.csvCell (cell' :: row)))%string.
    rewrite append_assoc, read_cell. cbn [append readCsv].
    change (Ascii.eqb "," Dashboard.dquote) with false.
    change (Ascii.eqb "," comma) with true. cbv iota.
    rewrite ?append_assoc. cbn [append]. rewrite IH.
    change (last (cell :: cell' :: row) "") with (last (cell' :: row) "").
    change (removelast (cell :: cell' :: row)) with (cell :: removelast (cell' :: row)).
    rewrite <- app_assoc. reflexivity.
Qed.

Lemma read_bare (text : string) : forall cur fields records rest,
  bareText text = true ->
  readCsv Bare cur fields records (text ++ rest) =
  readCsv Bare (cur ++ text) fields records rest.
Proof.
  induction text as [|c text IH]; intros cur fields records rest Hb.
  - simpl. rewrite append_empty. reflexivity.
  - cbn [bareText] in Hb. apply andb_true_iff in Hb. destruct Hb as [Hb Ht].
    apply andb_true_iff in Hb. destruct Hb as [Hb Hl].
    apply andb_true_iff in Hb. destruct Hb as [Hq Hc].
    apply negb_true_iff in Hq, Hc, Hl.
    cbn [append readCsv]. rewrite Hq, Hc, Hl, (IH _ _ _ _ Ht), append_one. reflexivity.
Qed.

Lemma read_bare_field (text : string) (fields : list string)
      (records : list (list string)) (rest : string) :
  bareText text = true -> text <> "" ->
  readCsv Expect "" fields records (text ++ rest) = readCsv Bare text fields records rest.
Proof.
  destruct text as [|c text]; [congruence|]. intros Hb _.
  cbn [bareText] in Hb. apply andb_true_iff in Hb. destruct Hb as [Hb Ht].
  apply andb_true_iff in Hb. destruct Hb as [Hb Hl].
  apply andb_true_iff in Hb. destruct Hb as [Hq Hc].
  apply negb_true_iff in Hq, Hc, Hl.
  cbn [append readCsv]. rewrite Hq, Hc, Hl.
  exact (read_bare text (String c "") fields records rest Ht).
Qed.

Lemma read_header (headers : list string) : forall h fields records rest,
  Forall (fun h => bareText h = true /\ h <> "") (h :: headers) ->
  readCsv Expect "" fields records (String.concat "," (h :: headers) ++ rest) =
  readCsv Bare (last (h :: headers) "") (fields ++ removelast (h :: headers)) records rest.
Proof.
  induction headers as [|h' headers IH]; intros h fields records rest Hall.
  - inversion Hall as [|? ? [Hb Hne] _]; subst.
    simpl String.concat. rewrite (read_bare_field h _ _ _ Hb Hne), app_nil_r. reflexivity.
  - inversion Hall as [|? ? [Hb Hne] Hall']; subst.
    change (String.concat "," (h :: h' :: headers))
      with (h ++ "," ++ String.concat "," (h' :: headers))%string.
    rewrite append_assoc, (read_bare_field h _ _ _ Hb Hne). cbn [append readCsv].
    change (Ascii.eqb "," Dashboard.dquote) with false.
    change (Ascii.eqb "," comma) with true. cbv iota.
    rewrite ?append_assoc. cbn [append]. rewrite (IH _ _ _ _ Hall').
    change (last (h :: h' :: headers) "") with (last (h' :: headers) "").
    change (removelast (h :: h' :: headers)) with (h :: removelast (h' :: headers)).
    rewrite <- app_assoc. reflexivity.
Qed.

(** The lines that follow a line, each after a line feed. *)
Lemma read_rows (rows : list (list string)) : forall st cur fields records,
  st = Bare \/ st = Closed ->
  Forall (fun row => row <> []) rows ->
  readCsv st cur fields records
          (String.concat "" (map (fun row => Dashboard.newline ++ Dashboard.csvLine row)%string
                                 rows)) =
  Some (records ++ [fields ++ [cur]] ++ rows).
Proof.
  induction rows as [|row rows IH]; intros st cur fields records Hst Hall.
  - simpl. destruct Hst as [-> | ->]; reflexivity.
  - inversion Hall as [|? ? Hrow Hall']; subst.
    destruct row as [|cell row]; [congruence|].
    assert (Hstep : forall rest,
              readCsv st cur fields records
                      ((Dashboard.newline ++ Dashboard.csvLine (cell :: row)) ++ rest) =
              readCsv Closed (last (cell :: row) "") (removelast (cell :: row))
                      (records ++ [fields ++ [cur]]) rest).
    { intros rest. unfold Dashboard.newline. cbn [append readCsv].
      change (Ascii.eqb (ascii_of_nat 10) Dashboard.dquote) with false.
      change (Ascii.eqb (ascii_of_nat 10) comma) with false.
      change (Ascii.eqb (ascii_of_nat 10) linefeed) with true.
      destruct Hst as [-> | ->]; cbv iota; apply (read_line row cell []). }
    assert (Hrow' : removelast (cell :: row) ++ [last (cell :: row) ""] = cell :: row).
    { symmetry. apply app_removelast_last. discriminate. }
    destruct rows as [|row' rows].
    + cbn [map String.concat].
      rewrite <- (append_empty (Dashboard.newline ++ Dashboard.csvLine (cell :: row))).
      rewrite Hstep. cbn [readCsv]. rewrite Hrow', <- app_assoc. reflexivity.
    + change (String.concat "" (map (fun row => Dashboard.newline ++ Dashboard.csvLine row)
                                    ((cell :: row) :: row' :: rows))%string)
        with ((Dashboard.newline ++ Dashboard.csvLine (cell :: row))
              ++ String.concat ""
                   (map (fun row => Dashboard.newline ++ Dashboard.csvLine row)
                        (row' :: rows)))%string.
      rewrite Hstep, IH; [|right; reflexivity|exact Hall'].
      rewrite Hrow', <- !app_assoc. reflexivity.
Qed.

Lemma concat_lines (line : string) (lines : list string) :
  String.concat Dashboard.newline (line :: lines) =
  (line ++ String.concat "" (map (fun l => Dashboard.newline ++ l) lines))%string.
Proof.
  revert line. induction lines as [|l lines IH]; intros line.
  - simpl. rewrite append_empty. reflexivity.
  - change (String.concat Dashboard.newline (line :: l :: lines))
      with (line ++ Dashboard.newline ++ String.concat Dashboard.newline (l :: lines))%string.
    rewrite IH. destruct lines as [|l' lines].
    + simpl. rewrite !append_empty. reflexivity.
    + change (String.concat "" (map (fun l => Dashboard.newline ++ l) (l :: l' :: lines)))%string
        with ((Dashboard.newline ++ l)
              ++ String.concat "" (map (fun l => Dashboard.newline ++ l) (l' :: lines)))%string.
      rewrite append_assoc. reflexivity.
Qed.

Lemma read_content (headers : list string) (rows : list (list string)) :
  headers <> [] ->
  Forall (fun h => bareText h = true /\ h <> "") headers ->
  Forall (fun row => row <> []) rows ->
  readCsv Expect "" [] [] (Dashboard.csvContent headers rows) = Some (headers :: rows).
Proof.
  intros Hne Hh Hrows. unfold Dashboard.csvContent.
  destruct headers as [|h headers]; [congruence|].
  rewrite concat_lines, map_map.
  rewrite (read_header headers h [] [] _ Hh).
  rewrite (read_rows rows Bare _ _ [] (or_introl eq_refl) Hrows).
  cbn [app]. rewrite <- app_removelast_last by discriminate. reflexivity.
Qed.

End CsvFacts.

(** X20.  The CSV text of the export reads back, field by field, to the
    header row followed by the rows of the decisions shown, whatever
    characters (double quotes, commas, line feeds) their cells contain. *)
Theorem exportContent_reads_back {host : Host} (view : Dashboard.FilteredData) :
  readCsv Expect "" [] [] (Dashboard.exportContent view) =
  Some (["決策標籤"; "商品名稱"; "類別"; "ABC分級"; "生命週期"; "分析理由"; "行動建議";
         "總銷量"; "平均單價"]
        :: map (Dashboard.exportRow view) (Dashboard.decisions view)).
Proof.
  unfold Dashboard.exportContent. apply read_content.
  - discriminate.
  - repeat constructor; discriminate.
  - apply Forall_forall. intros row Hrow. apply in_map_iff in Hrow.
    destruct Hrow as [d [<- _]]. discriminate.
Qed.

(** ** Month keys *)

Lemma digit_unit_cost (c : ascii) : is_digit c = true -> unit_cost c = 1%nat.
Proof.
  unfold is_digit, unit_cost. cbv zeta. intros H.
  apply andb_true_iff in H. destruct H as [_ H]. apply Nat.leb_le in H.
  destruct (Nat.ltb_spec (nat_of_ascii c) 128) as [_|Hge]; [reflexivity|lia].
Qed.

Lemma js_take_unit (n : nat) (c : ascii) (s : string) :
  unit_cost c = 1%nat -> js_take (S n) true (String c s) = String c (js_take n true s).
Proof.
  intros H. cbn [js_take]. rewrite H. cbn [Nat.leb].
  replace (S n - 1)%nat with n by lia. reflexivity.
Qed.

(** X21.  The month key of a record: the [YYYY-MM] prefix of a date of the
    shape [YYYY-MM-DD]; the marker ["Unknown"] itself for an undated
    record; and the whole date string when it is shorter than seven code
    units. *)
Theorem monthOf_shape (r : SalesRecord) :
  (isYMD (Date r) = true ->
   Seasonality.monthOf r = substring 0 7 (Date r) /\ isYM (Seasonality.monthOf r) = true) /\
  (Date r = "Unknown" -> Seasonality.monthOf r = "Unknown") /\
  ((js_length (Date r) < 7)%nat -> Seasonality.monthOf r = Date r).
Proof.
  unfold Seasonality.monthOf. split; [|split].
  - destruct (Date r) as [|a s]; [discriminate|]. intros H.
    cbn -[is_digit] in H.
    repeat match type of H with
           | context [match ?x with _ => _ end] =>
               is_var x; destruct x; cbn -[is_digit] in H; try discriminate H
           end.
    rewrite !andb_true_iff in H.
    destruct H as [[[[[[[Ha Hb] Hc] Hd] He] Hf] Hg] Hh].
    assert (Hdash : unit_cost "-" = 1%nat) by reflexivity.
    cbn [js_length].
    rewrite !(digit_unit_cost _ Ha), !(digit_unit_cost _ Hb), !(digit_unit_cost _ Hc),
      !(digit_unit_cost _ Hd), !(digit_unit_cost _ He), !(digit_unit_cost _ Hf),
      !(digit_unit_cost _ Hg), !(digit_unit_cost _ Hh), !Hdash.
    cbn [Nat.add Nat.leb]. unfold js_substring0.
    rewrite (js_take_unit _ _ _ (digit_unit_cost _ Ha)),
      (js_take_unit _ _ _ (digit_unit_cost _ Hb)),
      (js_take_unit _ _ _ (digit_unit_cost _ Hc)),
      (js_take_unit _ _ _ (digit_unit_cost _ Hd)),
      (js_take_unit _ _ _ Hdash),
      (js_take_unit _ _ _ (digit_unit_cost _ He)),
      (js_take_unit _ _ _ (digit_unit_cost _ Hf)).
    cbn [js_take]. rewrite Hdash. cbn [Nat.leb].
    split; [reflexivity|].
    cbn -[is_digit]. rewrite Ha, Hb, Hc, Hd, He, Hf. reflexivity.
  - intros ->. reflexivity.
  - intros H. destruct (Nat.leb_spec 7 (js_length (Date r))); [lia|reflexivity].
Qed.

(** ** Forecast over the seasonality of a record set *)

Lemma group_distinct_keys {R V : Type} (key : R -> string) (init : R -> V)
      (upd : R -> V -> V) (data : list R) :
  List.length (group key init upd [] data) = List.length (nodup string_dec (map key data)).
Proof.
  rewrite <- (length_map fst). apply Permutation_length, NoDup_Permutation.
  - apply group_NoDup. constructor.
  - apply NoDup_nodup.
  - intros k. rewrite group_keys_In, nodup_In. simpl. tauto.
Qed.

(** X22.  In [App.tsx] the forecast is computed from the seasonality of
    the records: the seasonality has one row per distinct month key, so the
    confidence of the forecast is HIGH with six or more distinct months in
    the data, MEDIUM with three to five, and LOW with fewer. *)
Theorem forecast_of_seasonality {host : Host} (data : list SalesRecord) :
  let months := List.length (nodup string_dec (map Seasonality.monthOf data)) in
  let seasonality := Seasonality.analyzeSeasonality data in
  List.length seasonality = months /\
  ((6 <= months)%nat ->
     Forecast.confidence (Forecast.forecastNextMonth seasonality) = Forecast.HIGH) /\
  ((3 <= months < 6)%nat ->
     Forecast.confidence (Forecast.forecastNextMonth seasonality) = Forecast.MEDIUM) /\
  ((months < 3)%nat ->
     Forecast.confidence (Forecast.forecastNextMonth seasonality) = Forecast.LOW).
Proof.
  cbv zeta.
  assert (Hlen : List.length (Seasonality.analyzeSeasonality data)
                 = List.length (nodup string_dec (map Seasonality.monthOf data))).
  { unfold Seasonality.analyzeSeasonality. rewrite Array_sort_length, length_map.
    apply (group_distinct_keys Seasonality.monthOf). }
  split; [exact Hlen|].
  rewrite forecast_confidence_rule, Hlen.
  set (n := List.length (nodup string_dec (map Seasonality.monthOf data))).
  destruct (Nat.eqb_spec n 0); destruct (Nat.leb_spec 6 n); destruct (Nat.ltb_spec n 3);
    repeat split; intros; try reflexivity; lia.
Qed.

(** ** The pivot of the trend chart *)

Lemma Object_get_set (row : Row) (k k' : string) (v : value) :
  Object_get (Map_set row k v) k' = if (k =? k')%string then v else Object_get row k'.
Proof.
  induction row as [|[k0 v0] row IH]; simpl.
  - reflexivity.
  - destruct (String.eqb_spec k0 k) as [->|Hne]; simpl.
    + destruct (String.eqb_spec k k'); reflexivity.
    + rewrite IH. destruct (String.eqb_spec k0 k') as [->|Hne'].
      * destruct (String.eqb_spec k k'); [congruence|reflexivity].
      * reflexivity.
Qed.

Lemma entryOf_get (data : list TrendChart.ChartDataPoint) (month : string)
      (categories : list string) : forall entry key,
  Object_get
    (fold_left
       (fun entry cat =>
          Map_set entry cat
                  (VNumber (Fin (match find (fun d => (TrendChart.month d =? month)%string
                                                      && (TrendChart.category d =? cat)%string)
                                            data with
                                 | Some p => TrendChart.sales p
                                 | None => 0
                                 end))))
       categories entry) key =
  if existsb (String.eqb key) categories
  then VNumber (Fin (shownSales data month key))
  else Object_get entry key.
Proof.
  induction categories as [|cat categories IH]; intros entry key; simpl.
  - reflexivity.
  - rewrite IH, Object_get_set. rewrite (String.eqb_sym key cat).
    destruct (existsb (String.eqb key) categories); [rewrite orb_true_r; reflexivity|].
    rewrite orb_false_r.
    destruct (String.eqb_spec cat key) as [->|Hne]; reflexivity.
Qed.

(** X23.  The pivot of the trend chart has one row per distinct month of
    the points.  When no category is named ["month"], every month has a row
    that carries the month under the key ["month"] and, for every category
    of the data, the sales of the first point of that month and category,
    or 0 when there is none.  When some category is named ["month"], the
    key ["month"] of every row holds a number instead of the month. *)
Theorem chartData_pivot (data : list TrendChart.ChartDataPoint) :
  let rows := TrendChart.chartData data in
  List.length rows = List.length (nodup string_dec (map TrendChart.month data)) /\
  (~ In "month" (map TrendChart.category data) ->
   forall d, In d data ->
     exists row, In row rows /\
       Object_get row "month" = VString (TrendChart.month d) /\
       forall d', In d' data ->
         Object_get row (TrendChart.category d') =
         VNumber (Fin (shownSales data (TrendChart.month d) (TrendChart.category d')))) /\
  (In "month" (map TrendChart.category data) ->
   forall row, In row rows -> exists q, Object_get row "month" = VNumber (Fin q)).
Proof.
  cbv zeta. unfold TrendChart.chartData.
  set (categories := Set_of [] (map TrendChart.category data)).
  assert (Hcat : forall k, existsb (String.eqb k) categories = true <->
                           In k (map TrendChart.category data)).
  { intros k. rewrite has_In. unfold categories. rewrite Set_of_In. simpl. tauto. }
  split; [|split].
  - rewrite length_map, Array_sort_length. apply Permutation_length, NoDup_Permutation.
    + apply Set_of_NoDup.
    + apply NoDup_nodup.
    + intros k. rewrite Set_of_In, nodup_In. simpl. tauto.
  - intros Hno d Hd.
    exists (TrendChart.entryOf data categories (TrendChart.month d)). split; [|split].
    + apply in_map, Array_sort_In, Set_of_In. split; [|intros []]. apply in_map, Hd.
    + unfold TrendChart.entryOf. rewrite entryOf_get.
      destruct (existsb (String.eqb "month") categories) eqn:E; [|reflexivity].
      apply Hcat in E. contradiction.
    + intros d' Hd'. unfold TrendChart.entryOf. rewrite entryOf_get.
      replace (existsb (String.eqb (TrendChart.category d')) categories) with true;
        [reflexivity|].
      symmetry. apply Hcat, in_map, Hd'.
  - intros Hyes row Hrow. apply in_map_iff in Hrow. destruct Hrow as [m [<- _]].
    unfold TrendChart.entryOf. rewrite entryOf_get.
    replace (existsb (String.eqb "month") categories) with true
      by (symmetry; apply Hcat, Hyes).
    eexists. reflexivity.
Qed.

(** ** The earlier dashboard *)

(** The rows of [analyzePerformance] are no more than the records. *)
Lemma analyzePerformance_length (data : list SalesRecord) :
  (List.length (Performance.analyzePerformance data) <= List.length data)%nat.
Proof.
  rewrite <- (length_map Performance.productName).
  rewrite (Permutation_length (analyzePerformance_names data)), length_map.
  rewrite group_distinct_keys, <- (length_map Product data).
  apply NoDup_incl_length; [apply NoDup_nodup|].
  intros k Hk. apply nodup_In in Hk. exact Hk.
Qed.

(** With a positive total amount, no negative amount and fewer than
    [2^32] records (the bound on the length of an array), the last row has
    a cumulative share above 95: class C. *)
Lemma analyzePerformance_last_class (data : list SalesRecord) :
  0 < sumQ (map Amount data) ->
  Forall (fun r => 0 <= Amount r) data ->
  (Z.of_nat (List.length data) < 2 ^ 32)%Z ->
  exists front lastItem,
    Performance.analyzePerformance data = front ++ [lastItem] /\
    Performance.abcClass lastItem = Performance.ClassC.
Proof.
  intros Hpos Hnonneg Hlen.
  assert (Hrows : Forall (fun p => 0 <= Performance.totalAmount p)
                         (Performance.analyzePerformance data)).
  { apply Forall_forall. intros p Hp.
    destruct (analyzePerformance_row data p Hp) as [e [c [He ->]]].
    destruct (Performance_group_entry data _ e He) as [_ Hsum].
    cbn [Performance.setClass Performance.metrics Performance.totalAmount] in *.
    rewrite Hsum. apply sumQ_nonneg, Forall_forall. intros a Ha.
    apply in_map_iff in Ha. destruct Ha as [r [<- Hr]].
    apply filter_In in Hr. rewrite Forall_forall in Hnonneg. apply Hnonneg, Hr. }
  destruct (analyzePerformance_last_share data Hpos Hrows) as [front [lastItem [Hout [Hlow _]]]].
  exists front, lastItem. split; [exact Hout|].
  assert (Hclass : Performance.abcClass lastItem
                   = Performance.classOf (Performance.cumulativeShare lastItem)).
  { unfold Performance.analyzePerformance in Hout. rewrite Performance_fold in Hout.
    match type of Hout with
    | Performance.assignABC ?c ?l = _ => pose proof (assignABC_class l c) as HF
    end.
    rewrite Hout in HF. rewrite Forall_forall in HF. apply HF.
    apply in_or_app. right. left. reflexivity. }
  rewrite Hclass. apply classOf_spec.
  pose proof (analyzePerformance_length data) as Hle.
  set (m := (Z.of_nat (List.length (Performance.analyzePerformance data)) + 2)%Z) in *.
  assert (Hm : (0 <= m <= 2 ^ 32 + 1)%Z) by (unfold m; lia).
  pose proof (shrink_bernoulli m (proj1 Hm)) as B.
  assert (Hq : inject_Z m <= inject_Z (2 ^ 32 + 1)) by (rewrite <- Zle_Qle; lia).
  change (inject_Z (2 ^ 32 + 1)) with 4294967297 in Hq.
  unfold roundoff in *. nra.
Qed.

(** X24.  The earlier dashboard recomputes the classes of its table from
    the records its filters keep.  So whenever the kept records have a
    positive total amount (no record having a negative amount, the
    records being fewer than [2^32]), the last row of the table is
    labelled class C, whatever class filter is active, although the global
    metric of its product has the selected class. *)
Theorem legacy_view_relabels {host : Host} (rawRecords : list SalesRecord)
        (decisions : list Dashboard.ProductDecision)
        (filterCategory filterBrand filterABC : string) :
  let global := Performance.analyzePerformance rawRecords in
  let kept :=
    Dashboard.filterRecords global rawRecords filterCategory filterBrand filterABC in
  let view :=
    LegacyDashboard.filteredData global decisions rawRecords
                                 filterCategory filterBrand filterABC in
  0 < sumQ (map Amount kept) ->
  Forall (fun r => 0 <= Amount r) rawRecords ->
  (Z.of_nat (List.length rawRecords) < 2 ^ 32)%Z ->
  exists front row,
    Dashboard.performanceMetrics view = front ++ [row] /\
    Performance.abcClass row = Performance.ClassC /\
    exists g, In g global /\
              Performance.productName g = Performance.productName row /\
              (filterABC <> "All" ->
               Dashboard.ABCClass_value (Performance.abcClass g) = filterABC).
Proof.
  cbv zeta. intros Hpos Hnonneg Hlen.
  set (global := Performance.analyzePerformance rawRecords) in *.
  set (kept := Dashboard.filterRecords global rawRecords filterCategory filterBrand filterABC)
    in *.
  assert (Hkept : Forall (fun r => 0 <= Amount r) kept).
  { apply Forall_forall. intros r Hr. apply filterRecords_In in Hr.
    rewrite Forall_forall in Hnonneg. apply Hnonneg, Hr. }
  assert (Hshort : (Z.of_nat (List.length kept) < 2 ^ 32)%Z).
  { assert (L : (List.length kept <= List.length rawRecords)%nat).
    { unfold kept, Dashboard.filterRecords.
      repeat match goal with
             | |- context [if ?c then _ else _] => destruct c
             end;
        repeat (etransitivity; [apply filter_length_le|]); reflexivity. }
    lia. }
  destruct (analyzePerformance_last_class kept Hpos Hkept Hshort)
    as [front [row [Hout Hclass]]].
  exists front, row. unfold LegacyDashboard.filteredData.
  cbn [Dashboard.performanceMetrics]. fold kept.
  split; [exact Hout|]. split; [exact Hclass|].
  assert (Hrow : In row (Performance.analyzePerformance kept)).
  { rewrite Hout. apply in_or_app. right. left. reflexivity. }
  destruct (analyzePerformance_products kept row Hrow) as [r [Hr Hname]].
  apply filterRecords_In in Hr. destruct Hr as [Hraw [_ [_ Habc]]].
  destruct (analyzePerformance_covers rawRecords r Hraw) as [g [Hg Hgname]].
  fold global in Hg.
  exists g. split; [exact Hg|]. split; [congruence|].
  intros Hne. destruct Habc as [E|[p [Hp [Hpname Hpc]]]]; [contradiction|].
  pose proof (analyzePerformance_NoDup rawRecords) as Hnd. fold global in Hnd.
  rewrite (distinct_names_eq global g p Hnd Hg Hp); [exact Hpc|congruence].
Qed.

(** ** The normalisers on rows with distinct keys *)

Section DistinctRows.
Context {host : Host}.

Lemma mapRows_distinct (rawData : list Row) : forall rows seen,
  mapM normalizeRow rawData = Ok rows ->
  NoDup (map keyOf rows) ->
  (forall r, In r rows -> ~ In (keyOf r) seen) ->
  Part002.mapRows seen rawData = Ok (map (fun r => Some (unflagged r)) rows).
Proof.
  induction rawData as [|row rawData IH]; intros rows seen; simpl.
  - intros [= <-] _ _. reflexivity.
  - unfold normalizeRow at 1. unfold Part002.normalizeRow at 1.
    destruct (normalizeDate (getVal row datePatterns)) as [dateStr|e]; simpl; [|discriminate].
    destruct (mapM normalizeRow rawData) as [rest|] eqn:E; simpl; [|discriminate].
    intros [= <-] Hnd Hseen.
    inversion Hnd as [|? ? Hk Hnd']; subst.
    match goal with
    | |- context [existsb (String.eqb ?key) seen] =>
        destruct (existsb (String.eqb key) seen) eqn:Ex
    end.
    + exfalso. apply existsb_eqb_In in Ex. revert Ex.
      apply (Hseen _ (or_introl eq_refl)).
    + simpl. rewrite (IH rest _ eq_refl Hnd').
      * reflexivity.
      * intros r Hr [Hin|Hin].
        -- apply Hk. pose proof (in_map keyOf _ _ Hr) as Hm.
           rewrite <- Hin in Hm. exact Hm.
        -- apply (Hseen r (or_intror Hr)), Hin.
Qed.

Lemma somes_unflagged (rows : list SalesRecord) :
  Part002.somes (filter Part002.keep (map (fun r => Some (unflagged r)) rows)) =
  map unflagged (filter positiveSale rows).
Proof.
  induction rows as [|r rows IH]; simpl.
  - reflexivity.
  - change (positiveSale (unflagged r)) with (positiveSale r).
    destruct (positiveSale r); simpl; rewrite IH; reflexivity.
Qed.

End DistinctRows.

(** X25.  When the rows of a batch normalise to records with pairwise
    distinct keys, the deduplicating normaliser drops nothing: it returns
    the records the plain normaliser returns, without the gift flag. *)
Theorem normalizeData_distinct_rows {host : Host} (rawData : list Row)
        (rows : list SalesRecord) :
  mapM normalizeRow rawData = Ok rows ->
  NoDup (map keyOf rows) ->
  normalizeData rawData = Ok (filter positiveSale rows) /\
  Part002.normalizeData rawData = Ok (map unflagged (filter positiveSale rows)).
Proof.
  intros Hrows Hnd. unfold normalizeData, Part002.normalizeData.
  rewrite Hrows, (mapRows_distinct rawData rows [] Hrows Hnd) by (intros r _ []).
  simpl. rewrite somes_unflagged. split; reflexivity.
Qed.

(** * The further properties on the sample inputs *)

Lemma normalizeData_flags_witness :
  exists out,
    @normalizeData Ref.host Sample.rawBatch = Ok out /\
    (List.length out <= List.length Sample.rawBatch)%nat /\
    Forall (fun r => Brand r = @detectBrand Ref.host (Product r)) out.
Proof.
  destruct (@normalizeData Ref.host Sample.rawBatch) as [out|e] eqn:E;
    [|vm_compute in E; discriminate E].
  exists out. split; [reflexivity|].
  destruct (normalizeData_flags (host:=Ref.host) Sample.rawBatch out E) as [Hlen Hall].
  split; [exact Hlen|].
  eapply Forall_impl; [|exact Hall]. intros r [H _]. exact H.
Defined.

Lemma normalizeData_dedup_subset_witness :
  @Part002.normalizeData Ref.host Sample.repeated = Ok [Sample.saleRecord] /\
  exists out, @normalizeData Ref.host Sample.repeated = Ok out /\
              (1 <= List.length out)%nat.
Proof.
  assert (E : @Part002.normalizeData Ref.host Sample.repeated = Ok [Sample.saleRecord])
    by (vm_compute; reflexivity).
  split; [exact E|].
  destruct (normalizeData_dedup_subset (host:=Ref.host) Sample.repeated [Sample.saleRecord] E)
    as [out [Hout [Hlen _]]].
  exists out. split; [exact Hout|exact Hlen].
Defined.

(** The plain normaliser keeps the three rows of which the deduplicating
    one keeps the first. *)
Example normalizeData_repeated_example :
  match @normalizeData Ref.host Sample.repeated with
  | Ok out => map unflagged out
  | Throw _ => []
  end = [Sample.saleRecord; Sample.saleRecord; Sample.saleRecord].
Proof. vm_compute. reflexivity. Qed.

Lemma detectSlowMoving_threshold_witness :
  30 <= 60 /\
  forall a,
    In a (@SlowMoving.detectSlowMoving Ref.host Sample.stale (Fin 60)) <->
    In a (@SlowMoving.detectSlowMoving Ref.host Sample.stale (Fin 30)) /\
    number_geb (SlowMoving.daysSinceLastSale a) (Fin 60) = true.
Proof.
  assert (H : 30 <= 60) by (unfold Qle; simpl; lia).
  split; [exact H|].
  exact (proj1 (detectSlowMoving_threshold (host:=Ref.host) Sample.stale 30 60 H)).
Defined.

(** The daily trend of the sample sales: four days, one order each. *)
Example analyzeDailyTrend_example :
  map (fun d => (DailyTrend.date d, DailyTrend.revenue d, DailyTrend.orders d))
      (@DailyTrend.analyzeDailyTrend Ref.host Sample.sales)
  = [("2024-01-05", 40000, 1); ("2024-01-06", 20000, 1);
     ("2024-02-10", 30000, 1); ("2024-02-11", 10000, 1)].
Proof. vm_compute. reflexivity. Qed.

(** A product without cost data is listed at a margin of 100 percent next
    to a product with cost data. *)
Example analyzeProfitMargin_uncosted_example :
  map (fun p => (Profit.productName p, Profit.totalCost p, Qred (Profit.marginPercent p)))
      (Profit.analyzeProfitMargin Cases.costMix)
  = [("Dyson V8", 0, literal 100); ("Sony TV", 20000, literal (333 # 10))].
Proof. vm_compute. reflexivity. Qed.

(** March 2024 against March 2023 and against February 2024: both +10%. *)
Example calculateYoYComparison_example :
  map (fun c => (YoY.month c, YoY.previousRevenue c,
                 option_map Qred (YoY.momGrowth c), option_map Qred (YoY.yoyGrowth c)))
      (@YoY.calculateYoYComparison Ref.host Ref.parse_number Cases.yearApart)
  = [("2023-03", None, None, None);
     ("2024-02", Some 1000, Some (literal 0), None);
     ("2024-03", Some 1000, Some (literal 10), Some (literal 10))].
Proof. vm_compute. reflexivity. Qed.

(** A quarter rising by 10 percent in its last month. *)
Example forecastNextMonth_rising_example :
  let f := Forecast.forecastNextMonth Cases.rising in
  (Forecast.nextMonthRevenue f, Forecast.trend f, Qred (Forecast.trendPercent f))
  = (1000, Forecast.UP, literal 10).
Proof. vm_compute. reflexivity. Qed.

(** Revenues of 80 and then 31: the change -61.25 is computed as
    -61.25000000000001 and reported as -61.3. *)
Example forecastNextMonth_falling_example :
  let f := Forecast.forecastNextMonth Cases.falling in
  (Forecast.trend f, Qred (Forecast.trendPercent f))
  = (Forecast.DOWN, literal (- (613 # 10))).
Proof. vm_compute. reflexivity. Qed.

(** Revenues of 80 and then 403: the growth 403.75 is reported as
    403.7. *)
Example calculateYoYComparison_soaring_example :
  map (fun c => (YoY.month c, option_map Qred (YoY.momGrowth c)))
      (@YoY.calculateYoYComparison Ref.host Ref.parse_number Cases.soaring)
  = [("2024-02", None); ("2024-03", Some (literal (4037 # 10)))].
Proof. vm_compute. reflexivity. Qed.

(** Revenues of 1 and 2: the percentages 33.33333333333333 and
    66.66666666666666 do not add up to 100. *)
Example analyzeBrands_thirds_example :
  let out := Brands.analyzeBrands Cases.oneAndTwo in
  (map (fun b => (Brands.brand b, Qred (Brands.percentage b))) out,
   Qlt_bool (sumQ (map Brands.percentage out)) 100)
  = ([("LG 樂金", Qred (fmul (literal (2 # 3)) 100));
      ("Sony", Qred (fmul (literal (1 # 3)) 100))],
     true).
Proof. vm_compute. reflexivity. Qed.

(** Band revenues of 3, 70000 and 30000: the percentages do not add up to
    100 either. *)
Example analyzePriceBands_rounded_example :
  let out := PriceBands.analyzePriceBands (Cases.oneAndTwo ++ Sample.sales) in
  (map PriceBands.range out,
   Qeq_bool (sumQ (map PriceBands.percent out)) 100)
  = (["平價 (<3k)"; "中階 (10k-25k)"; "高階 (25k-40k)"], false).
Proof. vm_compute. reflexivity. Qed.

(** Under the class-A filter the view keeps the records of the class-A
    product, and the decisions of that product only. *)
Example filteredData_view_example :
  let global := Performance.analyzePerformance Sample.sales in
  let view := @Dashboard.filteredData Ref.host global Cases.decisions Sample.sales
                                      "All" "All" "A (核心)" in
  (map Performance.productName (Dashboard.performanceMetrics view),
   map Dashboard.productName (Dashboard.decisions view),
   map (fun d => nth 3 (@Dashboard.exportRow Ref.host view d) "") (Dashboard.decisions view))
  = (["LG Fridge X"], ["LG Fridge X"], ["A (核心)"]).
Proof. vm_compute. reflexivity. Qed.

(** The chart rows of the sample points: January with both categories,
    February with no heating point. *)
Example chartData_example :
  TrendChart.chartData Cases.points
  = [ [("month", VString "2025-01"); ("Cooling", VNumber (Fin 5));
       ("Heating", VNumber (Fin 120))];
      [("month", VString "2025-02"); ("Cooling", VNumber (Fin 10));
       ("Heating", VNumber (Fin 0))] ].
Proof. vm_compute. reflexivity. Qed.

(** The exported text of the class-A view reads back to the header and the
    one decision shown, whose reason holds a comma, double quotes and a
    line feed. *)
Example exportContent_example :
  let global := Performance.analyzePerformance Sample.sales in
  let view := @Dashboard.filteredData Ref.host global Cases.decisions Sample.sales
                                      "All" "All" "A (核心)" in
  option_map (map (fun row => nth 5 row ""))
             (readCsv Expect "" [] [] (@Dashboard.exportContent Ref.host view))
  = Some ["分析理由"; Cases.quotedReason].
Proof. vm_compute. reflexivity. Qed.

Lemma legacy_view_relabels_witness :
  0 < sumQ (map Amount
              (Dashboard.filterRecords (Performance.analyzePerformance Sample.sales)
                                       Sample.sales "All" "All" "A (核心)")) /\
  Forall (fun r => 0 <= Amount r) Sample.sales /\
  (Z.of_nat (List.length Sample.sales) < 2 ^ 32)%Z /\
  exists front row,
    Dashboard.performanceMetrics
      (@LegacyDashboard.filteredData Ref.host (Performance.analyzePerformance Sample.sales)
                                     Cases.decisions Sample.sales "All" "All" "A (核心)")
    = front ++ [row] /\
    Performance.abcClass row = Performance.ClassC.
Proof.
  assert (H : 0 < sumQ (map Amount
                (Dashboard.filterRecords (Performance.analyzePerformance Sample.sales)
                                         Sample.sales "All" "All" "A (核心)")))
    by (vm_compute; reflexivity).
  assert (N : Forall (fun r => 0 <= Amount r) Sample.sales).
  { repeat constructor; discriminate. }
  assert (L : (Z.of_nat (List.length Sample.sales) < 2 ^ 32)%Z) by reflexivity.
  split; [exact H|]. split; [exact N|]. split; [exact L|].
  destruct (legacy_view_relabels (host:=Ref.host) Sample.sales Cases.decisions
                                 "All" "All" "A (核心)" H N L)
    as [front [row [Hout [Hclass _]]]].
  exists front, row. split; [exact Hout|exact Hclass].
Defined.

(** Without the condition on the amounts the last row need not be of
    class C: an order of 2 * 10^16, its refund and a sale of 1 leave the
    last cumulative share at 0, class A. *)
Example legacy_view_cancellation_example :
  let global := Performance.analyzePerformance Sample.refund in
  let view := @LegacyDashboard.filteredData Ref.host global [] Sample.refund
                                            "All" "All" "All" in
  (Qlt_bool 0 (sumQ (map Amount (Dashboard.filterRecords global Sample.refund
                                                         "All" "All" "All"))),
   map (fun p => (Performance.productName p, Performance.abcClass p))
       (Dashboard.performanceMetrics view))
  = (true, [("Bulk order", Performance.ClassC); ("Cable", Performance.ClassC);
            ("Bulk refund", Performance.ClassA)]).
Proof. vm_compute. reflexivity. Qed.

(** Under the class-A filter the earlier dashboard shows the class-A
    product of the sample sales labelled C; the later one keeps A. *)
Example legacy_view_example :
  let global := Performance.analyzePerformance Sample.sales in
  (map (fun p => (Performance.productName p, Performance.abcClass p))
       (Dashboard.performanceMetrics
          (@LegacyDashboard.filteredData Ref.host global Cases.decisions Sample.sales
                                         "All" "All" "A (核心)")),
   map (fun p => (Performance.productName p, Performance.abcClass p))
       (Dashboard.performanceMetrics
          (@Dashboard.filteredData Ref.host global Cases.decisions Sample.sales
                                   "All" "All" "A (核心)")))
  = ([("LG Fridge X", Performance.ClassC)], [("LG Fridge X", Performance.ClassA)]).
Proof. vm_compute. reflexivity. Qed.

Lemma normalizeData_distinct_rows_witness :
  exists rows,
    mapM (@normalizeRow Ref.host) [Sample.saleRow; Sample.garbledRow] = Ok rows /\
    NoDup (map (@keyOf Ref.host) rows) /\
    @Part002.normalizeData Ref.host [Sample.saleRow; Sample.garbledRow]
    = Ok (map unflagged (filter positiveSale rows)).
Proof.
  destruct (mapM (@normalizeRow Ref.host) [Sample.saleRow; Sample.garbledRow])
    as [rows|e] eqn:E; [|vm_compute in E; discriminate E].
  exists rows. split; [reflexivity|].
  assert (Hnd : NoDup (map (@keyOf Ref.host) rows)).
  { vm_compute in E. injection E as <-.
    cbn [map]. apply NoDup_cons; [|apply NoDup_cons; [intros []|apply NoDup_nil]].
    intros [H|[]]. vm_compute in H. discriminate H. }
  split; [exact Hnd|].
  exact (proj2 (normalizeData_distinct_rows (host:=Ref.host)
                  [Sample.saleRow; Sample.garbledRow] rows E Hnd)).
Defined.
